(** * ElevenLabs credit usage analyzer ([credits.py]): model and properties

    A shallow embedding of the reporting script.  Python integers are [Z],
    Python strings are [string] (compared code unit by code unit), the
    dictionaries built for each API call are finite maps from field names to
    values, and the remote client is an interface over an explicit world
    state, so that every remote call may answer differently or raise. *)

From Stdlib Require Import ZArith String Ascii List Lia DecimalString OrdersEx.
From stdpp Require Import gmap strings list fin_maps sorting.

Set Warnings "-register-all".

Local Open Scope string_scope.
Local Open Scope Z_scope.

(** ** Python values, exceptions and results *)

(** The values that end up in a report: [None], integers, strings and nested
    dictionaries (kept as association lists in construction order). *)
Inductive value : Type :=
  | VNone
  | VInt (n : Z)
  | VStr (s : string)
  | VDict (items : list (string * value)).

(** Truth value of an object in a condition ([if x:]). *)
Definition truthy (v : value) : bool :=
  match v with
  | VNone => false
  | VInt n => negb (n =? 0)
  | VStr s => negb (String.eqb s "")
  | VDict items => match items with [] => false | _ => true end
  end.

Inductive exn : Type :=
  | KeyError (key : string)
  | TypeError (msg : string)
  | AttributeError (msg : string)
  | ValueError (msg : string)
  | ApiError (msg : string).

(** [str(e)] for a caught exception. *)
Definition exn_str (e : exn) : string :=
  match e with
  | KeyError key => ("'" ++ key ++ "'")%string
  | TypeError msg | AttributeError msg | ValueError msg | ApiError msg => msg
  end.

(** A computation either returns or raises. *)
Inductive result (A : Type) : Type :=
  | Ok (a : A)
  | Raise (e : exn).
Arguments Ok {A} a.
Arguments Raise {A} e.

Definition bind {A B : Type} (r : result A) (k : A -> result B) : result B :=
  match r with
  | Ok a => k a
  | Raise e => Raise e
  end.

Notation "x <- r ;; k" := (bind r (fun x => k))
  (at level 100, r at next level, right associativity,
   format "x  <-  r  ;;  '/' k").

(** An attribute of a duck-typed remote object: not there at all
    ([hasattr] is false), there but [None], or there with a value. *)
Inductive attr (A : Type) : Type :=
  | Missing
  | Null
  | Has (a : A).
Arguments Missing {A}.
Arguments Null {A}.
Arguments Has {A} a.

(** A call record is a dictionary with string keys. *)
Abbreviation record := (gmap string value).

(** [d[key]] *)
Definition getitem (d : record) (key : string) : result value :=
  match d !! key with
  | Some v => Ok v
  | None => Raise (KeyError key)
  end.

(** [d.get(key)] and [d.get(key, default)] *)
Definition get_or (d : record) (key : string) (default : value) : value :=
  match d !! key with
  | Some v => v
  | None => default
  end.

(** ** Timestamp normalizer *)

Definition normalize_timestamp (timestamp : Z) : Z :=
  if timestamp <? 32503680000 then timestamp * 1000 else timestamp.

(** ** Remote objects of the speech-history endpoint *)

(** One past speech-generation call, as [client.history.list] returns it.
    The two character counters are the attributes the script probes with
    [hasattr]; [voice_category] and [source] are [None] when the script's
    truth test on them fails and the [str(...)] of the attribute otherwise;
    [feedback] holds [feedback.dict()] when there is feedback. *)
Record history_item : Type := HistoryItem {
  history_item_id : string;
  date_unix : Z;
  character_count_change_from : attr Z;
  character_count_change_to : attr Z;
  text : value;
  voice_id : value;
  voice_name : option string;
  voice_category : option string;
  model_id : value;
  content_type : value;
  source : option string;
  request_id : value;
  settings : value;
  feedback : option (list (string * value));
}.

Record history_response : Type := HistoryResponse {
  history : list history_item;
  has_more : bool;
  last_history_item_id : option string;
}.

(** ** Remote objects of the conversational endpoints *)

Record conversation_summary : Type := ConversationSummary {
  conversation_id : string;
  agent_id : value;
  start_time_unix_secs : Z;
  call_duration_secs : value;
  status : string;
}.

Record llm_usage_info : Type := LlmUsage {
  total_tokens : attr Z;
}.

Record transcript_item : Type := TranscriptItem {
  role : string;
  llm_usage : attr llm_usage_info;
}.

Record conversation_metadata : Type := ConversationMetadata {
  cost : attr Z;
  meta_start_time_unix_secs : Z;
  meta_call_duration_secs : value;
  accepted_time_unix_secs : value;
  termination_reason : value;
  main_language : value;
  charging : option (list (string * value));
  phone_call : option (list (string * value));
  error : option (list (string * value));
}.

(** The detail record of one conversation; [metadata] is [None] when the
    remote service sent none. *)
Record conversation_detail : Type := ConversationDetail {
  metadata : option conversation_metadata;
  transcript : list transcript_item;
}.

Record conversations_response : Type := ConversationsResponse {
  conversations : list conversation_summary;
  cursor : attr string;
}.

(** ** The remote client

    Every call takes the state of the outside world and gives the next one
    back, so the same request may be answered differently each time. *)
Record ElevenLabs (W : Type) : Type := Client {
  history_list : Z -> option string -> W -> result history_response * W;
  conversations_list :
    option string -> Z -> Z -> Z -> W -> result conversations_response * W;
  conversations_get : string -> W -> result conversation_detail * W;
  user_get : W -> result (list (string * value)) * W;
  usage_get : Z -> Z -> W -> result value * W;
}.
Arguments history_list {W} _ _ _ _.
Arguments conversations_list {W} _ _ _ _ _ _.
Arguments conversations_get {W} _ _ _.
Arguments user_get {W} _ _.
Arguments usage_get {W} _ _ _ _.

(** ** Small helpers shared by the record builders *)

(** A Python dict literal. *)
Definition dict_of (items : list (string * value)) : record :=
  list_to_map items.

(** [str(x) if x else None] on an attribute kept as its string. *)
Definition str_or_none (x : option string) : value :=
  match x with
  | Some s => if String.eqb s "" then VNone else VStr s
  | None => VNone
  end.

(** An optional string attribute passed through as it is. *)
Definition opt_str (x : option string) : value :=
  match x with
  | Some s => VStr s
  | None => VNone
  end.

(** [x.dict() if x else None] *)
Definition dict_or_none (x : option (list (string * value))) : value :=
  match x with
  | Some d => VDict d
  | None => VNone
  end.

(** Reading an integer attribute without a guard. *)
Definition getattr_int (a : attr Z) (name : string) : result value :=
  match a with
  | Missing => Raise (AttributeError ("object has no attribute '" ++ name ++ "'"))
  | Null => Ok VNone
  | Has n => Ok (VInt n)
  end.

(** ** Credits of one speech call *)

Definition calculate_credits_used (item : history_item) : result Z :=
  match character_count_change_from item, character_count_change_to item with
  | Missing, _ | _, Missing => Ok 0
  | Has from, Has to => Ok (from - to)
  | Null, Has _ =>
      Raise (TypeError "unsupported operand type(s) for -: 'NoneType' and 'int'")
  | Has _, Null =>
      Raise (TypeError "unsupported operand type(s) for -: 'int' and 'NoneType'")
  | Null, Null =>
      Raise (TypeError "unsupported operand type(s) for -: 'NoneType' and 'NoneType'")
  end.

(** ** The two paginated fetchers *)

(** How the scan of one page of history ends: the page is exhausted, an item
    older than the window was met ([return all_history]), or an exception
    escaped the loop body. *)
Inductive scan_end : Type :=
  | PageDone
  | StopFetch
  | Failed (e : exn).

Section Fetchers.

(** [format_timestamp] renders milliseconds through the platform's date
    library, which raises on instants it cannot represent. *)
Variable format_timestamp : Z -> result string.

Context {W : Type}.
Variable client : ElevenLabs W.

(** The dictionary built for one speech call inside the window. *)
Definition speech_call_data (item : history_item) (item_time_ms : Z)
  : result record :=
  credits_used <- calculate_credits_used item ;;
  formatted_time <- format_timestamp item_time_ms ;;
  character_count_from <-
    getattr_int (character_count_change_from item) "character_count_change_from" ;;
  character_count_to <-
    getattr_int (character_count_change_to item) "character_count_change_to" ;;
  Ok (dict_of [
    ("type", VStr "speech_generation");
    ("id", VStr (history_item_id item));
    ("timestamp", VInt (date_unix item));
    ("timestamp_ms", VInt item_time_ms);
    ("formatted_time", VStr formatted_time);
    ("credits_used", VInt credits_used);
    ("text", text item);
    ("voice_id", voice_id item);
    ("voice_name", opt_str (voice_name item));
    ("voice_category", str_or_none (voice_category item));
    ("model_id", model_id item);
    ("content_type", content_type item);
    ("source", str_or_none (source item));
    ("character_count_from", character_count_from);
    ("character_count_to", character_count_to);
    ("request_id", request_id item);
    ("settings", settings item);
    ("feedback", dict_or_none (feedback item))
  ]).

(** The [for item in response.history] loop of [get_speech_history]. *)
Fixpoint scan_history (start_ms end_ms : Z) (items : list history_item)
    (all_history : list record) : list record * scan_end :=
  match items with
  | [] => (all_history, PageDone)
  | item :: rest =>
      let item_time_ms := date_unix item * 1000 in
      if (start_ms <=? item_time_ms) && (item_time_ms <=? end_ms) then
        match speech_call_data item item_time_ms with
        | Ok call_data =>
            scan_history start_ms end_ms rest (all_history ++ [call_data])
        | Raise e => (all_history, Failed e)
        end
      else if item_time_ms <? start_ms then (all_history, StopFetch)
      else scan_history start_ms end_ms rest all_history
  end.

(** The [while True] loop of [get_speech_history]; [fuel] bounds the number
    of pages requested, [None] means the bound was reached. *)
Fixpoint speech_history_loop (fuel : nat) (start_ms end_ms : Z)
    (start_after_id : option string) (all_history : list record) (w : W)
    : option (list record * W) :=
  match fuel with
  | O => None
  | S fuel' =>
      match history_list client 1000 start_after_id w with
      | (Raise e, w1) => Some (all_history, w1)
      | (Ok response, w1) =>
          match history response with
          | [] => Some (all_history, w1)
          | _ :: _ =>
              match scan_history start_ms end_ms (history response) all_history with
              | (all_history', StopFetch) => Some (all_history', w1)
              | (all_history', Failed e) => Some (all_history', w1)
              | (all_history', PageDone) =>
                  if negb (has_more response) then Some (all_history', w1)
                  else speech_history_loop fuel' start_ms end_ms
                         (last_history_item_id response) all_history' w1
              end
          end
      end
  end.

Definition get_speech_history (fuel : nat) (start_ms end_ms : Z) (w : W)
  : option (list record * W) :=
  speech_history_loop fuel start_ms end_ms None [] w.

(** Cost and token totals of one conversation detail. *)
Definition total_cost_of (m : option conversation_metadata) : result Z :=
  match m with
  | None =>
      Raise (AttributeError "'NoneType' object has no attribute 'cost'")
  | Some md =>
      match cost md with
      | Missing => Raise (AttributeError "object has no attribute 'cost'")
      | Null => Ok 0
      | Has c => Ok (if c =? 0 then 0 else c)
      end
  end.

Fixpoint sum_llm_tokens (items : list transcript_item) (total_llm_tokens : Z)
  : result Z :=
  match items with
  | [] => Ok total_llm_tokens
  | transcript_item :: rest =>
      match llm_usage transcript_item with
      | Has usage =>
          match total_tokens usage with
          | Has n => sum_llm_tokens rest (total_llm_tokens + n)
          | Null =>
              Raise (TypeError
                "unsupported operand type(s) for +=: 'int' and 'NoneType'")
          | Missing => sum_llm_tokens rest total_llm_tokens
          end
      | Missing | Null => sum_llm_tokens rest total_llm_tokens
      end
  end.

(** [len([t for t in transcript if t.role == r])] *)
Definition count_role (r : string) (items : list transcript_item) : Z :=
  Z.of_nat (length (List.filter (fun t => String.eqb (role t) r) items)).

(** The body of the inner [try]: what is built from a fetched detail. *)
Definition enriched_conv_data (conversation : conversation_summary)
    (detailed_conv : conversation_detail) : result record :=
  total_cost <- total_cost_of (metadata detailed_conv) ;;
  total_llm_tokens <- sum_llm_tokens (transcript detailed_conv) 0 ;;
  match metadata detailed_conv with
  | None =>
      Raise (AttributeError
        "'NoneType' object has no attribute 'start_time_unix_secs'")
  | Some md =>
      formatted_time <- format_timestamp (meta_start_time_unix_secs md * 1000) ;;
      Ok (dict_of [
        ("type", VStr "conversational_ai");
        ("id", VStr (conversation_id conversation));
        ("agent_id", agent_id conversation);
        ("timestamp", VInt (meta_start_time_unix_secs md));
        ("timestamp_ms", VInt (meta_start_time_unix_secs md * 1000));
        ("formatted_time", VStr formatted_time);
        ("credits_used", VInt total_cost);
        ("duration_secs", meta_call_duration_secs md);
        ("status", VStr (status conversation));
        ("total_llm_tokens", VInt total_llm_tokens);
        ("accepted_time", accepted_time_unix_secs md);
        ("termination_reason", termination_reason md);
        ("main_language", main_language md);
        ("charging_info", dict_or_none (charging md));
        ("phone_call_info", dict_or_none (phone_call md));
        ("error_info", dict_or_none (error md));
        ("transcript_summary", VDict [
           ("total_items", VInt (Z.of_nat (length (transcript detailed_conv))));
           ("user_messages", VInt (count_role "user" (transcript detailed_conv)));
           ("assistant_messages",
              VInt (count_role "assistant" (transcript detailed_conv)))
         ])
      ])
  end.

(** The [except] branch: list-level fields and the error note. *)
Definition degraded_conv_data (conversation : conversation_summary) (e : exn)
  : result record :=
  formatted_time <- format_timestamp (start_time_unix_secs conversation * 1000) ;;
  Ok (dict_of [
    ("type", VStr "conversational_ai");
    ("id", VStr (conversation_id conversation));
    ("agent_id", agent_id conversation);
    ("timestamp", VInt (start_time_unix_secs conversation));
    ("timestamp_ms", VInt (start_time_unix_secs conversation * 1000));
    ("formatted_time", VStr formatted_time);
    ("credits_used", VInt 0);
    ("duration_secs", call_duration_secs conversation);
    ("status", VStr (status conversation));
    ("error", VStr ("Could not fetch detailed data: " ++ exn_str e))
  ]).

(** One turn of [for conversation in response.conversations]: the detail
    fetch and the enrichment under the inner [try], the degraded record
    under its [except].  An exception of the handler itself escapes. *)
Definition conversation_step (conversation : conversation_summary) (w : W)
  : result record * W :=
  let (fetched, w1) :=
    conversations_get client (conversation_id conversation) w in
  match (detailed_conv <- fetched ;;
         enriched_conv_data conversation detailed_conv) with
  | Ok conv_data => (Ok conv_data, w1)
  | Raise e => (degraded_conv_data conversation e, w1)
  end.

Fixpoint scan_conversations (convs : list conversation_summary)
    (all_conversations : list record) (w : W)
    : result (list record) * W :=
  match convs with
  | [] => (Ok all_conversations, w)
  | conversation :: rest =>
      match conversation_step conversation w with
      | (Ok conv_data, w1) =>
          scan_conversations rest (all_conversations ++ [conv_data]) w1
      | (Raise e, w1) => (Raise e, w1)
      end
  end.

(** The [while True] loop of [get_conversation_history], inside the outer
    [try]. *)
Fixpoint conversation_loop (fuel : nat) (start_unix_secs end_unix_secs : Z)
    (cursor_ : option string) (all_conversations : list record) (w : W)
    : option (result (list record) * W) :=
  match fuel with
  | O => None
  | S fuel' =>
      match conversations_list client cursor_ start_unix_secs end_unix_secs
              100 w with
      | (Raise e, w1) => Some (Raise e, w1)
      | (Ok response, w1) =>
          match conversations response with
          | [] => Some (Ok all_conversations, w1)
          | _ :: _ =>
              match scan_conversations (conversations response)
                      all_conversations w1 with
              | (Raise e, w2) => Some (Raise e, w2)
              | (Ok all_conversations', w2) =>
                  match cursor response with
                  | Has c =>
                      if String.eqb c "" then Some (Ok all_conversations', w2)
                      else conversation_loop fuel' start_unix_secs
                             end_unix_secs (Some c) all_conversations' w2
                  | Missing | Null => Some (Ok all_conversations', w2)
                  end
              end
          end
      end
  end.

(** The outer [except] turns any escaped exception into the empty list. *)
Definition get_conversation_history (fuel : nat) (start_ms end_ms : Z) (w : W)
  : option (list record * W) :=
  match conversation_loop fuel (start_ms / 1000) (end_ms / 1000) None [] w with
  | None => None
  | Some (Ok all_conversations, w1) => Some (all_conversations, w1)
  | Some (Raise e, w1) => Some ([], w1)
  end.

End Fetchers.

(** ** Aggregator *)

(** The values that can key a dictionary. *)
Inductive hkey : Type :=
  | KNone
  | KInt (n : Z)
  | KStr (s : string).

#[global] Instance hkey_eq_dec : EqDecision hkey.
Proof. solve_decision. Defined.

Definition hkey_to_sum (k : hkey) : unit + (Z + string) :=
  match k with
  | KNone => inl tt
  | KInt n => inr (inl n)
  | KStr s => inr (inr s)
  end.

Definition hkey_of_sum (x : unit + (Z + string)) : hkey :=
  match x with
  | inl _ => KNone
  | inr (inl n) => KInt n
  | inr (inr s) => KStr s
  end.

#[global] Program Instance hkey_countable : Countable hkey :=
  inj_countable' hkey_to_sum hkey_of_sum _.
Next Obligation. intros [| |]; reflexivity. Qed.

(** Hashing a value to use it as a key. *)
Definition as_key (v : value) : result hkey :=
  match v with
  | VNone => Ok KNone
  | VInt n => Ok (KInt n)
  | VStr s => Ok (KStr s)
  | VDict _ => Raise (TypeError "unhashable type: 'dict'")
  end.

(** One entry of a breakdown: [{"count": ..., "credits": ...}]. *)
Record bucket : Type := Bucket {
  count : Z;
  credits : Z;
}.

Abbreviation breakdown := (gmap hkey bucket).

Record usage_summary : Type := UsageSummary {
  total_api_calls : Z;
  total_credits_used : Z;
  breakdown_by_type : breakdown;
  breakdown_by_source : breakdown;
  breakdown_by_voice : breakdown;
  earliest_call : value;
  latest_call : value;
}.

(** [call.get("credits_used", 0)] as a summand of an integer total. *)
Definition credits_of (call : record) : result Z :=
  match get_or call "credits_used" (VInt 0) with
  | VInt n => Ok n
  | VNone =>
      Raise (TypeError "unsupported operand type(s) for +: 'int' and 'NoneType'")
  | VStr _ =>
      Raise (TypeError "unsupported operand type(s) for +: 'int' and 'str'")
  | VDict _ =>
      Raise (TypeError "unsupported operand type(s) for +: 'int' and 'dict'")
  end.

(** [sum(call.get("credits_used", 0) for call in all_calls)] *)
Fixpoint sum_credits (all_calls : list record) (total : Z) : result Z :=
  match all_calls with
  | [] => Ok total
  | call :: rest => c <- credits_of call ;; sum_credits rest (total + c)
  end.

(** Creating the entry when the key is new, then the two [+=]. *)
Definition bump (by_key : breakdown) (k : hkey) (c : Z) : breakdown :=
  let b := match by_key !! k with
           | Some b => b
           | None => Bucket 0 0
           end in
  <[k := Bucket (count b + 1) (credits b + c)]> by_key.

(** [x == "speech_generation"] *)
Definition is_speech_generation (v : value) : bool :=
  match v with
  | VStr s => String.eqb s "speech_generation"
  | _ => false
  end.

Fixpoint group_by_type (all_calls : list record) (by_type : breakdown)
  : result breakdown :=
  match all_calls with
  | [] => Ok by_type
  | call :: rest =>
      call_type <- getitem call "type" ;;
      k <- as_key call_type ;;
      c <- credits_of call ;;
      group_by_type rest (bump by_type k c)
  end.

(** The loops for [by_source] and [by_voice], which differ in the field. *)
Fixpoint group_speech_by (field : string) (all_calls : list record)
    (by_field : breakdown) : result breakdown :=
  match all_calls with
  | [] => Ok by_field
  | call :: rest =>
      call_type <- getitem call "type" ;;
      if is_speech_generation call_type && truthy (get_or call field VNone) then
        v <- getitem call field ;;
        k <- as_key v ;;
        c <- credits_of call ;;
        group_speech_by field rest (bump by_field k c)
      else group_speech_by field rest by_field
  end.

(** [a < b] on values; ordering is defined inside one type only. *)
Definition value_lt (a b : value) : result bool :=
  match a, b with
  | VInt x, VInt y => Ok (x <? y)
  | VStr x, VStr y => Ok (String.ltb x y)
  | _, _ => Raise (TypeError "'<' not supported between instances")
  end.

(** [a > b] on values. *)
Definition value_gt (a b : value) : result bool :=
  match a, b with
  | VInt x, VInt y => Ok (y <? x)
  | VStr x, VStr y => Ok (String.ltb y x)
  | _, _ => Raise (TypeError "'>' not supported between instances")
  end.

(** The scan of [min]/[max] over the generator
    [call["formatted_time"] for call in all_calls]: each next item replaces
    the current best when [better item best] holds. *)
Fixpoint best_formatted_time (better : value -> value -> result bool)
    (all_calls : list record) (best : value) : result value :=
  match all_calls with
  | [] => Ok best
  | call :: rest =>
      item <- getitem call "formatted_time" ;;
      replace <- better item best ;;
      best_formatted_time better rest (if replace then item else best)
  end.

Definition extreme_formatted_time (better : value -> value -> result bool)
    (all_calls : list record) : result value :=
  match all_calls with
  | [] => Ok VNone
  | call :: rest =>
      first <- getitem call "formatted_time" ;;
      best_formatted_time better rest first
  end.

Definition summarize_usage (all_calls : list record) : result usage_summary :=
  total_credits <- sum_credits all_calls 0 ;;
  by_type <- group_by_type all_calls ∅ ;;
  by_source <- group_speech_by "source" all_calls ∅ ;;
  by_voice <- group_speech_by "voice_name" all_calls ∅ ;;
  earliest <- extreme_formatted_time value_lt all_calls ;;
  latest <- extreme_formatted_time value_gt all_calls ;;
  Ok {| total_api_calls := Z.of_nat (length all_calls);
        total_credits_used := total_credits;
        breakdown_by_type := by_type;
        breakdown_by_source := by_source;
        breakdown_by_voice := by_voice;
        earliest_call := earliest;
        latest_call := latest |}.

(** ** Report assembly and the entry point *)

Record cli_args : Type := CliArgs {
  start_timestamp : Z;
  end_timestamp : Z;
  output : option string;
  pretty : bool;
  summary_only : bool;
}.

(** What [parser.parse_args()] does with the command line: it returns the
    parsed arguments, or it ends the process on the spot, with status 2
    after a usage error (an argument that is missing or unknown, a timestamp
    that is not an integer) and with status 0 after printing the help. *)
Inductive parse_outcome : Type :=
  | Parsed (args : cli_args)
  | UsageError
  | HelpShown.

Record query_info : Type := QueryInfo {
  q_start_timestamp : Z;
  q_end_timestamp : Z;
  q_start_timestamp_ms : Z;
  q_end_timestamp_ms : Z;
  q_start_time_formatted : string;
  q_end_time_formatted : string;
  q_generated_at : string;
}.

(** [output_data]; [individual_calls] is absent in summary-only mode. *)
Record report : Type := Report {
  r_query_info : query_info;
  r_subscription_info : value;
  r_summary : usage_summary;
  r_usage_analytics : value;
  r_individual_calls : option (list record);
}.

(** [str(n)] for an integer. *)
Definition str_of_int (n : Z) : string :=
  NilZero.string_of_int (Z.to_int n).

(** [all_calls.sort(key=lambda x: x["timestamp"])]: the keys are read first,
    then the list is sorted stably with [<] on the keys. *)
Fixpoint timestamp_keys (all_calls : list record)
  : result (list (value * record)) :=
  match all_calls with
  | [] => Ok []
  | call :: rest =>
      k <- getitem call "timestamp" ;;
      keyed <- timestamp_keys rest ;;
      Ok ((k, call) :: keyed)
  end.

Fixpoint insert_by_key (x : value * record) (sorted : list (value * record))
  : result (list (value * record)) :=
  match sorted with
  | [] => Ok [x]
  | y :: rest =>
      behind <- value_lt (fst y) (fst x) ;;
      if behind then (rest' <- insert_by_key x rest ;; Ok (y :: rest'))
      else Ok (x :: y :: rest)
  end.

(** Insertion from the right end: an element goes behind the smaller keys
    only, so equal keys keep their order. *)
Fixpoint sort_keyed (keyed : list (value * record))
  : result (list (value * record)) :=
  match keyed with
  | [] => Ok []
  | x :: rest => sorted <- sort_keyed rest ;; insert_by_key x sorted
  end.

Definition sort_by_timestamp (all_calls : list record) : result (list record) :=
  keyed <- timestamp_keys all_calls ;;
  sorted <- sort_keyed keyed ;;
  Ok (List.map snd sorted).

Section Main.

Variable format_timestamp : Z -> result string.

Context {W : Type}.

(** [ElevenLabs(api_key=...)] *)
Variable connect : string -> W -> result (ElevenLabs W) * W.
(** [time.time()] in milliseconds *)
Variable time_ms : W -> Z.
(** [json.dumps(output_data, indent=2 if pretty else None, ...)] *)
Variable json_dumps : report -> bool -> result string.
(** [open(name, 'w').write(text)] *)
Variable write_file : string -> string -> W -> result unit * W.

Definition get_subscription_info (client : ElevenLabs W) (w : W) : value * W :=
  match user_get client w with
  | (Ok subscription_data, w1) => (VDict subscription_data, w1)
  | (Raise e, w1) => (VDict [("error", VStr (exn_str e))], w1)
  end.

Definition get_usage_analytics (client : ElevenLabs W) (start_ms end_ms : Z)
    (w : W) : value * W :=
  match usage_get client (start_ms / 1000) (end_ms / 1000) w with
  | (Ok analytics, w1) =>
      match format_timestamp (time_ms w1) with
      | Ok fetched_at =>
          (VDict [("usage_analytics", analytics);
                  ("fetched_at", VStr fetched_at)], w1)
      | Raise e => (VDict [("error", VStr (exn_str e))], w1)
      end
  | (Raise e, w1) => (VDict [("error", VStr (exn_str e))], w1)
  end.

(** Everything [main] does once the client exists.  [None]: a fetcher did
    not come back within [fuel] pages; [Raise]: an exception escaped. *)
Definition run_report (fuel : nat) (client : ElevenLabs W) (args : cli_args)
    (start_ms end_ms : Z) (auto_filename : string) (w : W)
    : option (result unit * W) :=
  let (subscription_info, w1) := get_subscription_info client w in
  match get_speech_history format_timestamp client fuel start_ms end_ms w1 with
  | None => None
  | Some (speech_history, w2) =>
      match get_conversation_history format_timestamp client fuel
              start_ms end_ms w2 with
      | None => None
      | Some (conversation_history, w3) =>
          let (usage_analytics, w4) :=
            get_usage_analytics client start_ms end_ms w3 in
          match (all_calls <- sort_by_timestamp
                                (speech_history ++ conversation_history) ;;
                 summary <- summarize_usage all_calls ;;
                 start_time_formatted <- format_timestamp start_ms ;;
                 end_time_formatted <- format_timestamp end_ms ;;
                 generated_at <- format_timestamp (time_ms w4) ;;
                 let output_data :=
                   {| r_query_info :=
                        {| q_start_timestamp := start_timestamp args;
                           q_end_timestamp := end_timestamp args;
                           q_start_timestamp_ms := start_ms;
                           q_end_timestamp_ms := end_ms;
                           q_start_time_formatted := start_time_formatted;
                           q_end_time_formatted := end_time_formatted;
                           q_generated_at := generated_at |};
                      r_subscription_info := subscription_info;
                      r_summary := summary;
                      r_usage_analytics := usage_analytics;
                      r_individual_calls :=
                        if summary_only args then None else Some all_calls |} in
                 json_dumps output_data (pretty args)) with
          | Raise e => Some (Raise e, w4)
          | Ok json_output =>
              match write_file auto_filename json_output w4 with
              | (Raise e, w5) => Some (Raise e, w5)
              | (Ok _, w5) =>
                  match output args with
                  | Some path =>
                      if String.eqb path "" then Some (Ok tt, w5)
                      else Some (write_file path json_output w5)
                  | None => Some (Ok tt, w5)
                  end
              end
          end
      end
  end.

(** The exit status of the process: the status of the argument parser when
    it ends the run, [sys.exit(1)] on the three checks, 1 when an exception
    escapes, 0 when [main] runs to its end.  [parsed] is what
    [parser.parse_args()] does, [api_key] what [os.getenv] gives. *)
Definition main (fuel : nat) (api_key : option string) (parsed : parse_outcome)
    (w : W) : option (Z * W) :=
  match parsed with
  | UsageError => Some (2, w)
  | HelpShown => Some (0, w)
  | Parsed args =>
      match api_key with
      | None => Some (1, w)
      | Some key =>
          if String.eqb key "" then Some (1, w)
          else
            let start_ms := normalize_timestamp (start_timestamp args) in
            let end_ms := normalize_timestamp (end_timestamp args) in
            if start_ms >=? end_ms then Some (1, w)
            else
              let current_timestamp := time_ms w / 1000 in
              let auto_filename :=
                ("api_stats_" ++ str_of_int current_timestamp ++ ".json")%string
              in
              match (s <- format_timestamp start_ms ;;
                     e <- format_timestamp end_ms ;; Ok (s, e)) with
              | Raise e => Some (1, w)
              | Ok _ =>
                  match connect key w with
                  | (Raise e, w1) => Some (1, w1)
                  | (Ok client, w1) =>
                      match run_report fuel client args start_ms end_ms
                              auto_filename w1 with
                      | None => None
                      | Some (Ok _, w2) => Some (0, w2)
                      | Some (Raise e, w2) => Some (1, w2)
                      end
                  end
              end
      end
  end.

End Main.

(** ** A date library and a canned client, for running the model *)

Definition digit (n : Z) : string :=
  String (ascii_of_nat (48 + Z.to_nat (n mod 10))) "".

Definition pad2 (n : Z) : string := (digit (n / 10) ++ digit n)%string.

(** Year, month and day of a day count since 1970-01-01 (proleptic
    Gregorian calendar). *)
Definition civil_from_days (days : Z) : Z * Z * Z :=
  let z := days + 719468 in
  let era := z / 146097 in
  let doe := z - era * 146097 in
  let yoe := (doe - doe / 1460 + doe / 36524 - doe / 146096) / 365 in
  let doy := doe - (365 * yoe + yoe / 4 - yoe / 100) in
  let mp := (5 * doy + 2) / 153 in
  let d := doy - (153 * mp + 2) / 5 + 1 in
  let m := if mp <? 10 then mp + 3 else mp - 9 in
  let y := yoe + era * 400 + (if m <=? 2 then 1 else 0) in
  (y, m, d).

(** [datetime.utcfromtimestamp(ms / 1000).strftime('%Y-%m-%d %H:%M:%S UTC')]
    as CPython on Linux does it: the instants of the years 1 to 9999 are
    rendered, the year without padding, and the fraction of a second is
    dropped towards the past; outside these years the conversion raises
    [ValueError] with the year it came to.  (Further out than the platform's
    calendar conversion reaches, some 2^31 years either way, the platform
    raises an [OSError] or [OverflowError] instead; this instance keeps the
    [ValueError] there.) *)
Definition utc_format_timestamp (timestamp_ms : Z) : result string :=
  let secs := timestamp_ms / 1000 in
  let '(y, m, d) := civil_from_days (secs / 86400) in
  if (-62135596800000 <=? timestamp_ms) && (timestamp_ms <? 253402300800000)
  then
    let sod := secs mod 86400 in
    Ok (str_of_int y ++ "-" ++ pad2 m ++ "-" ++ pad2 d ++ " " ++
        pad2 (sod / 3600) ++ ":" ++ pad2 (sod mod 3600 / 60) ++ ":" ++
        pad2 (sod mod 60) ++ " UTC")%string
  else Raise (ValueError ("year " ++ str_of_int y ++ " is out of range")).

(** A remote service that plays back prepared answers: history pages and
    conversation pages in order, details looked up by conversation id. *)
Record canned : Type := Canned {
  history_pages : list (result history_response);
  conversation_pages : list (result conversations_response);
  details : list (string * result conversation_detail);
  requests : nat;
}.

Fixpoint assoc_detail (id : string)
    (l : list (string * result conversation_detail))
  : result conversation_detail :=
  match l with
  | [] => Raise (ApiError "conversation not found")
  | (k, d) :: rest => if String.eqb k id then d else assoc_detail id rest
  end.

Definition canned_client : ElevenLabs canned :=
  {| history_list := fun _ _ w =>
       match history_pages w with
       | [] => (Raise (ApiError "no more pages"), w)
       | p :: rest =>
           (p, Canned rest (conversation_pages w) (details w) (S (requests w)))
       end;
     conversations_list := fun _ _ _ _ w =>
       match conversation_pages w with
       | [] => (Raise (ApiError "no more pages"), w)
       | p :: rest =>
           (p, Canned (history_pages w) rest (details w) (S (requests w)))
       end;
     conversations_get := fun id w =>
       (assoc_detail id (details w),
        Canned (history_pages w) (conversation_pages w) (details w)
          (S (requests w)));
     user_get := fun w => (Raise (ApiError "not available"), w);
     usage_get := fun _ _ w => (Raise (ApiError "not available"), w) |}.

(** ** Vocabulary of the statements *)

(** The record carries a millisecond timestamp inside the inclusive window. *)
Definition in_window (start_ms end_ms : Z) (r : record) : Prop :=
  exists t, r !! "timestamp_ms" = Some (VInt t) /\ start_ms <= t <= end_ms.

(** The three time fields of a record agree with each other. *)
Definition time_consistent (format_timestamp : Z -> result string)
    (r : record) : Prop :=
  exists t f,
    r !! "timestamp" = Some (VInt t) /\
    r !! "timestamp_ms" = Some (VInt (t * 1000)) /\
    format_timestamp (t * 1000) = Ok f /\
    r !! "formatted_time" = Some (VStr f).

(** The window test of the speech fetcher on an item. *)
Definition item_in_window (start_ms end_ms : Z) (item : history_item) : bool :=
  (start_ms <=? date_unix item * 1000) && (date_unix item * 1000 <=? end_ms).

(** [r] is the dictionary the speech fetcher builds for [item]. *)
Definition speech_record_of (format_timestamp : Z -> result string)
    (item : history_item) (r : record) : Prop :=
  speech_call_data format_timestamp item (date_unix item * 1000) = Ok r.


(** [pages_scanned n cur acc w cur' acc' w']: from the loop state
    [(cur, acc, w)] the speech fetcher requests [n] pages, scans each to its
    end, is told each time that more follow, and reaches [(cur', acc', w')]. *)
Inductive pages_scanned (format_timestamp : Z -> result string) {W : Type}
    (client : ElevenLabs W) (start_ms end_ms : Z)
  : nat -> option string -> list record -> W ->
    option string -> list record -> W -> Prop :=
  | scanned_none cur acc w :
      pages_scanned format_timestamp client start_ms end_ms
        O cur acc w cur acc w
  | scanned_more n cur acc w response w1 acc1 cur' acc' w' :
      history_list client 1000 cur w = (Ok response, w1) ->
      history response <> [] ->
      scan_history format_timestamp start_ms end_ms (history response) acc
        = (acc1, PageDone) ->
      has_more response = true ->
      pages_scanned format_timestamp client start_ms end_ms
        n (last_history_item_id response) acc1 w1 cur' acc' w' ->
      pages_scanned format_timestamp client start_ms end_ms
        (S n) cur acc w cur' acc' w'.

(** What the speech fetcher may add to its result: the dictionary of some
    item that passed the window test. *)
Definition kept_record (format_timestamp : Z -> result string)
    (start_ms end_ms : Z) (r : record) : Prop :=
  exists item,
    item_in_window start_ms end_ms item = true /\
    speech_record_of format_timestamp item r.

(** The cost of a session in the words of the specification: the cost field
    of the metadata, and 0 when the metadata or the field is absent. *)
Definition total_cost_spec (d : conversation_detail) : Z :=
  match metadata d with
  | None => 0
  | Some md =>
      match cost md with
      | Has c => c
      | Missing | Null => 0
      end
  end.

(** What one transcript entry adds to the token total: its [total_tokens]
    when it exposes a token-usage sub-field, 0 otherwise. *)
Definition entry_tokens (t : transcript_item) : Z :=
  match llm_usage t with
  | Has usage =>
      match total_tokens usage with
      | Has n => n
      | Missing | Null => 0
      end
  | Missing | Null => 0
  end.

Definition total_llm_tokens_spec (d : conversation_detail) : Z :=
  fold_right Z.add 0 (List.map entry_tokens (transcript d)).

(** The entry exposes no token-usage sub-field. *)
Definition lacks_usage (t : transcript_item) : Prop :=
  llm_usage t = Missing \/ llm_usage t = Null.

(** A detail record the enrichment can work on: metadata with a cost
    attribute, and no token count that is [None]. *)
Definition tokens_readable (t : transcript_item) : bool :=
  match llm_usage t with
  | Has usage => match total_tokens usage with Null => false | _ => true end
  | Missing | Null => true
  end.

Definition detail_complete (format_timestamp : Z -> result string)
    (d : conversation_detail) : bool :=
  match metadata d with
  | None => false
  | Some md =>
      match cost md with Missing => false | _ => true end
      && forallb tokens_readable (transcript d)
      && match format_timestamp (meta_start_time_unix_secs md * 1000) with
         | Ok _ => true
         | Raise _ => false
         end
  end.

(** The answer to a detail request that the fetcher can turn into a record:
    a complete detail, or an exception for a session whose list-level start
    time can be rendered. *)
Definition answer_usable (format_timestamp : Z -> result string)
    (conversation : conversation_summary) (o : result conversation_detail)
  : bool :=
  match o with
  | Ok d => detail_complete format_timestamp d
  | Raise _ =>
      match format_timestamp (start_time_unix_secs conversation * 1000) with
      | Ok _ => true
      | Raise _ => false
      end
  end.

Definition failed {A : Type} (o : result A) : bool :=
  match o with
  | Ok _ => false
  | Raise _ => true
  end.

(** The record the fetcher emits for a session, given the answer to its
    detail request. *)
Definition emitted_for (format_timestamp : Z -> result string)
    (conversation : conversation_summary) (o : result conversation_detail)
    (r : record) : Prop :=
  match o with
  | Ok d => enriched_conv_data format_timestamp conversation d = Ok r
  | Raise e => degraded_conv_data format_timestamp conversation e = Ok r
  end.

(** The record has an [error] field. *)
Definition has_error (r : record) : bool :=
  match r !! "error" with
  | Some _ => true
  | None => false
  end.

(** The cursor the next request is made with, if the loop goes on. *)
Definition next_cursor (c : attr string) : option string :=
  match c with
  | Has s => if String.eqb s "" then None else Some s
  | Missing | Null => None
  end.

(** *** Vocabulary for the aggregator *)

(** A record's [credits_used], 0 when the field is absent. *)
Definition credit_value (call : record) : Z :=
  match call !! "credits_used" with
  | Some (VInt n) => n
  | _ => 0
  end.

Definition sum_Z (l : list Z) : Z := fold_right Z.add 0 l.

Definition hashable (v : value) : bool :=
  match v with
  | VDict _ => false
  | _ => true
  end.

Definition key_of_value (v : value) : option hkey :=
  match as_key v with
  | Ok k => Some k
  | Raise _ => None
  end.

(** The key under which a record is counted in [by_type]. *)
Definition type_key (call : record) : option hkey :=
  match call !! "type" with
  | Some v => key_of_value v
  | None => None
  end.

(** The record is a speech generation whose [field] is there and true. *)
Definition speech_with (field : string) (call : record) : bool :=
  match call !! "type" with
  | Some t => is_speech_generation t && truthy (get_or call field VNone)
  | None => false
  end.

(** The key under which a record is counted in [by_source] or [by_voice],
    if it is counted at all. *)
Definition speech_key (field : string) (call : record) : option hkey :=
  if speech_with field call then
    match call !! field with
    | Some v => key_of_value v
    | None => None
    end
  else None.

(** The records counted under key [k]. *)
Definition members (key_of : record -> option hkey) (k : hkey)
    (all_calls : list record) : list record :=
  List.filter (fun call => bool_decide (key_of call = Some k)) all_calls.

(** The entry a group of records makes: none for an empty group, else the
    number of records and the sum of their credits. *)
Definition bucket_of (group : list record) : option bucket :=
  match group with
  | [] => None
  | _ :: _ =>
      Some (Bucket (Z.of_nat (length group))
              (sum_Z (List.map credit_value group)))
  end.

(** What the aggregator needs of a record to return: a hashable [type], an
    integer [credits_used] if any, hashable [source] and [voice_name] where
    they are counted, and a [formatted_time] string. *)
Definition call_ok (call : record) : bool :=
  match call !! "type" with
  | Some t => hashable t
  | None => false
  end
  && match call !! "credits_used" with
     | None | Some (VInt _) => true
     | Some _ => false
     end
  && (negb (speech_with "source" call)
      || hashable (get_or call "source" VNone))
  && (negb (speech_with "voice_name" call)
      || hashable (get_or call "voice_name" VNone))
  && match call !! "formatted_time" with
     | Some (VStr _) => true
     | _ => false
     end.

(** The formatted-time strings of the records. *)
Definition formatted_times (all_calls : list record) : list string :=
  omap (fun call : record =>
          match call !! "formatted_time" with
          | Some (VStr f) => Some f
          | _ => None
          end) all_calls.

(** [m] is the lexicographic minimum (maximum) of [l]. *)
Definition lex_min (m : string) (l : list string) : Prop :=
  In m l /\ Forall (fun t => String.leb m t = true) l.

Definition lex_max (m : string) (l : list string) : Prop :=
  In m l /\ Forall (fun t => String.leb t m = true) l.

(** The sum of a field over the entries of a breakdown. *)
Definition bucket_total (f : bucket -> Z) (m : breakdown) : Z :=
  map_fold (fun _ b acc => f b + acc) 0 m.

(** The record has an integer [timestamp], the key [main] sorts on. *)
Definition has_int_timestamp (r : record) : Prop :=
  exists t, r !! "timestamp" = Some (VInt t).

(** The two records of the specification's aggregation example, as written
    there and with a [formatted_time] added to each. *)
Definition spec_example_calls : list record := [
  dict_of [("credits_used", VInt 5); ("type", VStr "speech_generation");
           ("source", VStr "api")];
  dict_of [("credits_used", VInt 3); ("type", VStr "conversational_ai")]
].

Definition timed_example_calls (f1 f2 : string) : list record := [
  dict_of [("credits_used", VInt 5); ("type", VStr "speech_generation");
           ("source", VStr "api"); ("formatted_time", VStr f1)];
  dict_of [("credits_used", VInt 3); ("type", VStr "conversational_ai");
           ("formatted_time", VStr f2)]
].

(** An entry of a breakdown after a further group of records was counted
    into it. *)
Definition extend_bucket (o : option bucket) (group : list record)
  : option bucket :=
  match group with
  | [] => o
  | _ :: _ =>
      let b := match o with Some b => b | None => Bucket 0 0 end in
      Some (Bucket (count b + Z.of_nat (length group))
              (credits b + sum_Z (List.map credit_value group)))
  end.

(** What the loop over one field needs of a record. *)
Definition field_ok (field : string) (call : record) : bool :=
  match call !! "type" with
  | Some _ => true
  | None => false
  end
  && match call !! "credits_used" with
     | None | Some (VInt _) => true
     | Some _ => false
     end
  && (negb (speech_with field call) || hashable (get_or call field VNone)).

(** ** Sample data for running the model *)

Definition sample_item (id : string) (t : Z) : history_item :=
  {| history_item_id := id;
     date_unix := t;
     character_count_change_from := Has 142;
     character_count_change_to := Has 100;
     text := VStr "Hello there";
     voice_id := VStr "21m00Tcm4TlvDq8ikWAM";
     voice_name := Some "Rachel";
     voice_category := Some "premade";
     model_id := VStr "eleven_multilingual_v2";
     content_type := VStr "audio/mpeg";
     source := Some "TTS";
     request_id := VStr "req_1";
     settings := VDict [("stability", VInt 1)];
     feedback := None |}.

Definition sample_newer : list history_item :=
  [sample_item "h4" 1700000500; sample_item "h3" 1700000300;
   sample_item "h2" 1700000200].

Definition sample_older : list history_item := [sample_item "h0" 1700000000].

Definition sample_page : history_response :=
  {| history := sample_newer ++ sample_item "h1" 1700000100 :: sample_older;
     has_more := true;
     last_history_item_id := Some "h0" |}.

(** A first page, all newer than the window or inside it. *)
Definition sample_first_page : history_response :=
  {| history := [sample_item "h6" 1700000600; sample_item "h5" 1700000350];
     has_more := true;
     last_history_item_id := Some "h5" |}.

Definition sample_start_ms : Z := 1700000150000.
Definition sample_end_ms : Z := 1700000400000.

Definition sample_conversation (id : string) (t : Z) : conversation_summary :=
  {| conversation_id := id;
     agent_id := VStr "agent_7";
     start_time_unix_secs := t;
     call_duration_secs := VInt 64;
     status := "done" |}.

Definition sample_transcript : list transcript_item :=
  [ {| role := "user"; llm_usage := Missing |};
    {| role := "assistant"; llm_usage := Has {| total_tokens := Has 35 |} |};
    {| role := "user"; llm_usage := Null |};
    {| role := "assistant"; llm_usage := Has {| total_tokens := Missing |} |};
    {| role := "assistant"; llm_usage := Has {| total_tokens := Has 7 |} |} ].

Definition sample_detail (t : Z) : conversation_detail :=
  {| metadata :=
       Some {| cost := Has 120;
               meta_start_time_unix_secs := t;
               meta_call_duration_secs := VInt 64;
               accepted_time_unix_secs := VInt (t + 1);
               termination_reason := VStr "";
               main_language := VStr "en";
               charging := None;
               phone_call := None;
               error := None |};
     transcript := sample_transcript |}.

Definition sample_conversations : conversations_response :=
  {| conversations :=
       [sample_conversation "conv1" 1700000210;
        sample_conversation "conv2" 1700000220;
        sample_conversation "conv3" 1700000230];
     cursor := Null |}.

(** The service has two pages of history and one page of three sessions; the
    detail request of the second session fails. *)
Definition sample_world : canned :=
  {| history_pages := [Ok sample_first_page; Ok sample_page];
     conversation_pages := [Ok sample_conversations];
     details :=
       [("conv1", Ok (sample_detail 1700000210));
        ("conv2", Raise (ApiError "status_code: 503"));
        ("conv3", Ok (sample_detail 1700000230))];
     requests := 0 |}.

(** The service after [n] requests that took [h] pages of history and the
    conversation page ([c]) or not. *)
Definition sample_world_after (h : nat) (c : bool) (n : nat) : canned :=
  {| history_pages := drop h (history_pages sample_world);
     conversation_pages := if c then [] else conversation_pages sample_world;
     details := details sample_world;
     requests := n |}.

Definition sample_connect (key : string) (w : canned)
  : result (ElevenLabs canned) * canned :=
  (Ok canned_client, w).

Definition sample_time_ms (w : canned) : Z :=
  1700000600000 + Z.of_nat (requests w).

Definition sample_json_dumps (output_data : report) (pretty_ : bool)
  : result string :=
  Ok "{}".

Definition sample_write_file (name content : string) (w : canned)
  : result unit * canned :=
  (Ok tt, w).

Definition sample_args (start_ end_ : Z) : cli_args :=
  {| start_timestamp := start_;
     end_timestamp := end_;
     output := None;
     pretty := false;
     summary_only := false |}.

(** The speech records kept by the sample window from the first page, and
    from it and the newer items of the second page. *)
Definition sample_first_kept : list record :=
  fst (scan_history utc_format_timestamp sample_start_ms sample_end_ms
         (history sample_first_page) []).

Definition sample_kept : list record :=
  fst (scan_history utc_format_timestamp sample_start_ms sample_end_ms
         sample_newer sample_first_kept).

(** The record built for the first sample session. *)
Definition sample_enriched : record :=
  match enriched_conv_data utc_format_timestamp
          (sample_conversation "conv1" 1700000210)
          (sample_detail 1700000210) with
  | Ok r => r
  | Raise _ => ∅
  end.

Definition failing_connect (key : string) (w : canned)
  : result (ElevenLabs canned) * canned :=
  (Raise (ApiError "connection refused"), w).

(** The aggregation example with two formatted times. *)
Definition sample_calls : list record :=
  timed_example_calls "2024-01-02 10:00:00 UTC" "2024-01-01 09:30:00 UTC".

(** ** Further vocabulary

    What the statements on the rest of the program need. *)

Local Open Scope list_scope.

(** The items a service hands out when its pages are followed as the
    protocol says: page after page, up to the first empty page or the first
    page that announces no more. *)
Fixpoint served_items (pages : list history_response) : list history_item :=
  match pages with
  | [] => []
  | page :: rest =>
      match history page with
      | [] => []
      | _ :: _ =>
          history page ++ (if has_more page then served_items rest else [])
      end
  end.

(** The timestamps do not increase along the list (newest first). *)
Definition newest_first (items : list history_item) : Prop :=
  StronglySorted (fun a b => date_unix b <= date_unix a) items.

(** [conversation_pages_scanned n listed cur acc w cur' acc' w']: from the
    loop state [(cur, acc, w)] the conversation fetcher requests [n] pages,
    turns every session of each into a record, finds a cursor on each, and
    reaches [(cur', acc', w')]; [listed] are the sessions of these pages in
    listing order. *)
Inductive conversation_pages_scanned (format_timestamp : Z -> result string)
    {W : Type} (client : ElevenLabs W) (start_unix_secs end_unix_secs : Z)
  : nat -> list conversation_summary ->
    option string -> list record -> W ->
    option string -> list record -> W -> Prop :=
  | conversations_scanned_none cur acc w :
      conversation_pages_scanned format_timestamp client
        start_unix_secs end_unix_secs O [] cur acc w cur acc w
  | conversations_scanned_more n listed cur acc w response w1 acc1 w2 c
      cur' acc' w' :
      conversations_list client cur start_unix_secs end_unix_secs 100 w
        = (Ok response, w1) ->
      conversations response <> [] ->
      scan_conversations format_timestamp client (conversations response)
        acc w1 = (Ok acc1, w2) ->
      next_cursor (cursor response) = Some c ->
      conversation_pages_scanned format_timestamp client
        start_unix_secs end_unix_secs n listed (Some c) acc1 w2 cur' acc' w' ->
      conversation_pages_scanned format_timestamp client
        start_unix_secs end_unix_secs (S n) (conversations response ++ listed)
        cur acc w cur' acc' w'.

(** The ids of a list of records, and those of a list of sessions as the
    records carry them. *)
Definition record_ids (records : list record) : list (option value) :=
  List.map (fun r : record => r !! "id") records.

Definition session_ids (convs : list conversation_summary)
  : list (option value) :=
  List.map (fun c => Some (VStr (conversation_id c))) convs.

(** The count of the entry under key [k], 0 when there is none. *)
Definition count_at (m : breakdown) (k : hkey) : Z :=
  match m !! k with
  | Some b => count b
  | None => 0
  end.

(** The record's [type] is there and can key a dictionary. *)
Definition type_ok (call : record) : bool :=
  match call !! "type" with
  | Some t => hashable t
  | None => false
  end.

(** The record's [credits_used] is absent or an integer. *)
Definition credits_ok (call : record) : bool :=
  match call !! "credits_used" with
  | None | Some (VInt _) => true
  | Some _ => false
  end.

(** The integer [timestamp] of a record (0 when it has none). *)
Definition timestamp_of (r : record) : Z :=
  match r !! "timestamp" with
  | Some (VInt t) => t
  | _ => 0
  end.

(** [a] is not later than [b]. *)
Definition by_timestamp (a b : record) : Prop :=
  timestamp_of a <= timestamp_of b.

(** A record paired with the key it is sorted on. *)
Definition keyed_right (kc : value * record) : Prop :=
  fst kc = VInt (timestamp_of (snd kc)).

Definition keyed_le (a b : value * record) : Prop :=
  by_timestamp (snd a) (snd b).

(** The records of a list that carry the timestamp [t], in their order. *)
Definition stamped_at (t : Z) (records : list record) : list record :=
  List.filter (fun r => timestamp_of r =? t) records.

(** ** The subscription reader in detail

    [get_subscription_info] builds its dictionary from the answer of
    [client.user.get()], under the same [try].  The records below are that
    answer; [read_subscription] is the request followed by the
    construction, which is what [user_get] of a client stands for. *)

(** [user_info.subscription]; [subscription_status] is [str(status)]. *)
Record subscription_response : Type := SubscriptionResponse {
  tier : value;
  character_count : value;
  character_limit : value;
  next_character_count_reset_unix : option Z;
  voice_slots_used : value;
  voice_limit : value;
  professional_voice_slots_used : value;
  professional_voice_limit : value;
  subscription_status : string;
  currency : option string;
}.

(** [user_info.subscription_extras.usage] *)
Record usage_response : Type := UsageResponse {
  rollover_credits_used : value;
  rollover_credits_quota : value;
  subscription_cycle_credits_used : value;
  subscription_cycle_credits_quota : value;
  manually_gifted_credits_used : value;
  manually_gifted_credits_quota : value;
  paid_usage_based_credits_used : value;
  actual_reported_credits : value;
}.

Record subscription_extras_response : Type := SubscriptionExtras {
  usage : option usage_response;
}.

Record user_response : Type := UserResponse {
  subscription : subscription_response;
  subscription_extras : option subscription_extras_response;
}.

(** An optional integer attribute passed through as it is. *)
Definition opt_int (x : option Z) : value :=
  match x with
  | Some n => VInt n
  | None => VNone
  end.

(** [format_timestamp(t * 1000) if t else None] *)
Definition next_reset_formatted_of (format_timestamp : Z -> result string)
    (next_reset : option Z) : result value :=
  match next_reset with
  | Some t =>
      if t =? 0 then Ok VNone
      else (formatted <- format_timestamp (t * 1000) ;; Ok (VStr formatted))
  | None => Ok VNone
  end.

Definition detailed_usage_of (usage_ : usage_response) : value :=
  VDict [
    ("rollover_credits_used", rollover_credits_used usage_);
    ("rollover_credits_quota", rollover_credits_quota usage_);
    ("subscription_cycle_credits_used", subscription_cycle_credits_used usage_);
    ("subscription_cycle_credits_quota",
       subscription_cycle_credits_quota usage_);
    ("manually_gifted_credits_used", manually_gifted_credits_used usage_);
    ("manually_gifted_credits_quota", manually_gifted_credits_quota usage_);
    ("paid_usage_based_credits_used", paid_usage_based_credits_used usage_);
    ("actual_reported_credits", actual_reported_credits usage_)
  ].

(** The body of the [try] after the request: [subscription_data], with
    [detailed_usage] added when the extras and their usage are there. *)
Definition subscription_data (format_timestamp : Z -> result string)
    (user_info : user_response) : result (list (string * value)) :=
  let subscription_ := subscription user_info in
  next_reset_formatted <-
    next_reset_formatted_of format_timestamp
      (next_character_count_reset_unix subscription_) ;;
  let subscription_data_ := [
    ("tier", tier subscription_);
    ("character_count_used", character_count subscription_);
    ("character_limit", character_limit subscription_);
    ("next_reset_unix", opt_int (next_character_count_reset_unix subscription_));
    ("next_reset_formatted", next_reset_formatted);
    ("voice_slots_used", voice_slots_used subscription_);
    ("voice_limit", voice_limit subscription_);
    ("professional_voice_slots_used",
       professional_voice_slots_used subscription_);
    ("professional_voice_limit", professional_voice_limit subscription_);
    ("status", VStr (subscription_status subscription_));
    ("currency", str_or_none (currency subscription_))
  ] in
  Ok (match subscription_extras user_info with
      | Some extras =>
          match usage extras with
          | Some usage_ =>
              subscription_data_ ++ [("detailed_usage", detailed_usage_of usage_)]
          | None => subscription_data_
          end
      | None => subscription_data_
      end).

(** [client.user.get()] and the construction that follows it. *)
Definition read_subscription (format_timestamp : Z -> result string)
    {W : Type} (get : W -> result user_response * W) (w : W)
  : result (list (string * value)) * W :=
  let (fetched, w1) := get w in
  (user_info <- fetched ;; subscription_data format_timestamp user_info, w1).

(** [d.get(key)] on a dictionary kept as an association list. *)
Fixpoint dict_get (key : string) (items : list (string * value))
  : option value :=
  match items with
  | [] => None
  | (k, v) :: rest => if String.eqb k key then Some v else dict_get key rest
  end.

(** The keys of a subscription dictionary without detailed usage. *)
Definition subscription_keys : list string :=
  ["tier"; "character_count_used"; "character_limit"; "next_reset_unix";
   "next_reset_formatted"; "voice_slots_used"; "voice_limit";
   "professional_voice_slots_used"; "professional_voice_limit"; "status";
   "currency"].

(** The answer carries detailed usage. *)
Definition has_detailed_usage (user_info : user_response) : bool :=
  match subscription_extras user_info with
  | Some extras => match usage extras with Some _ => true | None => false end
  | None => false
  end.

(** The reset time is there and not 0. *)
Definition reset_time (user_info : user_response) : option Z :=
  match next_character_count_reset_unix (subscription user_info) with
  | Some t => if t =? 0 then None else Some t
  | None => None
  end.

(** A sample answer and a client that serves it. *)
Definition sample_user (next_reset : option Z)
    (extras : option subscription_extras_response) : user_response :=
  {| subscription :=
       {| tier := VStr "creator";
          character_count := VInt 31200;
          character_limit := VInt 100000;
          next_character_count_reset_unix := next_reset;
          voice_slots_used := VInt 3;
          voice_limit := VInt 30;
          professional_voice_slots_used := VInt 0;
          professional_voice_limit := VInt 1;
          subscription_status := "active";
          currency := Some "usd" |};
     subscription_extras := extras |}.

Definition sample_usage : usage_response :=
  {| rollover_credits_used := VInt 0;
     rollover_credits_quota := VInt 0;
     subscription_cycle_credits_used := VInt 31200;
     subscription_cycle_credits_quota := VInt 100000;
     manually_gifted_credits_used := VInt 0;
     manually_gifted_credits_quota := VInt 0;
     paid_usage_based_credits_used := VInt 0;
     actual_reported_credits := VInt 31200 |}.

Definition sample_user_client (answer : result user_response)
  : ElevenLabs canned :=
  {| history_list := history_list canned_client;
     conversations_list := conversations_list canned_client;
     conversations_get := conversations_get canned_client;
     user_get :=
       read_subscription utc_format_timestamp
         (fun w => (answer,
                    Canned (history_pages w) (conversation_pages w)
                      (details w) (S (requests w))));
     usage_get := usage_get canned_client |}.

(** ** More sample data *)

(** The sample service with other pages. *)
Definition sample_world_with (hp : list (result history_response))
    (cp : list (result conversations_response)) : canned :=
  {| history_pages := hp;
     conversation_pages := cp;
     details := details sample_world;
     requests := 0 |}.

(** A sample item with other character counters. *)
Definition sample_item_counting (from to : attr Z) (id : string) (t : Z)
  : history_item :=
  {| history_item_id := id;
     date_unix := t;
     character_count_change_from := from;
     character_count_change_to := to;
     text := text (sample_item id t);
     voice_id := voice_id (sample_item id t);
     voice_name := voice_name (sample_item id t);
     voice_category := voice_category (sample_item id t);
     model_id := model_id (sample_item id t);
     content_type := content_type (sample_item id t);
     source := source (sample_item id t);
     request_id := request_id (sample_item id t);
     settings := settings (sample_item id t);
     feedback := feedback (sample_item id t) |}.

(** A page after which the service announces no more. *)
Definition sample_last_page : history_response :=
  {| history := sample_newer;
     has_more := false;
     last_history_item_id := Some "h2" |}.

Definition sample_empty_page : history_response :=
  {| history := [];
     has_more := true;
     last_history_item_id := None |}.

(** A page whose second item has [None] for a counter. *)
Definition sample_page_with_null : history_response :=
  {| history :=
       [sample_item "h3" 1700000300]
       ++ sample_item_counting Null (Has 100) "h2" 1700000200
          :: [sample_item "h1" 1700000160];
     has_more := false;
     last_history_item_id := Some "h1" |}.

(** Two pages that come newest first. *)
Definition sample_sorted_pages : list history_response :=
  [ {| history := [sample_item "h6" 1700000600; sample_item "h4" 1700000500];
       has_more := true;
       last_history_item_id := Some "h4" |};
    {| history := [sample_item "h3" 1700000300; sample_item "h2" 1700000200;
                   sample_item "h1" 1700000100; sample_item "h0" 1700000000];
       has_more := true;
       last_history_item_id := Some "h0" |} ].

(** A page of two sessions that is followed by another. *)
Definition sample_conversations_more : conversations_response :=
  {| conversations :=
       [sample_conversation "conv1" 1700000210;
        sample_conversation "conv3" 1700000230];
     cursor := Has "page2" |}.

(** A page whose second session, the one without detail, starts in the year
    10000, which the date library refuses. *)
Definition sample_conversations_unrenderable : conversations_response :=
  {| conversations :=
       [sample_conversation "conv1" 1700000210]
       ++ sample_conversation "conv2" 253402300800
          :: [sample_conversation "conv3" 1700000230];
     cursor := Null |}.

(** The records of a list of sessions scanned on the sample service. *)
Definition sample_scanned (convs : list conversation_summary)
    (acc : list record) (w : canned) : list record :=
  match scan_conversations utc_format_timestamp canned_client convs acc w with
  | (Ok records, _) => records
  | (Raise _, _) => []
  end.

(** The sample service after [n] requests that took [c] of the conversation
    pages [cp]. *)
Definition sample_conversations_after
    (cp : list (result conversations_response)) (c n : nat) : canned :=
  {| history_pages := [];
     conversation_pages := drop c cp;
     details := details sample_world;
     requests := n |}.

(** Records for the aggregator and the sort. *)
Definition sample_call_null_credits : record :=
  dict_of [("credits_used", VNone); ("type", VStr "speech_generation");
           ("formatted_time", VStr "2024-01-03 08:00:00 UTC")].

Definition sample_call_without_type : record :=
  dict_of [("credits_used", VInt 2);
           ("formatted_time", VStr "2024-01-03 08:00:00 UTC")].

Definition sample_call_without_time : record :=
  dict_of [("credits_used", VInt 2); ("type", VStr "speech_generation")].

Definition sample_stamped (id : string) (t : value) : record :=
  dict_of [("id", VStr id); ("timestamp", t)].

Definition sample_unsorted : list record :=
  [sample_stamped "a" (VInt 30); sample_stamped "b" (VInt 10);
   sample_stamped "c" (VInt 30); sample_stamped "d" (VInt 20)].

(** A file system on which no file can be written. *)
Definition read_only_write_file (name content : string) (w : canned)
  : result unit * canned :=
  (Raise (ApiError "[Errno 13] Permission denied"), w).

(** *** The two kinds of conversation record, field by field *)

Definition enriched_keys : list string :=
  ["type"; "id"; "agent_id"; "timestamp"; "timestamp_ms"; "formatted_time";
   "credits_used"; "duration_secs"; "status"; "total_llm_tokens";
   "accepted_time"; "termination_reason"; "main_language"; "charging_info";
   "phone_call_info"; "error_info"; "transcript_summary"].

Definition degraded_keys : list string :=
  ["type"; "id"; "agent_id"; "timestamp"; "timestamp_ms"; "formatted_time";
   "credits_used"; "duration_secs"; "status"; "error"].

(** [r] is the fully enriched record of a session listed as [conversation]
    whose detail is [d]: the detail has metadata with a cost attribute, the
    seventeen fields are there with the values the listing and the detail
    give, and there is no other field, so no [error]. *)
Definition fully_enriched (format_timestamp : Z -> result string)
    (conversation : conversation_summary) (d : conversation_detail)
    (r : record) : Prop :=
  exists md f,
    metadata d = Some md /\
    cost md <> Missing /\
    format_timestamp (meta_start_time_unix_secs md * 1000) = Ok f /\
    r !! "type" = Some (VStr "conversational_ai") /\
    r !! "id" = Some (VStr (conversation_id conversation)) /\
    r !! "agent_id" = Some (agent_id conversation) /\
    r !! "timestamp" = Some (VInt (meta_start_time_unix_secs md)) /\
    r !! "timestamp_ms" = Some (VInt (meta_start_time_unix_secs md * 1000)) /\
    r !! "formatted_time" = Some (VStr f) /\
    r !! "credits_used" = Some (VInt (total_cost_spec d)) /\
    r !! "duration_secs" = Some (meta_call_duration_secs md) /\
    r !! "status" = Some (VStr (status conversation)) /\
    r !! "total_llm_tokens" = Some (VInt (total_llm_tokens_spec d)) /\
    r !! "accepted_time" = Some (accepted_time_unix_secs md) /\
    r !! "termination_reason" = Some (termination_reason md) /\
    r !! "main_language" = Some (main_language md) /\
    r !! "charging_info" = Some (dict_or_none (charging md)) /\
    r !! "phone_call_info" = Some (dict_or_none (phone_call md)) /\
    r !! "error_info" = Some (dict_or_none (error md)) /\
    r !! "transcript_summary" =
      Some (VDict [
        ("total_items", VInt (Z.of_nat (length (transcript d))));
        ("user_messages", VInt (count_role "user" (transcript d)));
        ("assistant_messages", VInt (count_role "assistant" (transcript d)))]) /\
    (forall k, is_Some (r !! k) -> In k enriched_keys).

(** [r] is the degraded record of a session listed as [conversation] whose
    detail could not be had because of [e]: the list-level fields, 0
    credits, the error note, and nothing else. *)
Definition degraded_with_error (format_timestamp : Z -> result string)
    (conversation : conversation_summary) (e : exn) (r : record) : Prop :=
  exists f,
    format_timestamp (start_time_unix_secs conversation * 1000) = Ok f /\
    r !! "type" = Some (VStr "conversational_ai") /\
    r !! "id" = Some (VStr (conversation_id conversation)) /\
    r !! "agent_id" = Some (agent_id conversation) /\
    r !! "timestamp" = Some (VInt (start_time_unix_secs conversation)) /\
    r !! "timestamp_ms"
      = Some (VInt (start_time_unix_secs conversation * 1000)) /\
    r !! "formatted_time" = Some (VStr f) /\
    r !! "credits_used" = Some (VInt 0) /\
    r !! "duration_secs" = Some (call_duration_secs conversation) /\
    r !! "status" = Some (VStr (status conversation)) /\
    r !! "error"
      = Some (VStr ("Could not fetch detailed data: " ++ exn_str e)) /\
    (forall k, is_Some (r !! k) -> In k degraded_keys).

(** The record a session should get, given the answer to its detail
    request. *)
Definition record_for (format_timestamp : Z -> result string)
    (conversation : conversation_summary) (o : result conversation_detail)
    (r : record) : Prop :=
  match o with
  | Ok d => fully_enriched format_timestamp conversation d r
  | Raise e => degraded_with_error format_timestamp conversation e r
  end.

(** A detail that comes without metadata, and a service on which the first
    sample session has such a detail. *)
Definition sample_detail_without_metadata : conversation_detail :=
  {| metadata := None;
     transcript := sample_transcript |}.

Definition sample_world_without_metadata : canned :=
  {| history_pages := [];
     conversation_pages := [Ok sample_conversations];
     details :=
       [("conv1", Ok sample_detail_without_metadata);
        ("conv2", Raise (ApiError "status_code: 503"));
        ("conv3", Ok (sample_detail 1700000230))];
     requests := 0 |}.

Definition sample_without_metadata_after (n : nat) : canned :=
  {| history_pages := [];
     conversation_pages := [];
     details := details sample_world_without_metadata;
     requests := n |}.

(** ** Theorems on the normalizer *)

(** C3: for every integer timestamp [t], [normalize_timestamp t] is [t * 1000]
    when [t < 32503680000] and [t] otherwise; hence it is idempotent on the
    values at or above the threshold. *)
Theorem normalize_timestamp_spec (t : Z) :
  (t < 32503680000 -> normalize_timestamp t = t * 1000) /\
  (32503680000 <= t -> normalize_timestamp t = t) /\
  (32503680000 <= t ->
     normalize_timestamp (normalize_timestamp t) = normalize_timestamp t).
Proof.
  unfold normalize_timestamp.
  repeat split; intros Ht.
  - destruct (Z.ltb_spec t 32503680000); [reflexivity | lia].
  - destruct (Z.ltb_spec t 32503680000); [lia | reflexivity].
  - destruct (Z.ltb_spec t 32503680000) as [Hlt | Hge]; [lia |].
    destruct (Z.ltb_spec t 32503680000); [lia | reflexivity].
Qed.

Local Open Scope list_scope.

(** ** Reasoning on results *)

Lemma bind_ok {A B : Type} (r : result A) (k : A -> result B) (b : B) :
  bind r k = Ok b -> exists a, r = Ok a /\ k a = Ok b.
Proof. destruct r as [a | e]; simpl; intros H; [eauto | discriminate]. Qed.

Lemma Ok_inj {A : Type} (a b : A) : Ok a = Ok b -> a = b.
Proof. intros H; injection H; auto. Qed.

(** Looking a literal key up in a dictionary literal. *)
Ltac dict_lookup := vm_compute; reflexivity.

Ltac bind_inv H :=
  repeat match type of H with
  | bind ?r ?k = Ok ?b =>
      let a := fresh "a" in
      let Ha := fresh "Ha" in
      apply bind_ok in H as (a & Ha & H)
  end.

(** ** Properties of the speech-history fetcher *)

Section FetcherProperties.

Variable format_timestamp : Z -> result string.
Context {W : Type}.
Variable client : ElevenLabs W.

Lemma speech_call_data_fields item t r :
  speech_call_data format_timestamp item t = Ok r ->
  r !! "type" = Some (VStr "speech_generation") /\
  r !! "timestamp" = Some (VInt (date_unix item)) /\
  r !! "timestamp_ms" = Some (VInt t) /\
  (exists f, format_timestamp t = Ok f /\
             r !! "formatted_time" = Some (VStr f)) /\
  (exists c, calculate_credits_used item = Ok c /\
             r !! "credits_used" = Some (VInt c)) /\
  r !! "source" = Some (str_or_none (source item)) /\
  r !! "voice_name" = Some (opt_str (voice_name item)).
Proof.
  unfold speech_call_data. intros H. bind_inv H.
  apply Ok_inj in H; subst r.
  split; [dict_lookup |].
  split; [dict_lookup |].
  split; [dict_lookup |].
  split; [eexists; split; [eassumption | dict_lookup] |].
  split; [eexists; split; [eassumption | dict_lookup] |].
  split; dict_lookup.
Qed.

Lemma kept_record_in_window start_ms end_ms r :
  kept_record format_timestamp start_ms end_ms r -> in_window start_ms end_ms r.
Proof.
  intros (item & Hwin & Hrec).
  apply speech_call_data_fields in Hrec as (_ & _ & Hms & _).
  exists (date_unix item * 1000). split; [exact Hms |].
  unfold item_in_window in Hwin.
  apply andb_prop in Hwin as [H1 H2]. lia.
Qed.

Lemma kept_record_time_consistent start_ms end_ms r :
  kept_record format_timestamp start_ms end_ms r -> time_consistent format_timestamp r.
Proof.
  intros (item & _ & Hrec).
  apply speech_call_data_fields in Hrec as (_ & Hts & Hms & (f & Hf & Hft) & _).
  exists (date_unix item), f. auto.
Qed.

Lemma scan_history_app start_ms end_ms l1 l2 acc :
  scan_history format_timestamp start_ms end_ms (l1 ++ l2) acc =
  match scan_history format_timestamp start_ms end_ms l1 acc with
  | (acc', PageDone) => scan_history format_timestamp start_ms end_ms l2 acc'
  | stopped => stopped
  end.
Proof.
  revert acc. induction l1 as [| item l1 IH]; intros acc; simpl.
  - reflexivity.
  - destruct (_ && _).
    + destruct (speech_call_data _ _ _); [apply IH | reflexivity].
    + destruct (_ <? _); [reflexivity | apply IH].
Qed.

(** A page scanned to its end kept exactly the items of the window, in
    order, and met no item older than the window. *)
Lemma scan_history_done start_ms end_ms items acc acc' :
  scan_history format_timestamp start_ms end_ms items acc = (acc', PageDone) ->
  exists kept,
    acc' = acc ++ kept /\
    Forall2 (speech_record_of format_timestamp)
      (List.filter (item_in_window start_ms end_ms) items) kept /\
    Forall (fun item => start_ms <= date_unix item * 1000) items.
Proof.
  revert acc. induction items as [| item items IH]; intros acc; simpl.
  - intros [= <-]. exists []. rewrite app_nil_r. auto.
  - unfold item_in_window at 1.
    destruct (_ && _) eqn:Hwin.
    + destruct (speech_call_data _ _ _) as [r |] eqn:Hrec; [| discriminate].
      intros H. apply IH in H as (kept & -> & Hkept & Hnew).
      exists (r :: kept). rewrite <- app_assoc. simpl.
      split; [reflexivity |]. split; [constructor; assumption |].
      constructor; [| assumption].
      apply andb_prop in Hwin as [H1 _]. lia.
    + destruct (Z.ltb_spec (date_unix item * 1000) start_ms) as [Hold | Hnew0];
        [discriminate |].
      intros H. apply IH in H as (kept & -> & Hkept & Hnew).
      exists kept. auto.
Qed.

Lemma filtered_records_kept start_ms end_ms items kept :
  Forall2 (speech_record_of format_timestamp)
    (List.filter (item_in_window start_ms end_ms) items) kept ->
  Forall (kept_record format_timestamp start_ms end_ms) kept.
Proof.
  revert kept. induction items as [| item items IH]; intros kept; simpl.
  - inversion 1. constructor.
  - destruct (item_in_window start_ms end_ms item) eqn:Hwin; [| apply IH].
    inversion 1; subst. constructor; [| apply IH; assumption].
    exists item. auto.
Qed.

(** Whatever way a page scan ends, it only appended kept records. *)
Lemma scan_history_extends start_ms end_ms items acc :
  exists kept,
    fst (scan_history format_timestamp start_ms end_ms items acc) = acc ++ kept /\
    Forall (kept_record format_timestamp start_ms end_ms) kept.
Proof.
  revert acc. induction items as [| item items IH]; intros acc; simpl.
  - exists []. rewrite app_nil_r. auto.
  - destruct (_ && _) eqn:Hwin.
    + destruct (speech_call_data _ _ _) as [r |] eqn:Hrec.
      * destruct (IH (acc ++ [r])) as (kept & -> & Hkept).
        exists (r :: kept). rewrite <- app_assoc. simpl.
        split; [reflexivity |]. constructor; [| assumption].
        exists item. auto.
      * exists []. rewrite app_nil_r. auto.
    + destruct (_ <? _).
      * exists []. rewrite app_nil_r. auto.
      * apply IH.
Qed.

Lemma speech_history_loop_extends fuel start_ms end_ms cur acc w res w' :
  speech_history_loop format_timestamp client fuel start_ms end_ms cur acc w
    = Some (res, w') ->
  exists kept, res = acc ++ kept /\ Forall (kept_record format_timestamp start_ms end_ms) kept.
Proof.
  revert cur acc w. induction fuel as [| fuel IH]; intros cur acc w; simpl.
  - discriminate.
  - destruct (history_list client 1000 cur w) as [[response | e] w1].
    2: { intros [= <- <-]. exists []. rewrite app_nil_r. auto. }
    destruct (history response) as [| item0 items0] eqn:Hpage.
    { intros [= <- <-]. exists []. rewrite app_nil_r. auto. }
    destruct (scan_history_extends start_ms end_ms (item0 :: items0) acc)
      as (kept & Hfst & Hkept).
    destruct (scan_history _ _ _ _ _) as [acc1 [| | e]]; simpl in Hfst; subst acc1.
    + destruct (has_more response); simpl.
      * intros H. apply IH in H as (kept' & -> & Hkept').
        exists (kept ++ kept'). rewrite app_assoc.
        split; [reflexivity |]. apply Forall_app; auto.
      * intros [= <- <-]. eauto.
    + intros [= <- <-]. eauto.
    + intros [= <- <-]. eauto.
Qed.

Lemma speech_history_loop_scanned n fuel start_ms end_ms cur acc w cur' acc' w' :
  pages_scanned format_timestamp client start_ms end_ms n cur acc w cur' acc' w' ->
  speech_history_loop format_timestamp client (n + fuel) start_ms end_ms cur acc w
  = speech_history_loop format_timestamp client fuel start_ms end_ms cur' acc' w'.
Proof.
  induction 1 as [| n cur acc w response w1 acc1 cur' acc' w'
                    Hcall Hpage Hscan Hmore _ IH]; [reflexivity |].
  cbn [Nat.add speech_history_loop]. rewrite Hcall.
  destruct (history response) as [| item0 items0]; [congruence |].
  rewrite Hscan, Hmore. exact IH.
Qed.

Lemma pages_scanned_kept n start_ms end_ms cur acc w cur' acc' w' :
  pages_scanned format_timestamp client start_ms end_ms n cur acc w cur' acc' w' ->
  Forall (kept_record format_timestamp start_ms end_ms) acc ->
  Forall (kept_record format_timestamp start_ms end_ms) acc'.
Proof.
  induction 1 as [| n cur acc w response w1 acc1 cur' acc' w'
                    Hcall Hpage Hscan Hmore _ IH]; [auto |].
  intros Hacc. apply IH.
  destruct (scan_history_extends start_ms end_ms (history response) acc)
    as (kept & Hfst & Hkept).
  rewrite Hscan in Hfst. simpl in Hfst. subst acc1.
  apply Forall_app; auto.
Qed.

(** C1: the fetcher has scanned [n] pages to their end and, on the next one,
    the scan meets a record older than [start_ms].  Then the fetcher returns
    at once what it has accumulated: no further page is requested (the world
    is the one left by the request of this page), the result is the earlier
    accumulation followed by the dictionaries of the newer items of this page
    that lie in the window, and every record of the result is newer than the
    older record, which is therefore not part of it.  The statement needs no
    assumption on the order of the records, so it holds in particular for a
    source that yields them with strictly decreasing timestamps. *)
Theorem speech_history_stops_at_older_record
    n fuel start_ms end_ms w0 cur acc w response w1 newer item older acc' :
  pages_scanned format_timestamp client start_ms end_ms n None [] w0 cur acc w ->
  history_list client 1000 cur w = (Ok response, w1) ->
  history response = newer ++ item :: older ->
  scan_history format_timestamp start_ms end_ms newer acc = (acc', PageDone) ->
  date_unix item * 1000 < start_ms ->
  get_speech_history format_timestamp client (n + S fuel) start_ms end_ms w0
    = Some (acc', w1) /\
  (exists kept,
     acc' = acc ++ kept /\
     Forall2 (speech_record_of format_timestamp)
       (List.filter (item_in_window start_ms end_ms) newer) kept) /\
  Forall (fun r => exists t, r !! "timestamp_ms" = Some (VInt t) /\
                             date_unix item * 1000 < t) acc'.
Proof.
  intros Hpages Hcall Hpage Hscan Hold.
  assert (Hwhole : scan_history format_timestamp start_ms end_ms
                     (history response) acc = (acc', StopFetch)).
  { rewrite Hpage, scan_history_app, Hscan. simpl.
    replace (start_ms <=? date_unix item * 1000) with false
      by (symmetry; apply Z.leb_gt; lia).
    simpl. apply Z.ltb_lt in Hold. rewrite Hold. reflexivity. }
  split; [| split].
  - unfold get_speech_history.
    rewrite (speech_history_loop_scanned n (S fuel) _ _ _ _ _ _ _ _ Hpages).
    cbn [speech_history_loop]. rewrite Hcall.
    destruct (history response) as [| item0 items0] eqn:Hh.
    + destruct newer; discriminate.
    + rewrite Hwhole. reflexivity.
  - apply scan_history_done in Hscan as (kept & -> & Hkept & _).
    exists kept. auto.
  - apply scan_history_done in Hscan as (kept & -> & Hkept & _).
    apply filtered_records_kept in Hkept.
    assert (Hall : Forall (kept_record format_timestamp start_ms end_ms) acc)
      by (apply (pages_scanned_kept _ _ _ _ _ _ _ _ _ Hpages); constructor).
    assert (Hres : Forall (kept_record format_timestamp start_ms end_ms)
                     (acc ++ kept)) by (apply Forall_app; auto).
    eapply Forall_impl; [exact Hres |].
    intros r Hr. apply kept_record_in_window in Hr as (t & Ht & Hwin).
    exists t. split; [exact Ht | lia].
Qed.

(** C8: every record the speech fetcher returns has its [timestamp_ms]
    inside the inclusive window; an item newer than [end_ms] is skipped and
    the scan goes on with the rest of the page, an item older than [start_ms]
    ends the scan. *)
Theorem speech_history_within_window start_ms end_ms :
  (forall fuel w res w',
     get_speech_history format_timestamp client fuel start_ms end_ms w
       = Some (res, w') ->
     Forall (in_window start_ms end_ms) res) /\
  (forall item rest acc,
     start_ms <= end_ms -> end_ms < date_unix item * 1000 ->
     scan_history format_timestamp start_ms end_ms (item :: rest) acc =
     scan_history format_timestamp start_ms end_ms rest acc) /\
  (forall item rest acc,
     date_unix item * 1000 < start_ms ->
     scan_history format_timestamp start_ms end_ms (item :: rest) acc =
     (acc, StopFetch)).
Proof.
  split; [| split].
  - intros fuel w res w' Hrun. unfold get_speech_history in Hrun.
    apply speech_history_loop_extends in Hrun as (kept & -> & Hkept).
    simpl. eapply Forall_impl; [exact Hkept |].
    intros r. apply kept_record_in_window.
  - intros item rest acc Hwin Hnew. simpl.
    replace (date_unix item * 1000 <=? end_ms) with false
      by (symmetry; apply Z.leb_gt; lia).
    rewrite andb_false_r.
    replace (date_unix item * 1000 <? start_ms) with false
      by (symmetry; apply Z.ltb_ge; lia).
    reflexivity.
  - intros item rest acc Hold. simpl.
    replace (start_ms <=? date_unix item * 1000) with false
      by (symmetry; apply Z.leb_gt; lia).
    simpl. apply Z.ltb_lt in Hold. rewrite Hold. reflexivity.
Qed.



(** ** Properties of the conversation fetcher *)


Lemma total_cost_of_spec d c :
  total_cost_of (metadata d) = Ok c -> c = total_cost_spec d.
Proof.
  unfold total_cost_of, total_cost_spec.
  destruct (metadata d) as [md |]; [| discriminate].
  destruct (cost md) as [| | k]; [discriminate | congruence |].
  intros [= <-]. destruct (Z.eqb_spec k 0); congruence.
Qed.

Lemma sum_llm_tokens_spec items n total :
  sum_llm_tokens items n = Ok total ->
  total = n + fold_right Z.add 0 (List.map entry_tokens items).
Proof.
  revert n. induction items as [| t items IH]; intros n; simpl.
  - intros [= <-]. lia.
  - unfold entry_tokens at 1.
    destruct (llm_usage t) as [| | usage].
    + intros H. apply IH in H. lia.
    + intros H. apply IH in H. lia.
    + destruct (total_tokens usage) as [| | k]; [| discriminate |].
      * intros H. apply IH in H. lia.
      * intros H. apply IH in H. lia.
Qed.

Lemma sum_llm_tokens_readable items n :
  forallb tokens_readable items = true ->
  exists total, sum_llm_tokens items n = Ok total.
Proof.
  revert n. induction items as [| t items IH]; intros n; simpl.
  - eauto.
  - intros H. apply andb_prop in H as [Ht Hrest].
    unfold tokens_readable in Ht.
    destruct (llm_usage t) as [| | usage]; auto.
    destruct (total_tokens usage); [auto | discriminate | auto].
Qed.

Lemma enriched_conv_data_fields conversation d r :
  enriched_conv_data format_timestamp conversation d = Ok r ->
  exists md f,
    metadata d = Some md /\
    format_timestamp (meta_start_time_unix_secs md * 1000) = Ok f /\
    r !! "type" = Some (VStr "conversational_ai") /\
    r !! "id" = Some (VStr (conversation_id conversation)) /\
    r !! "timestamp" = Some (VInt (meta_start_time_unix_secs md)) /\
    r !! "timestamp_ms" = Some (VInt (meta_start_time_unix_secs md * 1000)) /\
    r !! "formatted_time" = Some (VStr f) /\
    r !! "credits_used" = Some (VInt (total_cost_spec d)) /\
    r !! "total_llm_tokens" = Some (VInt (total_llm_tokens_spec d)) /\
    r !! "error" = None /\
    r !! "source" = None /\
    r !! "voice_name" = None.
Proof.
  unfold enriched_conv_data. intros H.
  apply bind_ok in H as (c & Hc & H).
  apply bind_ok in H as (n & Hn & H).
  apply total_cost_of_spec in Hc. apply sum_llm_tokens_spec in Hn.
  destruct (metadata d) as [md |] eqn:Hmd; [| discriminate].
  apply bind_ok in H as (f & Hf & H).
  apply Ok_inj in H. subst r.
  replace n with (total_llm_tokens_spec d)
    by (unfold total_llm_tokens_spec; lia).
  subst c. exists md, f.
  split; [reflexivity |]. split; [exact Hf |].
  generalize (total_cost_spec d) (total_llm_tokens_spec d). intros c n'.
  repeat (split; [dict_lookup |]). dict_lookup.
Qed.

Lemma degraded_conv_data_fields conversation e r :
  degraded_conv_data format_timestamp conversation e = Ok r ->
  exists f,
    format_timestamp (start_time_unix_secs conversation * 1000) = Ok f /\
    r !! "type" = Some (VStr "conversational_ai") /\
    r !! "id" = Some (VStr (conversation_id conversation)) /\
    r !! "timestamp" = Some (VInt (start_time_unix_secs conversation)) /\
    r !! "timestamp_ms" = Some (VInt (start_time_unix_secs conversation * 1000)) /\
    r !! "formatted_time" = Some (VStr f) /\
    r !! "credits_used" = Some (VInt 0) /\
    r !! "error" =
      Some (VStr ("Could not fetch detailed data: " ++ exn_str e)) /\
    r !! "total_llm_tokens" = None /\
    r !! "source" = None /\
    r !! "voice_name" = None.
Proof.
  unfold degraded_conv_data. intros H.
  apply bind_ok in H as (f & Hf & H).
  apply Ok_inj in H. subst r. exists f.
  split; [exact Hf |].
  generalize ("Could not fetch detailed data: " ++ exn_str e)%string. intros msg.
  repeat (split; [dict_lookup |]). dict_lookup.
Qed.

Lemma detail_complete_enriched conversation d :
  detail_complete format_timestamp d = true ->
  exists r, enriched_conv_data format_timestamp conversation d = Ok r.
Proof.
  unfold detail_complete, enriched_conv_data, total_cost_of.
  destruct (metadata d) as [md |]; [| discriminate].
  intros H. apply andb_prop in H as [H Hf]. apply andb_prop in H as [Hc Ht].
  destruct (sum_llm_tokens_readable (transcript d) 0 Ht) as (n & ->).
  destruct (format_timestamp _) as [f |]; [| discriminate].
  destruct (cost md); [discriminate | |]; eexists; reflexivity.
Qed.

(** A detail without metadata is never enriched: the session gets the
    degraded record. *)
Lemma enriched_needs_metadata conversation d :
  metadata d = None ->
  enriched_conv_data format_timestamp conversation d =
  Raise (AttributeError "'NoneType' object has no attribute 'cost'").
Proof. unfold enriched_conv_data. intros ->. reflexivity. Qed.

Lemma answer_usable_emitted conversation o :
  answer_usable format_timestamp conversation o = true ->
  exists r, emitted_for format_timestamp conversation o r.
Proof.
  destruct o as [d | e]; simpl.
  - apply detail_complete_enriched.
  - unfold degraded_conv_data.
    destruct (format_timestamp _) as [f |]; [simpl; eauto | discriminate].
Qed.

Lemma emitted_for_has_error conversation o r :
  emitted_for format_timestamp conversation o r -> has_error r = failed o.
Proof.
  unfold has_error. destruct o as [d | e]; simpl; intros H.
  - apply enriched_conv_data_fields in H
      as (md & f & _ & _ & _ & _ & _ & _ & _ & _ & _ & -> & _).
    reflexivity.
  - apply degraded_conv_data_fields in H
      as (f & _ & _ & _ & _ & _ & _ & _ & -> & _).
    reflexivity.
Qed.

Lemma emitted_for_id conversation o r :
  emitted_for format_timestamp conversation o r ->
  r !! "id" = Some (VStr (conversation_id conversation)).
Proof.
  destruct o as [d | e]; simpl; intros H.
  - apply enriched_conv_data_fields in H as (md & f & _ & _ & _ & H & _).
    exact H.
  - apply degraded_conv_data_fields in H as (f & _ & _ & H & _). exact H.
Qed.

Lemma dict_of_keys (items : list (string * value)) k :
  is_Some (dict_of items !! k) -> In k (List.map fst items).
Proof.
  intros [v Hv]. unfold dict_of in Hv.
  apply elem_of_list_to_map_2 in Hv. apply list_elem_of_In in Hv.
  apply (in_map fst) in Hv. exact Hv.
Qed.

(** What the enrichment builds is the fully enriched record. *)
Lemma enriched_conv_data_record conversation d r :
  enriched_conv_data format_timestamp conversation d = Ok r ->
  fully_enriched format_timestamp conversation d r.
Proof.
  unfold enriched_conv_data. intros H.
  apply bind_ok in H as (c & Hc & H).
  apply bind_ok in H as (n & Hn & H).
  pose proof Hc as Hcost.
  apply total_cost_of_spec in Hc. apply sum_llm_tokens_spec in Hn.
  destruct (metadata d) as [md |] eqn:Hmd; [| discriminate].
  apply bind_ok in H as (f & Hf & H).
  apply Ok_inj in H. subst r.
  replace n with (total_llm_tokens_spec d)
    by (unfold total_llm_tokens_spec; lia).
  subst c. exists md, f.
  split; [exact Hmd |].
  split.
  { unfold total_cost_of in Hcost. intros Hmiss. rewrite Hmiss in Hcost.
    discriminate. }
  split; [exact Hf |].
  clear Hcost.
  generalize (total_cost_spec d) (total_llm_tokens_spec d)
    (VDict [
       ("total_items", VInt (Z.of_nat (length (transcript d))));
       ("user_messages", VInt (count_role "user" (transcript d)));
       ("assistant_messages",
          VInt (count_role "assistant" (transcript d)))])
    (dict_or_none (charging md)) (dict_or_none (phone_call md))
    (dict_or_none (error md)).
  intros c n' summary v1 v2 v3.
  repeat (split; [dict_lookup |]).
  intros k. apply dict_of_keys.
Qed.

(** What the handler builds is the degraded record. *)
Lemma degraded_conv_data_record conversation e r :
  degraded_conv_data format_timestamp conversation e = Ok r ->
  degraded_with_error format_timestamp conversation e r.
Proof.
  unfold degraded_conv_data. intros H.
  apply bind_ok in H as (f & Hf & H).
  apply Ok_inj in H. subst r. exists f.
  split; [exact Hf |].
  generalize ("Could not fetch detailed data: " ++ exn_str e)%string. intros msg.
  repeat (split; [dict_lookup |]).
  intros k. apply dict_of_keys.
Qed.

Lemma emitted_for_record conversation o r :
  emitted_for format_timestamp conversation o r ->
  record_for format_timestamp conversation o r.
Proof.
  destruct o as [d | e]; simpl.
  - apply enriched_conv_data_record.
  - apply degraded_conv_data_record.
Qed.

Lemma degraded_with_error_fields conversation e r :
  degraded_with_error format_timestamp conversation e r ->
  has_error r = true /\ r !! "total_llm_tokens" = None /\
  r !! "credits_used" = Some (VInt 0).
Proof.
  intros (f & _ & _ & _ & _ & _ & _ & _ & Hc & _ & _ & Herr & Hkeys).
  split; [unfold has_error; rewrite Herr; reflexivity |].
  split; [| exact Hc].
  destruct (r !! "total_llm_tokens") as [v |] eqn:Hv; [| reflexivity].
  exfalso. specialize (Hkeys "total_llm_tokens"). rewrite Hv in Hkeys.
  specialize (Hkeys (mk_is_Some _ _ eq_refl)).
  cbn in Hkeys. repeat destruct Hkeys as [Hkeys | Hkeys]; discriminate || auto.
Qed.

Lemma sum_llm_tokens_returns_readable items n total :
  sum_llm_tokens items n = Ok total ->
  forallb tokens_readable items = true.
Proof.
  revert n. induction items as [| t items IH]; intros n; [reflexivity |].
  cbn [sum_llm_tokens forallb]. unfold tokens_readable at 1.
  destruct (llm_usage t) as [| | usage]; [apply IH | apply IH |].
  destruct (total_tokens usage) as [| | k]; [apply IH | discriminate | apply IH].
Qed.

(** Only a complete detail is enriched. *)
Lemma enriched_detail_complete conversation d r :
  enriched_conv_data format_timestamp conversation d = Ok r ->
  detail_complete format_timestamp d = true.
Proof.
  unfold enriched_conv_data, detail_complete, total_cost_of. intros H.
  apply bind_ok in H as (c & Hc & H).
  apply bind_ok in H as (n & Hn & H).
  destruct (metadata d) as [md |]; [| discriminate].
  apply bind_ok in H as (f & Hf & _).
  rewrite Hf, (sum_llm_tokens_returns_readable _ _ _ Hn).
  destruct (cost md); [discriminate | reflexivity | reflexivity].
Qed.

(** One turn of the inner loop after a detail was fetched: the record is
    the enriched one, or the enrichment raised and it is the degraded one. *)
Lemma conversation_step_fetched conversation w d w1 r w' :
  conversations_get client (conversation_id conversation) w = (Ok d, w1) ->
  conversation_step format_timestamp client conversation w = (Ok r, w') ->
  w' = w1 /\
  (enriched_conv_data format_timestamp conversation d = Ok r \/
   exists e,
     enriched_conv_data format_timestamp conversation d = Raise e /\
     degraded_conv_data format_timestamp conversation e = Ok r).
Proof.
  unfold conversation_step. intros ->. cbn [bind].
  destruct (enriched_conv_data _ conversation d) as [r' | e].
  - intros [= <- <-]. auto.
  - intros [= H <-]. split; [reflexivity |]. right. exists e. auto.
Qed.

(** One turn of the inner loop when the answer is usable. *)
Lemma conversation_step_emitted conversation w o w1 r :
  conversations_get client (conversation_id conversation) w = (o, w1) ->
  emitted_for format_timestamp conversation o r ->
  conversation_step format_timestamp client conversation w = (Ok r, w1).
Proof.
  unfold conversation_step. intros -> Hr.
  destruct o as [d | e]; simpl in *; rewrite Hr; reflexivity.
Qed.

(** A record appended by one turn is either enriched or degraded. *)
Lemma conversation_step_record conversation w r w1 :
  conversation_step format_timestamp client conversation w = (Ok r, w1) ->
  (exists d, enriched_conv_data format_timestamp conversation d = Ok r) \/
  (exists e, degraded_conv_data format_timestamp conversation e = Ok r).
Proof.
  unfold conversation_step.
  destruct (conversations_get client _ w) as [fetched w'].
  destruct fetched as [d | e]; simpl.
  - destruct (enriched_conv_data _ _ d) as [r' | e'] eqn:Hen.
    + intros [= <- <-]. eauto.
    + intros [= H <-]. eauto.
  - intros [= H <-]. eauto.
Qed.

Lemma conversation_record_time_consistent conversation r :
  (exists d, enriched_conv_data format_timestamp conversation d = Ok r) \/
  (exists e, degraded_conv_data format_timestamp conversation e = Ok r) ->
  time_consistent format_timestamp r.
Proof.
  intros [[d H] | [e H]].
  - apply enriched_conv_data_fields in H
      as (md & f & _ & Hf & _ & _ & Hts & Hms & Hft & _).
    exists (meta_start_time_unix_secs md), f. auto.
  - apply degraded_conv_data_fields in H
      as (f & Hf & _ & _ & Hts & Hms & Hft & _).
    exists (start_time_unix_secs conversation), f. auto.
Qed.

Lemma scan_conversations_inv (P : record -> Prop) convs acc w res w' :
  (forall conversation w0 r w1,
     conversation_step format_timestamp client conversation w0 = (Ok r, w1) ->
     P r) ->
  Forall P acc ->
  scan_conversations format_timestamp client convs acc w = (Ok res, w') ->
  Forall P res.
Proof.
  intros Hstep. revert acc w.
  induction convs as [| conversation convs IH]; intros acc w Hacc; simpl.
  - intros [= <- <-]. exact Hacc.
  - destruct (conversation_step _ _ conversation w) as [[r | e] w1] eqn:Hs;
      [| discriminate].
    apply IH. apply Forall_app. split; [exact Hacc |].
    constructor; [| constructor]. eapply Hstep; eassumption.
Qed.

Lemma conversation_loop_inv (P : record -> Prop) fuel s e cur acc w res w' :
  (forall conversation w0 r w1,
     conversation_step format_timestamp client conversation w0 = (Ok r, w1) ->
     P r) ->
  Forall P acc ->
  conversation_loop format_timestamp client fuel s e cur acc w
    = Some (Ok res, w') ->
  Forall P res.
Proof.
  intros Hstep. revert cur acc w.
  induction fuel as [| fuel IH]; intros cur acc w Hacc; simpl; [discriminate |].
  destruct (conversations_list client cur s e 100 w) as [[response | ex] w1];
    [| discriminate].
  destruct (conversations response) as [| c0 cs0]; [intros [= <- <-]; exact Hacc |].
  destruct (scan_conversations _ _ (c0 :: cs0) acc w1) as [[acc1 | ex] w2] eqn:Hscan;
    [| discriminate].
  pose proof (scan_conversations_inv P _ _ _ _ _ Hstep Hacc Hscan) as Hacc1.
  destruct (cursor response) as [| | c].
  - intros [= <- <-]. exact Hacc1.
  - intros [= <- <-]. exact Hacc1.
  - destruct (String.eqb c ""); [intros [= <- <-]; exact Hacc1 |].
    apply IH. exact Hacc1.
Qed.

Lemma conversation_history_inv (P : record -> Prop) fuel start_ms end_ms w res w' :
  (forall conversation w0 r w1,
     conversation_step format_timestamp client conversation w0 = (Ok r, w1) ->
     P r) ->
  get_conversation_history format_timestamp client fuel start_ms end_ms w
    = Some (res, w') ->
  Forall P res.
Proof.
  intros Hstep. unfold get_conversation_history.
  destruct (conversation_loop _ _ _ _ _ _ _ _) as [[[acc | ex] w1] |] eqn:Hloop;
    [| | discriminate].
  - intros [= <- <-]. eapply conversation_loop_inv; [exact Hstep | constructor | exact Hloop].
  - intros [= <- <-]. constructor.
Qed.

(** C4, as it holds: a record is emitted for a session whose detail was
    fetched.  If it is the enriched one, without an [error] field, then the
    detail has metadata with a cost attribute, [credits_used] is that cost
    (0 when it is [None]), [total_llm_tokens] is the sum of [total_tokens]
    over the transcript entries that expose a token-usage sub-field, and the
    other fields are as the detail gives them; it is the enriched one
    exactly when the detail is complete.  An entry without a token-usage
    sub-field adds nothing and raises nothing.  But a detail whose metadata
    is absent is never enriched, with cost 0 or otherwise: the session gets
    the degraded record, with the error note, 0 credits and no token count;
    so does one whose metadata has no cost attribute. *)
Theorem enriched_session_cost_and_tokens conversation w d w1 r w' :
  conversations_get client (conversation_id conversation) w = (Ok d, w1) ->
  conversation_step format_timestamp client conversation w = (Ok r, w') ->
  w' = w1 /\
  (has_error r = false ->
   fully_enriched format_timestamp conversation d r /\
   exists md,
     metadata d = Some md /\
     r !! "credits_used"
     = Some (VInt match cost md with Has c => c | Null | Missing => 0 end) /\
     r !! "total_llm_tokens"
     = Some (VInt (fold_right Z.add 0 (List.map entry_tokens (transcript d))))) /\
  (has_error r = false <-> detail_complete format_timestamp d = true) /\
  (metadata d = None ->
   degraded_with_error format_timestamp conversation
     (AttributeError "'NoneType' object has no attribute 'cost'") r /\
   has_error r = true /\
   r !! "total_llm_tokens" = None /\
   r !! "credits_used" = Some (VInt 0)) /\
  (forall md,
     metadata d = Some md -> cost md = Missing ->
     exists e,
       degraded_with_error format_timestamp conversation e r /\
       has_error r = true /\
       r !! "total_llm_tokens" = None) /\
  (forall t rest n,
     lacks_usage t ->
     entry_tokens t = 0 /\ sum_llm_tokens (t :: rest) n = sum_llm_tokens rest n).
Proof.
  intros Hget Hstep.
  destruct (conversation_step_fetched conversation w d w1 r w' Hget Hstep)
    as [Hw Hkind].
  split; [exact Hw |].
  split.
  { intros Hplain. destruct Hkind as [Hen | (e & _ & Hde)].
    - pose proof (enriched_conv_data_record _ _ _ Hen) as Hfull.
      split; [exact Hfull |].
      destruct Hfull
        as (md & f & Hmd & Hcost & _ & _ & _ & _ & _ & _ & _ & Hc & _ & _ & Ht
            & _).
      exists md. split; [exact Hmd |]. split; [| exact Ht].
      rewrite Hc. unfold total_cost_spec. rewrite Hmd. reflexivity.
    - apply degraded_conv_data_record, degraded_with_error_fields in Hde
        as (Herr & _).
      congruence. }
  split.
  { split.
    - intros Hplain. destruct Hkind as [Hen | (e & _ & Hde)].
      + apply (enriched_detail_complete conversation d r Hen).
      + apply degraded_conv_data_record, degraded_with_error_fields in Hde
          as (Herr & _).
        congruence.
    - intros Hcomplete.
      destruct (detail_complete_enriched conversation d Hcomplete)
        as [r' Hr'].
      destruct Hkind as [Hen | (e & He & _)]; [| congruence].
      apply (emitted_for_has_error conversation (Ok d) r Hen). }
  split.
  { intros Hnone. rewrite (enriched_needs_metadata conversation d Hnone) in Hkind.
    destruct Hkind as [Hen | (e & [= <-] & Hde)]; [discriminate |].
    apply degraded_conv_data_record in Hde.
    split; [exact Hde |]. apply (degraded_with_error_fields _ _ _ Hde). }
  split.
  { intros md Hmd Hmiss.
    destruct Hkind as [Hen | (e & _ & Hde)].
    - apply enriched_conv_data_record in Hen
        as (md' & f & Hmd' & Hcost & _).
      exfalso. apply Hcost. congruence.
    - exists e. apply degraded_conv_data_record in Hde.
      split; [exact Hde |].
      destruct (degraded_with_error_fields _ _ _ Hde) as (Herr & Ht & _).
      auto. }
  intros t rest n [Hl | Hl]; unfold entry_tokens; simpl; rewrite Hl; auto.
Qed.

(** C5, as it holds: three sessions are listed, the detail request fails
    for exactly one of them, the two details fetched are complete (metadata
    with a cost attribute, no token count that is [None], a start time that
    can be rendered) and the list-level start time of the failed session can
    be rendered.  Then the fetcher emits three records in listing order: for
    the failed session the degraded record, with the list-level fields, the
    error note and nothing else, for the other two the fully enriched
    record, field by field; all three detail requests are made, and the
    pagination goes on as the cursor says: the result is returned when the
    listing has no further cursor, the next page is requested otherwise. *)
Theorem one_failed_detail_of_three
    fuel start_ms end_ms w0 w1 w2 w3 w4 response c1 c2 c3 o1 o2 o3 :
  conversations_list client None (start_ms / 1000) (end_ms / 1000) 100 w0
    = (Ok response, w1) ->
  conversations response = [c1; c2; c3] ->
  conversations_get client (conversation_id c1) w1 = (o1, w2) ->
  conversations_get client (conversation_id c2) w2 = (o2, w3) ->
  conversations_get client (conversation_id c3) w3 = (o3, w4) ->
  length (List.filter failed [o1; o2; o3]) = 1%nat ->
  answer_usable format_timestamp c1 o1 = true ->
  answer_usable format_timestamp c2 o2 = true ->
  answer_usable format_timestamp c3 o3 = true ->
  exists r1 r2 r3,
    record_for format_timestamp c1 o1 r1 /\
    record_for format_timestamp c2 o2 r2 /\
    record_for format_timestamp c3 o3 r3 /\
    List.map has_error [r1; r2; r3] = List.map failed [o1; o2; o3] /\
    length (List.filter has_error [r1; r2; r3]) = 1%nat /\
    List.map (fun r : record => r !! "id") [r1; r2; r3] =
      List.map (fun c => Some (VStr (conversation_id c))) [c1; c2; c3] /\
    (next_cursor (cursor response) = None ->
     get_conversation_history format_timestamp client (S fuel) start_ms end_ms w0
       = Some ([r1; r2; r3], w4)) /\
    (forall c, next_cursor (cursor response) = Some c ->
     conversation_loop format_timestamp client (S fuel)
       (start_ms / 1000) (end_ms / 1000) None [] w0 =
     conversation_loop format_timestamp client fuel
       (start_ms / 1000) (end_ms / 1000) (Some c) [r1; r2; r3] w4).
Proof.
  intros Hlist Hconvs Hg1 Hg2 Hg3 Hone Hu1 Hu2 Hu3.
  apply answer_usable_emitted in Hu1 as [r1 Hr1].
  apply answer_usable_emitted in Hu2 as [r2 Hr2].
  apply answer_usable_emitted in Hu3 as [r3 Hr3].
  exists r1, r2, r3.
  pose proof (emitted_for_has_error _ _ _ Hr1) as He1.
  pose proof (emitted_for_has_error _ _ _ Hr2) as He2.
  pose proof (emitted_for_has_error _ _ _ Hr3) as He3.
  assert (Hscan : scan_conversations format_timestamp client [c1; c2; c3] [] w1
                  = (Ok [r1; r2; r3], w4)).
  { unfold scan_conversations.
    rewrite (conversation_step_emitted c1 w1 o1 w2 r1 Hg1 Hr1).
    rewrite (conversation_step_emitted c2 w2 o2 w3 r2 Hg2 Hr2).
    rewrite (conversation_step_emitted c3 w3 o3 w4 r3 Hg3 Hr3).
    reflexivity. }
  assert (Hloop : conversation_loop format_timestamp client (S fuel)
                    (start_ms / 1000) (end_ms / 1000) None [] w0 =
                  match next_cursor (cursor response) with
                  | None => Some (Ok [r1; r2; r3], w4)
                  | Some c =>
                      conversation_loop format_timestamp client fuel
                        (start_ms / 1000) (end_ms / 1000) (Some c) [r1; r2; r3] w4
                  end).
  { cbn [conversation_loop]. rewrite Hlist, Hconvs, Hscan.
    unfold next_cursor. destruct (cursor response) as [| | c]; try reflexivity.
    destruct (String.eqb c ""); reflexivity. }
  split; [exact (emitted_for_record _ _ _ Hr1) |].
  split; [exact (emitted_for_record _ _ _ Hr2) |].
  split; [exact (emitted_for_record _ _ _ Hr3) |].
  split; [cbn [List.map]; rewrite He1, He2, He3; reflexivity |].
  split.
  { cbn [List.filter] in *. rewrite He1, He2, He3.
    destruct (failed o1), (failed o2), (failed o3); exact Hone. }
  split.
  { cbn [List.map].
    rewrite (emitted_for_id _ _ _ Hr1), (emitted_for_id _ _ _ Hr2),
      (emitted_for_id _ _ _ Hr3). reflexivity. }
  split.
  - intros Hnone. unfold get_conversation_history.
    rewrite Hloop, Hnone. reflexivity.
  - intros c Hsome. rewrite Hloop, Hsome. reflexivity.
Qed.

(** C9: every record built by either fetcher, for a speech call, for an
    enriched session or for a degraded one, has
    [timestamp_ms = timestamp * 1000] and [formatted_time] equal to the
    rendering of [timestamp_ms]; so has every record the fetchers return. *)
Theorem fetched_records_time_consistent :
  (forall item r,
     speech_record_of format_timestamp item r ->
     time_consistent format_timestamp r) /\
  (forall conversation d r,
     enriched_conv_data format_timestamp conversation d = Ok r ->
     time_consistent format_timestamp r) /\
  (forall conversation e r,
     degraded_conv_data format_timestamp conversation e = Ok r ->
     time_consistent format_timestamp r) /\
  (forall fuel start_ms end_ms w res w',
     get_speech_history format_timestamp client fuel start_ms end_ms w
       = Some (res, w') ->
     Forall (time_consistent format_timestamp) res) /\
  (forall fuel start_ms end_ms w res w',
     get_conversation_history format_timestamp client fuel start_ms end_ms w
       = Some (res, w') ->
     Forall (time_consistent format_timestamp) res).
Proof.
  split; [| split; [| split; [| split]]].
  - intros item r Hrec.
    apply speech_call_data_fields in Hrec as (_ & Hts & Hms & (f & Hf & Hft) & _).
    exists (date_unix item), f. auto.
  - intros conversation d r H.
    apply (conversation_record_time_consistent conversation). eauto.
  - intros conversation e r H.
    apply (conversation_record_time_consistent conversation). eauto.
  - intros fuel start_ms end_ms w res w' Hrun. unfold get_speech_history in Hrun.
    apply speech_history_loop_extends in Hrun as (kept & -> & Hkept).
    simpl. eapply Forall_impl; [exact Hkept |].
    intros r. apply kept_record_time_consistent.
  - intros fuel start_ms end_ms w res w'.
    apply conversation_history_inv.
    intros conversation w0 r w1 Hstep.
    apply (conversation_record_time_consistent conversation).
    eapply conversation_step_record. exact Hstep.
Qed.

End FetcherProperties.

(** ** Properties of the aggregator *)

Lemma hashable_key v : hashable v = true -> exists k, as_key v = Ok k.
Proof. destruct v; simpl; intros H; eauto; discriminate. Qed.

Lemma credits_of_ok (call : record) :
  match call !! "credits_used" with
  | None | Some (VInt _) => true
  | Some _ => false
  end = true ->
  credits_of call = Ok (credit_value call).
Proof.
  unfold credits_of, credit_value, get_or.
  destruct (call !! "credits_used") as [[| n | s | d] |]; intros H;
    try discriminate; reflexivity.
Qed.

Lemma credits_of_value (call : record) c :
  credits_of call = Ok c -> c = credit_value call.
Proof.
  unfold credits_of, credit_value, get_or.
  destruct (call !! "credits_used") as [[| n | s | d] |]; intros H;
    try discriminate; congruence.
Qed.

Lemma call_ok_inv (call : record) :
  call_ok call = true ->
  (exists t k, call !! "type" = Some t /\ as_key t = Ok k) /\
  credits_of call = Ok (credit_value call) /\
  field_ok "source" call = true /\
  field_ok "voice_name" call = true /\
  exists f, call !! "formatted_time" = Some (VStr f).
Proof.
  unfold call_ok, field_ok. intros H.
  apply andb_prop in H as [H Hft]. apply andb_prop in H as [H Hvoice].
  apply andb_prop in H as [H Hsrc]. apply andb_prop in H as [Hty Hcr].
  rewrite Hcr, Hsrc, Hvoice.
  destruct (call !! "type") as [t |]; [| discriminate].
  apply hashable_key in Hty as [k Hk].
  split; [eauto |]. split; [apply credits_of_ok; exact Hcr |].
  split; [reflexivity |]. split; [reflexivity |].
  destruct (call !! "formatted_time") as [[| n | f | d] |]; try discriminate.
  eauto.
Qed.

Lemma sum_credits_spec all_calls total :
  Forall (fun call => credits_of call = Ok (credit_value call)) all_calls ->
  sum_credits all_calls total
  = Ok (total + sum_Z (List.map credit_value all_calls)).
Proof.
  intros H. revert total. induction H as [| call rest Hc _ IH]; intros total; simpl.
  - f_equal. lia.
  - rewrite Hc. simpl. rewrite IH. f_equal. lia.
Qed.

Lemma sum_credits_value all_calls total res :
  sum_credits all_calls total = Ok res ->
  res = total + sum_Z (List.map credit_value all_calls).
Proof.
  revert total. induction all_calls as [| call rest IH]; intros total; simpl.
  - intros [= <-]. lia.
  - intros H. apply bind_ok in H as (c & Hc & H).
    apply credits_of_value in Hc. apply IH in H. lia.
Qed.

Lemma extend_bucket_none group : extend_bucket None group = bucket_of group.
Proof. destruct group; reflexivity. Qed.

(** Counting one more record under [k0], seen from key [k]. *)
Lemma extend_bucket_bump (key_of : record -> option hkey) by_key k0 k call rest :
  key_of call = Some k0 ->
  extend_bucket (bump by_key k0 (credit_value call) !! k) (members key_of k rest)
  = extend_bucket (by_key !! k) (members key_of k (call :: rest)).
Proof.
  intros Hkey. unfold bump, members. cbn [List.filter]. rewrite Hkey.
  destruct (decide (k0 = k)) as [-> | Hne].
  - rewrite lookup_insert_eq.
    rewrite bool_decide_eq_true_2 by reflexivity.
    destruct (List.filter _ rest) as [| r rs]; cbn [extend_bucket].
    + f_equal. f_equal; simpl; lia.
    + destruct (by_key !! k) as [b |]; cbn [count credits];
        f_equal; f_equal; cbn [length List.map sum_Z fold_right]; lia.
  - rewrite lookup_insert_ne by exact Hne.
    rewrite bool_decide_eq_false_2 by congruence.
    reflexivity.
Qed.

Lemma extend_bucket_skip (key_of : record -> option hkey) o k call rest :
  key_of call = None ->
  extend_bucket o (members key_of k rest)
  = extend_bucket o (members key_of k (call :: rest)).
Proof.
  intros Hkey. unfold members. cbn [List.filter]. rewrite Hkey.
  rewrite bool_decide_eq_false_2 by congruence. reflexivity.
Qed.

Lemma type_key_of (call : record) t k :
  call !! "type" = Some t -> as_key t = Ok k -> type_key call = Some k.
Proof. unfold type_key, key_of_value. intros -> ->. reflexivity. Qed.

(** The [by_type] loop counts every record under the key of its type. *)
Lemma group_by_type_spec all_calls by_type :
  Forall (fun call => call_ok call = true) all_calls ->
  exists m,
    group_by_type all_calls by_type = Ok m /\
    forall k, m !! k = extend_bucket (by_type !! k) (members type_key k all_calls).
Proof.
  intros H. revert by_type.
  induction H as [| call rest Hok _ IH]; intros by_type.
  - exists by_type. split; reflexivity.
  - apply call_ok_inv in Hok as ((t & k0 & Ht & Hk0) & Hc & _).
    cbn [group_by_type]. unfold getitem. rewrite Ht. cbn [bind].
    rewrite Hk0. cbn [bind]. rewrite Hc. cbn [bind].
    destruct (IH (bump by_type k0 (credit_value call))) as (m & -> & Hm).
    exists m. split; [reflexivity |].
    intros k. rewrite Hm. apply extend_bucket_bump.
    eapply type_key_of; eassumption.
Qed.

(** The loops for [by_source] and [by_voice] count the speech-generation
    records whose field is there and true, under the key of that field. *)
Lemma group_speech_by_spec field all_calls by_field :
  Forall (fun call => field_ok field call = true) all_calls ->
  exists m,
    group_speech_by field all_calls by_field = Ok m /\
    forall k,
      m !! k = extend_bucket (by_field !! k)
                 (members (speech_key field) k all_calls).
Proof.
  intros H. revert by_field.
  induction H as [| call rest Hok _ IH]; intros by_field.
  - exists by_field. split; reflexivity.
  - unfold field_ok in Hok.
    apply andb_prop in Hok as [Hok Hhash]. apply andb_prop in Hok as [Hty Hcr].
    apply credits_of_ok in Hcr.
    destruct (call !! "type") as [t |] eqn:Ht; [| discriminate].
    cbn [group_speech_by]. unfold getitem at 1. rewrite Ht. cbn [bind].
    assert (Hsw : speech_with field call
                  = is_speech_generation t && truthy (get_or call field VNone))
      by (unfold speech_with; rewrite Ht; reflexivity).
    rewrite <- Hsw.
    destruct (speech_with field call) eqn:Hsp.
    + simpl in Hhash. symmetry in Hsw.
      apply andb_prop in Hsw as [_ Htruthy].
      unfold get_or in Htruthy, Hhash.
      destruct (call !! field) as [v |] eqn:Hv; [| discriminate].
      apply hashable_key in Hhash as [k0 Hk0].
      unfold getitem. rewrite Hv. cbn [bind]. rewrite Hk0. cbn [bind].
      rewrite Hcr. cbn [bind].
      destruct (IH (bump by_field k0 (credit_value call))) as (m & -> & Hm).
      exists m. split; [reflexivity |].
      intros k. rewrite Hm. apply extend_bucket_bump.
      unfold speech_key. rewrite Hsp, Hv. unfold key_of_value. rewrite Hk0.
      reflexivity.
    + destruct (IH by_field) as (m & -> & Hm).
      exists m. split; [reflexivity |].
      intros k. rewrite Hm. apply extend_bucket_skip.
      unfold speech_key. rewrite Hsp. reflexivity.
Qed.

(** *** The lexicographic order on strings *)

Lemma string_compare_OT (a b : string) :
  String.compare a b = OrdersEx.String_as_OT.compare a b.
Proof.
  revert b. induction a as [| x a IH]; intros [| y b]; simpl; reflexivity.
Qed.

Lemma string_compare_refl (a : string) : String.compare a a = Eq.
Proof.
  induction a as [| x a IH]; simpl; [reflexivity |].
  unfold Ascii.compare. rewrite N.compare_refl. exact IH.
Qed.

Lemma string_compare_lt_trans (a b c : string) :
  String.compare a b = Lt -> String.compare b c = Lt -> String.compare a c = Lt.
Proof.
  rewrite !string_compare_OT.
  apply (@StrictOrder_Transitive _ _ OrdersEx.String_as_OT.lt_strorder).
Qed.

Lemma string_leb_refl (a : string) : String.leb a a = true.
Proof. unfold String.leb. rewrite string_compare_refl. reflexivity. Qed.

Lemma string_ltb_leb (a b : string) :
  String.ltb a b = true -> String.leb a b = true.
Proof.
  unfold String.ltb, String.leb. destruct (String.compare a b); auto.
Qed.

Lemma string_not_ltb_leb (a b : string) :
  String.ltb a b = false -> String.leb b a = true.
Proof.
  unfold String.ltb, String.leb. rewrite (String.compare_antisym b a).
  destruct (String.compare a b); simpl; auto.
Qed.

Lemma string_leb_trans (a b c : string) :
  String.leb a b = true -> String.leb b c = true -> String.leb a c = true.
Proof.
  unfold String.leb.
  destruct (String.compare a b) eqn:Hab; [| | discriminate]; intros _.
  - apply String.compare_eq_iff in Hab. subst b. auto.
  - destruct (String.compare b c) eqn:Hbc; [| | discriminate]; intros _.
    + apply String.compare_eq_iff in Hbc. subst c. rewrite Hab. reflexivity.
    + rewrite (string_compare_lt_trans a b c Hab Hbc). reflexivity.
Qed.

(** *** The time range *)

Lemma formatted_times_cons (call : record) rest f :
  call !! "formatted_time" = Some (VStr f) ->
  formatted_times (call :: rest) = f :: formatted_times rest.
Proof. unfold formatted_times. simpl. intros ->. reflexivity. Qed.

Lemma best_formatted_time_min rest b :
  Forall (fun call => call_ok call = true) rest ->
  exists m,
    best_formatted_time value_lt rest (VStr b) = Ok (VStr m) /\
    In m (b :: formatted_times rest) /\
    String.leb m b = true /\
    Forall (fun t => String.leb m t = true) (formatted_times rest).
Proof.
  intros H. revert b. induction H as [| call rest Hok _ IH]; intros b.
  - exists b. simpl. split; [reflexivity |]. split; [auto |].
    split; [apply string_leb_refl | constructor].
  - apply call_ok_inv in Hok as (_ & _ & _ & _ & f & Hf).
    rewrite (formatted_times_cons call rest f Hf).
    cbn [best_formatted_time]. unfold getitem. rewrite Hf. cbn [bind value_lt].
    destruct (String.ltb f b) eqn:Hlt.
    + destruct (IH f) as (m & -> & Hin & Hmf & Hall).
      exists m. split; [reflexivity |].
      split; [right; exact Hin |].
      split; [eapply string_leb_trans; [exact Hmf | apply string_ltb_leb; exact Hlt] |].
      constructor; assumption.
    + destruct (IH b) as (m & -> & Hin & Hmb & Hall).
      exists m. split; [reflexivity |].
      split; [destruct Hin as [<- | Hin]; [left; reflexivity | right; right; exact Hin] |].
      split; [exact Hmb |].
      constructor; [| exact Hall].
      eapply string_leb_trans; [exact Hmb | apply string_not_ltb_leb; exact Hlt].
Qed.

Lemma best_formatted_time_max rest b :
  Forall (fun call => call_ok call = true) rest ->
  exists m,
    best_formatted_time value_gt rest (VStr b) = Ok (VStr m) /\
    In m (b :: formatted_times rest) /\
    String.leb b m = true /\
    Forall (fun t => String.leb t m = true) (formatted_times rest).
Proof.
  intros H. revert b. induction H as [| call rest Hok _ IH]; intros b.
  - exists b. simpl. split; [reflexivity |]. split; [auto |].
    split; [apply string_leb_refl | constructor].
  - apply call_ok_inv in Hok as (_ & _ & _ & _ & f & Hf).
    rewrite (formatted_times_cons call rest f Hf).
    cbn [best_formatted_time]. unfold getitem. rewrite Hf. cbn [bind value_gt].
    destruct (String.ltb b f) eqn:Hlt.
    + destruct (IH f) as (m & -> & Hin & Hfm & Hall).
      exists m. split; [reflexivity |].
      split; [right; exact Hin |].
      split; [eapply string_leb_trans; [apply string_ltb_leb; exact Hlt | exact Hfm] |].
      constructor; assumption.
    + destruct (IH b) as (m & -> & Hin & Hbm & Hall).
      exists m. split; [reflexivity |].
      split; [destruct Hin as [<- | Hin]; [left; reflexivity | right; right; exact Hin] |].
      split; [exact Hbm |].
      constructor; [| exact Hall].
      eapply string_leb_trans; [apply string_not_ltb_leb; exact Hlt | exact Hbm].
Qed.

Lemma extreme_formatted_time_min all_calls :
  all_calls <> [] ->
  Forall (fun call => call_ok call = true) all_calls ->
  exists m,
    extreme_formatted_time value_lt all_calls = Ok (VStr m) /\
    lex_min m (formatted_times all_calls).
Proof.
  intros Hne H. destruct H as [| call rest Hok Hrest]; [congruence |].
  apply call_ok_inv in Hok as (_ & _ & _ & _ & f & Hf).
  rewrite (formatted_times_cons call rest f Hf).
  cbn [extreme_formatted_time]. unfold getitem. rewrite Hf. cbn [bind].
  destruct (best_formatted_time_min rest f Hrest) as (m & -> & Hin & Hmf & Hall).
  exists m. split; [reflexivity |]. split; [exact Hin |].
  constructor; assumption.
Qed.

Lemma extreme_formatted_time_max all_calls :
  all_calls <> [] ->
  Forall (fun call => call_ok call = true) all_calls ->
  exists m,
    extreme_formatted_time value_gt all_calls = Ok (VStr m) /\
    lex_max m (formatted_times all_calls).
Proof.
  intros Hne H. destruct H as [| call rest Hok Hrest]; [congruence |].
  apply call_ok_inv in Hok as (_ & _ & _ & _ & f & Hf).
  rewrite (formatted_times_cons call rest f Hf).
  cbn [extreme_formatted_time]. unfold getitem. rewrite Hf. cbn [bind].
  destruct (best_formatted_time_max rest f Hrest) as (m & -> & Hin & Hmf & Hall).
  exists m. split; [reflexivity |]. split; [exact Hin |].
  constructor; assumption.
Qed.

(** On records it can work with, the aggregator returns. *)
Lemma extreme_formatted_time_total better all_calls :
  (better = value_lt \/ better = value_gt) ->
  Forall (fun call => call_ok call = true) all_calls ->
  exists v, extreme_formatted_time better all_calls = Ok v.
Proof.
  intros Hb H. destruct all_calls as [| call rest]; [simpl; eauto |].
  destruct Hb as [-> | ->].
  - destruct (extreme_formatted_time_min (call :: rest)) as (m & -> & _);
      [discriminate | exact H | eauto].
  - destruct (extreme_formatted_time_max (call :: rest)) as (m & -> & _);
      [discriminate | exact H | eauto].
Qed.

(** *** Totals over a breakdown *)

Lemma bucket_total_insert f (m : breakdown) k b :
  m !! k = None ->
  bucket_total f (<[k := b]> m) = f b + bucket_total f m.
Proof.
  intros Hk. unfold bucket_total.
  rewrite map_fold_insert_L; [reflexivity | | exact Hk].
  intros; lia.
Qed.

Lemma bucket_total_delete f (m : breakdown) k b :
  m !! k = Some b ->
  bucket_total f m = f b + bucket_total f (delete k m).
Proof.
  intros Hk. unfold bucket_total.
  rewrite (map_fold_delete_L _ _ k b m); [reflexivity | | exact Hk].
  intros; lia.
Qed.

Lemma bucket_total_bump (m : breakdown) k c :
  bucket_total count (bump m k c) = bucket_total count m + 1 /\
  bucket_total credits (bump m k c) = bucket_total credits m + c.
Proof.
  unfold bump. destruct (m !! k) as [b |] eqn:Hk.
  - rewrite <- (insert_delete_eq m).
    rewrite !bucket_total_insert by apply lookup_delete_eq.
    rewrite (bucket_total_delete count m k b Hk).
    rewrite (bucket_total_delete credits m k b Hk).
    simpl. lia.
  - rewrite !bucket_total_insert by exact Hk. simpl. lia.
Qed.

Lemma group_by_type_totals all_calls by_type m :
  group_by_type all_calls by_type = Ok m ->
  bucket_total count m
    = bucket_total count by_type + Z.of_nat (length all_calls) /\
  bucket_total credits m
    = bucket_total credits by_type + sum_Z (List.map credit_value all_calls).
Proof.
  revert by_type. induction all_calls as [| call rest IH]; intros by_type.
  - simpl. intros [= <-]. lia.
  - cbn [group_by_type]. intros H.
    apply bind_ok in H as (t & _ & H).
    apply bind_ok in H as (k & _ & H).
    apply bind_ok in H as (c & Hc & H).
    apply credits_of_value in Hc. subst c.
    apply IH in H as [Hcount Hcredits].
    destruct (bucket_total_bump by_type k (credit_value call)) as [Hb1 Hb2].
    rewrite Hcount, Hcredits, Hb1, Hb2.
    cbn [length List.map sum_Z fold_right]. unfold sum_Z. lia.
Qed.

(** *** The aggregator as a whole *)

Lemma summarize_usage_ok all_calls :
  Forall (fun call => call_ok call = true) all_calls ->
  exists s,
    summarize_usage all_calls = Ok s /\
    total_api_calls s = Z.of_nat (length all_calls) /\
    total_credits_used s = sum_Z (List.map credit_value all_calls) /\
    (forall k, breakdown_by_type s !! k
               = bucket_of (members type_key k all_calls)) /\
    (forall k, breakdown_by_source s !! k
               = bucket_of (members (speech_key "source") k all_calls)) /\
    (forall k, breakdown_by_voice s !! k
               = bucket_of (members (speech_key "voice_name") k all_calls)) /\
    extreme_formatted_time value_lt all_calls = Ok (earliest_call s) /\
    extreme_formatted_time value_gt all_calls = Ok (latest_call s).
Proof.
  intros H. unfold summarize_usage.
  rewrite (sum_credits_spec all_calls 0).
  2: { eapply Forall_impl; [exact H |]. intros c Hc.
       apply call_ok_inv in Hc as (_ & Hc & _). exact Hc. }
  cbn [bind].
  destruct (group_by_type_spec all_calls ∅ H) as (bt & -> & Hbt). cbn [bind].
  destruct (group_speech_by_spec "source" all_calls ∅) as (bs & -> & Hbs).
  { eapply Forall_impl; [exact H |]. intros c Hc.
    apply call_ok_inv in Hc as (_ & _ & Hc & _). exact Hc. }
  cbn [bind].
  destruct (group_speech_by_spec "voice_name" all_calls ∅) as (bv & -> & Hbv).
  { eapply Forall_impl; [exact H |]. intros c Hc.
    apply call_ok_inv in Hc as (_ & _ & _ & Hc & _). exact Hc. }
  cbn [bind].
  destruct (extreme_formatted_time_total value_lt all_calls) as (lo & Hlo);
    [auto | exact H |].
  destruct (extreme_formatted_time_total value_gt all_calls) as (hi & Hhi);
    [auto | exact H |].
  rewrite Hlo, Hhi. cbn [bind].
  eexists. split; [reflexivity |]. cbn.
  split; [reflexivity |]. split; [reflexivity |].
  split; [intros k; rewrite Hbt, lookup_empty; apply extend_bucket_none |].
  split; [intros k; rewrite Hbs, lookup_empty; apply extend_bucket_none |].
  split; [intros k; rewrite Hbv, lookup_empty; apply extend_bucket_none |].
  split; reflexivity.
Qed.

(** The sum totals of a summary agree with its breakdown by type whenever
    the aggregator returns. *)
Lemma summarize_usage_consistent all_calls s :
  summarize_usage all_calls = Ok s ->
  total_api_calls s = bucket_total count (breakdown_by_type s) /\
  total_credits_used s = bucket_total credits (breakdown_by_type s).
Proof.
  unfold summarize_usage. intros H.
  apply bind_ok in H as (total & Htotal & H).
  apply bind_ok in H as (bt & Hbt & H).
  apply bind_ok in H as (bs & _ & H).
  apply bind_ok in H as (bv & _ & H).
  apply bind_ok in H as (lo & _ & H).
  apply bind_ok in H as (hi & _ & H).
  apply Ok_inj in H. subst s. cbn.
  apply sum_credits_value in Htotal.
  apply group_by_type_totals in Hbt as [Hcount Hcredits].
  rewrite Hcount, Hcredits.
  assert (Hc0 : bucket_total count ∅ = 0) by apply map_fold_empty.
  assert (Hc1 : bucket_total credits ∅ = 0) by apply map_fold_empty.
  rewrite Hc0, Hc1. lia.
Qed.

Lemma timed_example_type_keys f1 f2 :
  (type_key
     (dict_of [("credits_used", VInt 5); ("type", VStr "speech_generation");
               ("source", VStr "api"); ("formatted_time", VStr f1)])
   = Some (KStr "speech_generation")) /\
  (type_key
     (dict_of [("credits_used", VInt 3); ("type", VStr "conversational_ai");
               ("formatted_time", VStr f2)])
   = Some (KStr "conversational_ai")).
Proof. split; reflexivity. Qed.

Lemma timed_example_source_keys f1 f2 :
  (speech_key "source"
     (dict_of [("credits_used", VInt 5); ("type", VStr "speech_generation");
               ("source", VStr "api"); ("formatted_time", VStr f1)])
   = Some (KStr "api")) /\
  (speech_key "source"
     (dict_of [("credits_used", VInt 3); ("type", VStr "conversational_ai");
               ("formatted_time", VStr f2)])
   = None).
Proof. split; reflexivity. Qed.

(** C2, as it holds: on records that each carry a hashable [type], an
    integer [credits_used] if any, a [formatted_time] string and, where the
    record is a speech generation whose [source] (or [voice_name]) is there
    and true, a hashable [source] (or [voice_name]), the aggregator returns;
    [total_credits_used] is the sum of the records' [credits_used] (0 where
    absent), [breakdown_by_type] counts and sums the records under their
    [type], and [breakdown_by_source] does so for the speech-generation
    records whose [source] is there and true.  On the two records of the
    example, once each has a [formatted_time], the totals are those of the
    specification. *)
Theorem summarize_usage_totals_and_breakdowns :
  (forall all_calls,
     Forall (fun call => call_ok call = true) all_calls ->
     exists s,
       summarize_usage all_calls = Ok s /\
       total_credits_used s = sum_Z (List.map credit_value all_calls) /\
       (forall k, breakdown_by_type s !! k
                  = bucket_of (members type_key k all_calls)) /\
       (forall k, breakdown_by_source s !! k
                  = bucket_of (members (speech_key "source") k all_calls))) /\
  (forall f1 f2,
     exists s,
       summarize_usage (timed_example_calls f1 f2) = Ok s /\
       total_credits_used s = 8 /\
       breakdown_by_type s
         = {[ KStr "speech_generation" := Bucket 1 5;
              KStr "conversational_ai" := Bucket 1 3 ]} /\
       breakdown_by_source s = {[ KStr "api" := Bucket 1 5 ]}).
Proof.
  split.
  - intros all_calls H.
    destruct (summarize_usage_ok all_calls H)
      as (s & Hs & _ & Htotal & Hbt & Hbs & _).
    exists s. auto.
  - intros f1 f2.
    destruct (summarize_usage_ok (timed_example_calls f1 f2))
      as (s & Hs & _ & Htotal & Hbt & Hbs & _).
    { repeat constructor. }
    exists s. split; [exact Hs |].
    split; [rewrite Htotal; reflexivity |].
    split; apply map_eq; intros k.
    + rewrite Hbt. unfold members, timed_example_calls. cbn [List.filter].
      destruct (timed_example_type_keys f1 f2) as [-> ->].
      destruct (decide (KStr "speech_generation" = k)) as [<- | Hk1].
      * rewrite lookup_insert_eq.
        rewrite bool_decide_eq_true_2 by reflexivity.
        rewrite bool_decide_eq_false_2 by discriminate.
        reflexivity.
      * rewrite lookup_insert_ne by exact Hk1.
        rewrite (bool_decide_eq_false_2 (_ = Some k)) by congruence.
        destruct (decide (KStr "conversational_ai" = k)) as [<- | Hk2].
        -- rewrite lookup_singleton_eq.
           rewrite bool_decide_eq_true_2 by reflexivity. reflexivity.
        -- rewrite lookup_singleton_ne by exact Hk2.
           rewrite bool_decide_eq_false_2 by congruence. reflexivity.
    + rewrite Hbs. unfold members, timed_example_calls. cbn [List.filter].
      destruct (timed_example_source_keys f1 f2) as [-> ->].
      rewrite (bool_decide_eq_false_2 (None = Some k)) by discriminate.
      destruct (decide (KStr "api" = k)) as [<- | Hk1].
      * rewrite lookup_singleton_eq.
        rewrite bool_decide_eq_true_2 by reflexivity. reflexivity.
      * rewrite lookup_singleton_ne by exact Hk1.
        rewrite bool_decide_eq_false_2 by congruence. reflexivity.
Qed.

(** C2 as the specification words it fails on its own example: the two
    records have no [formatted_time], and the aggregator raises. *)
Lemma summarize_usage_spec_example_raises :
  summarize_usage spec_example_calls = Raise (KeyError "formatted_time") /\
  ~ (exists s, summarize_usage spec_example_calls = Ok s /\
               total_credits_used s = 8).
Proof.
  assert (H : summarize_usage spec_example_calls
              = Raise (KeyError "formatted_time")) by (vm_compute; reflexivity).
  split; [exact H |].
  intros (s & Hs & _). rewrite H in Hs. discriminate.
Qed.

(** A speech-generation record whose [source] is the empty string is not
    counted by source, although its source is not [None]. *)
Lemma empty_source_not_counted k :
  members (speech_key "source") k
    [dict_of [("type", VStr "speech_generation"); ("source", VStr "");
              ("formatted_time", VStr "2024-01-01 00:00:00 UTC")]] = [].
Proof.
  unfold members. cbn [List.filter].
  rewrite bool_decide_eq_false_2; [reflexivity |].
  vm_compute. discriminate.
Qed.

(** The condition on [source] cannot be left out: a speech-generation
    record whose [source] is a dictionary has a hashable [type], an integer
    [credits_used] and a [formatted_time] string, and the aggregator raises
    on it. *)
Lemma unhashable_source_raises :
  call_ok
    (dict_of [("credits_used", VInt 5); ("type", VStr "speech_generation");
              ("source", VDict [("a", VInt 1)]);
              ("formatted_time", VStr "2024-01-01 00:00:00 UTC")]) = false /\
  exists msg,
    summarize_usage
      [dict_of [("credits_used", VInt 5); ("type", VStr "speech_generation");
                ("source", VDict [("a", VInt 1)]);
                ("formatted_time", VStr "2024-01-01 00:00:00 UTC")]]
    = Raise (TypeError msg).
Proof.
  split; [vm_compute; reflexivity |].
  destruct (summarize_usage _) as [s | e] eqn:H; vm_compute in H;
    [discriminate H |].
  injection H as <-. eauto.
Qed.

(** C7: on the empty list the aggregator returns zero calls, zero credits,
    three empty breakdowns and a time range of two [None]; on a non-empty
    list of records it can work with, [earliest_call] and [latest_call] are
    the lexicographic minimum and maximum of the records' formatted-time
    strings. *)
Theorem summarize_usage_empty_and_time_range :
  summarize_usage [] =
    Ok {| total_api_calls := 0;
          total_credits_used := 0;
          breakdown_by_type := ∅;
          breakdown_by_source := ∅;
          breakdown_by_voice := ∅;
          earliest_call := VNone;
          latest_call := VNone |} /\
  (forall all_calls,
     all_calls <> [] ->
     Forall (fun call => call_ok call = true) all_calls ->
     exists s lo hi,
       summarize_usage all_calls = Ok s /\
       List.map (fun call : record => call !! "formatted_time") all_calls
         = List.map (fun f => Some (VStr f)) (formatted_times all_calls) /\
       earliest_call s = VStr lo /\
       latest_call s = VStr hi /\
       lex_min lo (formatted_times all_calls) /\
       lex_max hi (formatted_times all_calls)).
Proof.
  split; [reflexivity |].
  intros all_calls Hne H.
  destruct (summarize_usage_ok all_calls H)
    as (s & Hs & _ & _ & _ & _ & _ & Hlo & Hhi).
  destruct (extreme_formatted_time_min all_calls Hne H) as (lo & Hlo' & Hmin).
  destruct (extreme_formatted_time_max all_calls Hne H) as (hi & Hhi' & Hmax).
  exists s, lo, hi.
  split; [exact Hs |].
  split.
  { clear - H. induction H as [| call rest Hok _ IH]; [reflexivity |].
    apply call_ok_inv in Hok as (_ & _ & _ & _ & f & Hf).
    rewrite (formatted_times_cons call rest f Hf).
    cbn [List.map]. rewrite Hf, IH. reflexivity. }
  split; [congruence |]. split; [congruence |]. auto.
Qed.

(** C10: when every record has a [type] field, the summary the aggregator
    returns is consistent with its breakdown by type: the number of calls is
    the sum of the [count] entries and the total of credits is the sum of
    the [credits] entries; and it does return on records it can work with. *)
Theorem summary_consistent_with_breakdown_by_type :
  (forall all_calls s,
     Forall (fun call : record => is_Some (call !! "type")) all_calls ->
     summarize_usage all_calls = Ok s ->
     total_api_calls s = bucket_total count (breakdown_by_type s) /\
     total_credits_used s = bucket_total credits (breakdown_by_type s)) /\
  (forall all_calls,
     Forall (fun call => call_ok call = true) all_calls ->
     exists s,
       summarize_usage all_calls = Ok s /\
       total_api_calls s = bucket_total count (breakdown_by_type s) /\
       total_credits_used s = bucket_total credits (breakdown_by_type s)).
Proof.
  split.
  - intros all_calls s _ Hs. apply (summarize_usage_consistent all_calls s Hs).
  - intros all_calls H.
    destruct (summarize_usage_ok all_calls H) as (s & Hs & _).
    exists s. split; [exact Hs |].
    apply (summarize_usage_consistent all_calls s Hs).
Qed.

(** ** From the fetchers to the aggregator *)

Lemma call_ok_intro (r : record) t c f :
  r !! "type" = Some (VStr t) ->
  r !! "credits_used" = Some (VInt c) ->
  hashable (get_or r "source" VNone) = true ->
  hashable (get_or r "voice_name" VNone) = true ->
  r !! "formatted_time" = Some (VStr f) ->
  call_ok r = true.
Proof.
  intros Ht Hc Hs Hv Hf. unfold call_ok.
  rewrite Ht, Hc, Hs, Hv, Hf. cbn [hashable].
  rewrite !orb_true_r. reflexivity.
Qed.

Lemma str_or_none_hashable x : hashable (str_or_none x) = true.
Proof. destruct x as [s |]; simpl; [destruct (String.eqb s "") |]; reflexivity. Qed.

Lemma opt_str_hashable x : hashable (opt_str x) = true.
Proof. destruct x; reflexivity. Qed.

Section FetchedRecords.
Variable format_timestamp : Z -> result string.
Context {W : Type}.
Variable client : ElevenLabs W.

Lemma kept_record_call_ok start_ms end_ms r :
  kept_record format_timestamp start_ms end_ms r ->
  call_ok r = true /\ has_int_timestamp r.
Proof.
  intros (item & _ & Hrec).
  apply speech_call_data_fields in Hrec
    as (Hty & Hts & _ & (f & _ & Hf) & (c & _ & Hc) & Hsrc & Hvoice).
  split; [| eexists; exact Hts].
  apply (call_ok_intro r _ c f Hty Hc); [| | exact Hf].
  - unfold get_or. rewrite Hsrc. apply str_or_none_hashable.
  - unfold get_or. rewrite Hvoice. apply opt_str_hashable.
Qed.

Lemma conversation_record_call_ok conversation r :
  (exists d, enriched_conv_data format_timestamp conversation d = Ok r) \/
  (exists e, degraded_conv_data format_timestamp conversation e = Ok r) ->
  call_ok r = true /\ has_int_timestamp r.
Proof.
  intros [[d H] | [e H]].
  - apply enriched_conv_data_fields in H
      as (md & f & _ & _ & Hty & _ & Hts & _ & Hf & Hc & _ & _ & Hsrc & Hvoice).
    split; [| eexists; exact Hts].
    apply (call_ok_intro r _ _ f Hty Hc); [| | exact Hf];
      unfold get_or; [rewrite Hsrc | rewrite Hvoice]; reflexivity.
  - apply degraded_conv_data_fields in H
      as (f & _ & Hty & _ & Hts & _ & Hf & Hc & _ & _ & Hsrc & Hvoice).
    split; [| eexists; exact Hts].
    apply (call_ok_intro r _ _ f Hty Hc); [| | exact Hf];
      unfold get_or; [rewrite Hsrc | rewrite Hvoice]; reflexivity.
Qed.
End FetchedRecords.

Lemma timestamp_keys_int all_calls :
  Forall has_int_timestamp all_calls ->
  exists keyed,
    timestamp_keys all_calls = Ok keyed /\
    List.map snd keyed = all_calls /\
    Forall (fun kc => exists t, fst kc = VInt t) keyed.
Proof.
  induction 1 as [| call rest [t Ht] _ (keyed & Hk & Hsnd & Hint)].
  - exists []. auto.
  - exists ((VInt t, call) :: keyed). cbn [timestamp_keys].
    unfold getitem. rewrite Ht. cbn [bind]. rewrite Hk. cbn [bind].
    split; [reflexivity |]. split; [simpl; congruence |].
    constructor; [eexists; reflexivity | exact Hint].
Qed.

Lemma insert_by_key_int x sorted :
  (exists t, fst x = VInt t) ->
  Forall (fun kc : value * record => exists t, fst kc = VInt t) sorted ->
  exists res,
    insert_by_key x sorted = Ok res /\ res ≡ₚ x :: sorted /\
    Forall (fun kc => exists t, fst kc = VInt t) res.
Proof.
  intros [tx Hx] H. induction H as [| y rest [ty Hy] Hrest (res & Hres & Hperm & Hint)].
  - exists [x]. simpl. split; [reflexivity |]. split; [reflexivity |].
    constructor; [eauto | constructor].
  - cbn [insert_by_key]. rewrite Hx, Hy. cbn [value_lt bind].
    destruct (ty <? tx).
    + rewrite Hres. cbn [bind]. exists (y :: res).
      split; [reflexivity |].
      split; [rewrite Hperm; apply Permutation_swap |].
      constructor; eauto.
    + exists (x :: y :: rest). split; [reflexivity |]. split; [reflexivity |].
      constructor; [eauto |]. constructor; eauto.
Qed.

Lemma sort_keyed_int keyed :
  Forall (fun kc : value * record => exists t, fst kc = VInt t) keyed ->
  exists res,
    sort_keyed keyed = Ok res /\ res ≡ₚ keyed /\
    Forall (fun kc => exists t, fst kc = VInt t) res.
Proof.
  induction 1 as [| x rest Hx _ (sorted & Hs & Hperm & Hint)].
  - exists []. auto.
  - cbn [sort_keyed]. rewrite Hs. cbn [bind].
    destruct (insert_by_key_int x sorted Hx Hint) as (res & Hres & Hp & Hi).
    exists res. split; [exact Hres |]. split; [| exact Hi].
    rewrite Hp, Hperm. reflexivity.
Qed.

Lemma sort_by_timestamp_int all_calls :
  Forall has_int_timestamp all_calls ->
  exists sorted, sort_by_timestamp all_calls = Ok sorted /\ sorted ≡ₚ all_calls.
Proof.
  intros H. unfold sort_by_timestamp.
  destruct (timestamp_keys_int all_calls H) as (keyed & -> & Hsnd & Hint).
  cbn [bind].
  destruct (sort_keyed_int keyed Hint) as (res & -> & Hperm & _).
  cbn [bind]. exists (List.map snd res). split; [reflexivity |].
  rewrite <- Hsnd. apply Permutation_map. exact Hperm.
Qed.

Section Report.
Variable format_timestamp : Z -> result string.
Context {W : Type}.
Variable client : ElevenLabs W.

(** The merged records of the two fetchers can always be sorted and
    summarized. *)
Lemma fetched_calls_summarized fuel1 fuel2 start_ms end_ms w1 sh w2 w2' ch w3 :
  get_speech_history format_timestamp client fuel1 start_ms end_ms w1
    = Some (sh, w2) ->
  get_conversation_history format_timestamp client fuel2 start_ms end_ms w2'
    = Some (ch, w3) ->
  exists all_calls s,
    sort_by_timestamp (sh ++ ch) = Ok all_calls /\
    all_calls ≡ₚ sh ++ ch /\
    summarize_usage all_calls = Ok s.
Proof.
  intros Hsh Hch.
  assert (Hall : Forall (fun r => call_ok r = true /\ has_int_timestamp r)
                   (sh ++ ch)).
  { apply Forall_app. split.
    - unfold get_speech_history in Hsh.
      apply speech_history_loop_extends in Hsh as (kept & -> & Hkept).
      simpl. eapply Forall_impl; [exact Hkept |].
      intros r. apply kept_record_call_ok.
    - revert Hch. apply conversation_history_inv.
      intros conversation w0 r w' Hstep.
      apply (conversation_record_call_ok format_timestamp conversation).
      eapply conversation_step_record. exact Hstep. }
  apply Forall_and in Hall as [Hok Hint].
  destruct (sort_by_timestamp_int (sh ++ ch) Hint) as (sorted & Hsort & Hperm).
  destruct (summarize_usage_ok sorted) as (s & Hs & _).
  { rewrite Hperm. exact Hok. }
  exists sorted, s. auto.
Qed.

Variable time_ms : W -> Z.
Variable json_dumps : report -> bool -> result string.
Variable write_file : string -> string -> W -> result unit * W.

Hypothesis format_total : forall t, exists f, format_timestamp t = Ok f.
Hypothesis json_dumps_total : forall d b, exists j, json_dumps d b = Ok j.
Hypothesis write_file_total :
  forall name content w, exists w', write_file name content w = (Ok tt, w').

(** When the date library, the serializer and the file system do not fail,
    no exception escapes the report: nothing the fetchers return can make
    the sort or the aggregator raise. *)
Lemma run_report_completes fuel args start_ms end_ms auto_filename w r w' :
  run_report format_timestamp time_ms json_dumps write_file fuel client args
    start_ms end_ms auto_filename w = Some (r, w') ->
  r = Ok tt.
Proof.
  unfold run_report.
  destruct (get_subscription_info client w) as [subscription_info w1].
  destruct (get_speech_history _ _ _ _ _ w1) as [[sh w2] |] eqn:Hsh;
    [| discriminate].
  destruct (get_conversation_history _ _ _ _ _ w2) as [[ch w3] |] eqn:Hch;
    [| discriminate].
  destruct (get_usage_analytics _ _ _ _ _ w3) as [usage_analytics w4].
  destruct (fetched_calls_summarized _ _ _ _ _ _ _ _ _ _ Hsh Hch)
    as (all_calls & s & Hsort & _ & Hsum).
  rewrite Hsort. cbn [bind]. rewrite Hsum. cbn [bind].
  destruct (format_total start_ms) as [fs ->]. cbn [bind].
  destruct (format_total end_ms) as [fe ->]. cbn [bind].
  destruct (format_total (time_ms w4)) as [fg ->]. cbn [bind].
  match goal with
  | |- context [json_dumps ?d ?b] => destruct (json_dumps_total d b) as [j ->]
  end.
  destruct (write_file_total auto_filename j w4) as [w5 ->].
  destruct (output args) as [path |].
  - destruct (String.eqb path ""); [intros [= <- _]; reflexivity |].
    destruct (write_file_total path j w5) as [w6 ->].
    intros [= <- _]. reflexivity.
  - intros [= <- _]. reflexivity.
Qed.

End Report.

(** ** A service with finitely many pages is served in finitely many
    requests *)

Section CannedService.
Variable format_timestamp : Z -> result string.

Lemma speech_history_loop_step {W : Type} (client : ElevenLabs W) fuel
    start_ms end_ms cur acc w :
  speech_history_loop format_timestamp client (S fuel) start_ms end_ms cur acc w
  = match history_list client 1000 cur w with
    | (Raise e, w1) => Some (acc, w1)
    | (Ok response, w1) =>
        match history response with
        | [] => Some (acc, w1)
        | _ :: _ =>
            match scan_history format_timestamp start_ms end_ms
                    (history response) acc with
            | (acc', StopFetch) => Some (acc', w1)
            | (acc', Failed e) => Some (acc', w1)
            | (acc', PageDone) =>
                if negb (has_more response) then Some (acc', w1)
                else speech_history_loop format_timestamp client fuel
                       start_ms end_ms (last_history_item_id response) acc' w1
            end
        end
    end.
Proof. reflexivity. Qed.

Lemma canned_speech_history_loop_returns start_ms end_ms cur acc (w : canned) :
  exists res w',
    speech_history_loop format_timestamp canned_client
      (S (length (history_pages w))) start_ms end_ms cur acc w = Some (res, w').
Proof.
  destruct w as [hp cp ds n]. cbn [history_pages].
  revert cur acc cp ds n. induction hp as [| p hp IH]; intros cur acc cp ds n;
    rewrite speech_history_loop_step;
    cbn [canned_client history_list history_pages conversation_pages details
         requests].
  - eauto.
  - destruct p as [response | e]; [| eauto].
    destruct (history response) as [| item0 items0]; [eauto |].
    destruct (scan_history _ _ _ _ _) as [acc1 [| | e]]; [| eauto | eauto].
    destruct (has_more response); cbn [negb]; [| eauto].
    apply (IH (last_history_item_id response) acc1 cp ds (S n)).
Qed.

Lemma canned_speech_history_returns start_ms end_ms (w : canned) :
  exists res w',
    get_speech_history format_timestamp canned_client
      (S (length (history_pages w))) start_ms end_ms w = Some (res, w').
Proof. apply canned_speech_history_loop_returns. Qed.

Lemma conversation_loop_step {W : Type} (client : ElevenLabs W) fuel
    start_unix_secs end_unix_secs cur acc w :
  conversation_loop format_timestamp client (S fuel) start_unix_secs
    end_unix_secs cur acc w
  = match conversations_list client cur start_unix_secs end_unix_secs 100 w with
    | (Raise e, w1) => Some (Raise e, w1)
    | (Ok response, w1) =>
        match conversations response with
        | [] => Some (Ok acc, w1)
        | _ :: _ =>
            match scan_conversations format_timestamp client
                    (conversations response) acc w1 with
            | (Raise e, w2) => Some (Raise e, w2)
            | (Ok acc', w2) =>
                match cursor response with
                | Has c =>
                    if String.eqb c "" then Some (Ok acc', w2)
                    else conversation_loop format_timestamp client fuel
                           start_unix_secs end_unix_secs (Some c) acc' w2
                | Missing | Null => Some (Ok acc', w2)
                end
            end
        end
    end.
Proof. reflexivity. Qed.

Lemma canned_scan_conversations_pages convs acc (w : canned) r w1 :
  scan_conversations format_timestamp canned_client convs acc w = (r, w1) ->
  conversation_pages w1 = conversation_pages w.
Proof.
  revert acc w. induction convs as [| conversation convs IH]; intros acc w.
  - cbn. intros [= _ <-]. reflexivity.
  - cbn [scan_conversations]. unfold conversation_step.
    cbn [canned_client conversations_get].
    destruct (bind _ _) as [conv_data | e].
    + intros H. apply IH in H. exact H.
    + destruct (degraded_conv_data _ _ _) as [conv_data | e'].
      * intros H. apply IH in H. exact H.
      * intros [= _ <-]. reflexivity.
Qed.

Lemma canned_conversation_loop_returns n s e :
  forall (w : canned) cur acc,
    length (conversation_pages w) = n ->
    exists r w',
      conversation_loop format_timestamp canned_client (S n) s e cur acc w
      = Some (r, w').
Proof.
  induction n as [| n IH]; intros w cur acc Hlen;
    rewrite conversation_loop_step; cbn [canned_client conversations_list];
    destruct (conversation_pages w) as [| p cp] eqn:Hcp; try discriminate.
  - eauto.
  - destruct p as [response | ex]; [| eauto].
    destruct (conversations response) as [| c0 cs0]; [eauto |].
    destruct (scan_conversations _ _ _ _ _) as [[acc1 | ex] w2] eqn:Hscan;
      [| eauto].
    destruct (cursor response) as [| | c]; [eauto | eauto |].
    destruct (String.eqb c ""); [eauto |].
    apply IH. apply canned_scan_conversations_pages in Hscan.
    rewrite Hscan. cbn [conversation_pages]. simpl in Hlen. congruence.
Qed.

Lemma canned_conversation_history_returns start_ms end_ms (w : canned) :
  exists res w',
    get_conversation_history format_timestamp canned_client
      (S (length (conversation_pages w))) start_ms end_ms w = Some (res, w').
Proof.
  unfold get_conversation_history.
  destruct (canned_conversation_loop_returns (length (conversation_pages w))
              (start_ms / 1000) (end_ms / 1000) w None [] eq_refl)
    as ([acc | ex] & w' & ->); eauto.
Qed.

End CannedService.

(** ** Properties of the entry point *)

Section MainProperties.

Variable format_timestamp : Z -> result string.
Context {W : Type}.
Variable connect : string -> W -> result (ElevenLabs W) * W.
Variable time_ms : W -> Z.
Variable json_dumps : report -> bool -> result string.
Variable write_file : string -> string -> W -> result unit * W.

Local Abbreviation run_main :=
  (main format_timestamp connect time_ms json_dumps write_file).

Lemma main_exit_zero_or_one fuel api_key args w code w' :
  run_main fuel api_key (Parsed args) w = Some (code, w') ->
  code = 0 \/ code = 1.
Proof.
  unfold main.
  destruct api_key as [key |]; [| intros [= <- _]; auto].
  destruct (String.eqb key ""); [intros [= <- _]; auto |].
  destruct (_ >=? _); [intros [= <- _]; auto |].
  destruct (bind _ _); [| intros [= <- _]; auto].
  destruct (connect key w) as [[client | e] w1]; [| intros [= <- _]; auto].
  destruct (run_report _ _ _ _ _ _ _ _ _ _ _) as [[[u | e] w2] |];
    [intros [= <- _]; auto | intros [= <- _]; auto | discriminate].
Qed.

(** C6, as it holds: when the argument parser ends the run, before any
    check, the exit code is its own, 2 after a usage error and 0 after the
    help.  For parsed arguments the exit code is 1 when the credential
    variable is unset or empty, when the normalized start is not before the
    normalized end, and when the client cannot be constructed; it is 0 when
    none of these holds and the rest of the run comes to its end.  An exit
    code 0 is reached in no other way than by the help or by such a run, and
    an exit code 2 only by a usage error. *)
Theorem main_exit_code fuel api_key w :
  run_main fuel api_key UsageError w = Some (2, w) /\
  run_main fuel api_key HelpShown w = Some (0, w) /\
  (forall args,
     api_key = None \/ api_key = Some "" ->
     run_main fuel api_key (Parsed args) w = Some (1, w)) /\
  (forall args key,
     api_key = Some key -> key <> "" ->
     normalize_timestamp (start_timestamp args)
       >= normalize_timestamp (end_timestamp args) ->
     run_main fuel api_key (Parsed args) w = Some (1, w)) /\
  (forall args key s e ex w1,
     api_key = Some key -> key <> "" ->
     normalize_timestamp (start_timestamp args)
       < normalize_timestamp (end_timestamp args) ->
     format_timestamp (normalize_timestamp (start_timestamp args)) = Ok s ->
     format_timestamp (normalize_timestamp (end_timestamp args)) = Ok e ->
     connect key w = (Raise ex, w1) ->
     run_main fuel api_key (Parsed args) w = Some (1, w1)) /\
  (forall args key s e client w1 w2,
     api_key = Some key -> key <> "" ->
     normalize_timestamp (start_timestamp args)
       < normalize_timestamp (end_timestamp args) ->
     format_timestamp (normalize_timestamp (start_timestamp args)) = Ok s ->
     format_timestamp (normalize_timestamp (end_timestamp args)) = Ok e ->
     connect key w = (Ok client, w1) ->
     run_report format_timestamp time_ms json_dumps write_file fuel client args
       (normalize_timestamp (start_timestamp args))
       (normalize_timestamp (end_timestamp args))
       ("api_stats_" ++ str_of_int (time_ms w / 1000) ++ ".json")%string w1
       = Some (Ok tt, w2) ->
     run_main fuel api_key (Parsed args) w = Some (0, w2)) /\
  (forall parsed w',
     run_main fuel api_key parsed w = Some (0, w') ->
     parsed = HelpShown \/
     exists args key client w1,
       parsed = Parsed args /\
       api_key = Some key /\ key <> "" /\
       normalize_timestamp (start_timestamp args)
         < normalize_timestamp (end_timestamp args) /\
       connect key w = (Ok client, w1) /\
       run_report format_timestamp time_ms json_dumps write_file fuel client
         args
         (normalize_timestamp (start_timestamp args))
         (normalize_timestamp (end_timestamp args))
         ("api_stats_" ++ str_of_int (time_ms w / 1000) ++ ".json")%string w1
         = Some (Ok tt, w')) /\
  (forall parsed code w',
     run_main fuel api_key parsed w = Some (code, w') ->
     (code = 2 <-> parsed = UsageError) /\
     (code = 0 \/ code = 1 \/ code = 2)).
Proof.
  unfold main.
  split; [reflexivity |]. split; [reflexivity |].
  split; [| split; [| split; [| split; [| split]]]].
  - intros args [-> | ->]; reflexivity.
  - intros args key -> Hkey Hwin.
    apply String.eqb_neq in Hkey. rewrite Hkey.
    replace (_ >=? _) with true; [reflexivity |].
    symmetry. apply Z.geb_le. lia.
  - intros args key s e ex w1 -> Hkey Hwin Hs He Hconn.
    apply String.eqb_neq in Hkey. rewrite Hkey.
    replace (_ >=? _) with false
      by (symmetry; rewrite Z.geb_leb; apply Z.leb_gt; lia).
    rewrite Hs, He. cbn [bind]. rewrite Hconn. reflexivity.
  - intros args key s e client w1 w2 -> Hkey Hwin Hs He Hconn Hrun.
    apply String.eqb_neq in Hkey. rewrite Hkey.
    replace (_ >=? _) with false
      by (symmetry; rewrite Z.geb_leb; apply Z.leb_gt; lia).
    rewrite Hs, He. cbn [bind]. rewrite Hconn, Hrun. reflexivity.
  - intros parsed w'.
    destruct parsed as [args | |]; [| discriminate | auto].
    destruct api_key as [key |]; [| discriminate].
    destruct (String.eqb_spec key "") as [-> | Hkey]; [discriminate |].
    destruct (_ >=? _) eqn:Hwin; [discriminate |].
    destruct (bind _ _); [| discriminate].
    destruct (connect key w) as [[client | e] w1] eqn:Hconn; [| discriminate].
    destruct (run_report _ _ _ _ _ _ _ _ _ _ _) as [[[[] | e] w2] |] eqn:Hrun;
      [| discriminate | discriminate].
    intros [= <-]. right. exists args, key, client, w1.
    split; [reflexivity |]. split; [reflexivity |]. split; [exact Hkey |].
    split; [| split; [exact Hconn | exact Hrun]].
    rewrite Z.geb_leb in Hwin. apply Z.leb_gt in Hwin. exact Hwin.
  - intros parsed code w' Hrun.
    destruct parsed as [args | |].
    + apply main_exit_zero_or_one in Hrun.
      split; [split; [lia | discriminate] | lia].
    + injection Hrun as <- _. split; [tauto | lia].
    + injection Hrun as <- _. split; [split; [lia | discriminate] | lia].
Qed.

(** With parsed arguments, a credential, a proper window and a client, and
    with a date library, a serializer and a file system that do not fail, a
    run that comes to its end exits with code 0. *)
Lemma main_exit_zero_when_io_succeeds fuel key args w client w1 code w' :
  (forall t, exists f, format_timestamp t = Ok f) ->
  (forall d b, exists j, json_dumps d b = Ok j) ->
  (forall name content w0, exists w2, write_file name content w0 = (Ok tt, w2)) ->
  key <> "" ->
  normalize_timestamp (start_timestamp args)
    < normalize_timestamp (end_timestamp args) ->
  connect key w = (Ok client, w1) ->
  main format_timestamp connect time_ms json_dumps write_file fuel (Some key)
    (Parsed args) w = Some (code, w') ->
  code = 0.
Proof.
  intros Hfmt Hjson Hwrite Hkey Hwin Hconn. unfold main.
  apply String.eqb_neq in Hkey. rewrite Hkey.
  replace (_ >=? _) with false
    by (symmetry; rewrite Z.geb_leb; apply Z.leb_gt; lia).
  destruct (Hfmt (normalize_timestamp (start_timestamp args))) as [fs ->].
  destruct (Hfmt (normalize_timestamp (end_timestamp args))) as [fe ->].
  cbn [bind]. rewrite Hconn.
  destruct (run_report _ _ _ _ _ _ _ _ _ _ _) as [[r w2] |] eqn:Hrun;
    [| discriminate].
  apply (run_report_completes format_timestamp client time_ms json_dumps
           write_file Hfmt Hjson Hwrite) in Hrun.
  subst r. intros [= <- _]. reflexivity.
Qed.

End MainProperties.

(** ** The statements at work on the sample data *)

Lemma normalize_timestamp_spec_witness :
  normalize_timestamp 1640995200 = 1640995200 * 1000 /\
  normalize_timestamp 1640995200000 = 1640995200000 /\
  normalize_timestamp (normalize_timestamp 1640995200000) =
    normalize_timestamp 1640995200000.
Proof.
  destruct (normalize_timestamp_spec 1640995200) as [Hs _].
  destruct (normalize_timestamp_spec 1640995200000) as [_ [Hm Hi]].
  split; [apply Hs; lia | split; [apply Hm; lia | apply Hi; lia]].
Defined.

Lemma sample_first_scanned :
  scan_history utc_format_timestamp sample_start_ms sample_end_ms
    (history sample_first_page) [] = (sample_first_kept, PageDone).
Proof.
  unfold sample_first_kept.
  assert (H : snd (scan_history utc_format_timestamp sample_start_ms
                     sample_end_ms (history sample_first_page) []) = PageDone)
    by (vm_compute; reflexivity).
  destruct (scan_history _ _ _ _ _) as [kept ending].
  simpl in *. subst ending. reflexivity.
Defined.

Lemma sample_newer_scanned :
  scan_history utc_format_timestamp sample_start_ms sample_end_ms
    sample_newer sample_first_kept = (sample_kept, PageDone).
Proof.
  unfold sample_kept.
  assert (H : snd (scan_history utc_format_timestamp sample_start_ms
                     sample_end_ms sample_newer sample_first_kept) = PageDone)
    by (vm_compute; reflexivity).
  destruct (scan_history _ _ _ _ _) as [kept ending].
  simpl in *. subst ending. reflexivity.
Defined.

Lemma sample_first_page_scanned :
  pages_scanned utc_format_timestamp canned_client sample_start_ms
    sample_end_ms 1 None [] sample_world
    (Some "h5") sample_first_kept (sample_world_after 1 false 1).
Proof.
  apply (scanned_more utc_format_timestamp canned_client sample_start_ms
           sample_end_ms 0 None [] sample_world sample_first_page
           (sample_world_after 1 false 1) sample_first_kept).
  - reflexivity.
  - discriminate.
  - exact sample_first_scanned.
  - reflexivity.
  - constructor.
Defined.

Lemma speech_history_stops_at_older_record_witness :
  get_speech_history utc_format_timestamp canned_client 2
    sample_start_ms sample_end_ms sample_world
  = Some (sample_kept, sample_world_after 2 false 2) /\
  length sample_kept = 3%nat.
Proof.
  destruct (speech_history_stops_at_older_record utc_format_timestamp
              canned_client 1 0 sample_start_ms sample_end_ms sample_world
              (Some "h5") sample_first_kept (sample_world_after 1 false 1)
              sample_page (sample_world_after 2 false 2)
              sample_newer (sample_item "h1" 1700000100) sample_older
              sample_kept)
    as [Hrun [(kept & Hkept & Hrecs) _]].
  - exact sample_first_page_scanned.
  - reflexivity.
  - reflexivity.
  - exact sample_newer_scanned.
  - vm_compute. reflexivity.
  - split; [exact Hrun |].
    rewrite Hkept, length_app.
    apply Forall2_length in Hrecs. rewrite <- Hrecs.
    vm_compute. reflexivity.
Defined.

Lemma sample_speech_run :
  get_speech_history utc_format_timestamp canned_client 2
    sample_start_ms sample_end_ms sample_world
  = Some (sample_kept, sample_world_after 2 false 2).
Proof.
  assert (Hscan : scan_history utc_format_timestamp sample_start_ms
                    sample_end_ms (history sample_page) sample_first_kept
                  = (sample_kept, StopFetch)).
  { change (history sample_page)
      with (sample_newer ++ sample_item "h1" 1700000100 :: sample_older).
    rewrite scan_history_app, sample_newer_scanned. reflexivity. }
  unfold get_speech_history. change 2%nat with (1 + 1)%nat.
  rewrite (speech_history_loop_scanned utc_format_timestamp canned_client
             1 1 _ _ _ _ _ _ _ _ sample_first_page_scanned).
  unfold speech_history_loop.
  replace (history_list canned_client 1000 (Some "h5")
             (sample_world_after 1 false 1))
    with (Ok sample_page, sample_world_after 2 false 2) by reflexivity.
  rewrite Hscan. reflexivity.
Defined.

Lemma speech_history_within_window_witness :
  Forall (in_window sample_start_ms sample_end_ms) sample_kept /\
  scan_history utc_format_timestamp sample_start_ms sample_end_ms
    (sample_item "h4" 1700000500 :: sample_older) []
  = scan_history utc_format_timestamp sample_start_ms sample_end_ms
      sample_older [] /\
  scan_history utc_format_timestamp sample_start_ms sample_end_ms
    (sample_item "h1" 1700000100 :: sample_older) [] = ([], StopFetch).
Proof.
  destruct (speech_history_within_window utc_format_timestamp canned_client
              sample_start_ms sample_end_ms) as (Hinv & Hskip & Hstop).
  split; [exact (Hinv 2%nat _ _ _ sample_speech_run) |].
  split.
  - apply Hskip; vm_compute; [discriminate | reflexivity].
  - apply Hstop. vm_compute. reflexivity.
Defined.

Lemma sample_enriched_built :
  enriched_conv_data utc_format_timestamp
    (sample_conversation "conv1" 1700000210) (sample_detail 1700000210)
  = Ok sample_enriched.
Proof.
  unfold sample_enriched.
  destruct (detail_complete_enriched utc_format_timestamp
              (sample_conversation "conv1" 1700000210)
              (sample_detail 1700000210)) as [r ->]; reflexivity.
Defined.

Lemma enriched_session_cost_and_tokens_witness :
  has_error sample_enriched = false /\
  sample_enriched !! "credits_used" = Some (VInt 120) /\
  sample_enriched !! "total_llm_tokens" = Some (VInt 42).
Proof.
  destruct (enriched_session_cost_and_tokens utc_format_timestamp
              canned_client (sample_conversation "conv1" 1700000210)
              (sample_world_after 0 true 1) (sample_detail 1700000210)
              (sample_world_after 0 true 2) sample_enriched
              (sample_world_after 0 true 2))
    as (_ & Henriched & [_ Hcomplete] & _).
  - reflexivity.
  - apply (conversation_step_emitted utc_format_timestamp canned_client
             (sample_conversation "conv1" 1700000210)
             (sample_world_after 0 true 1) (Ok (sample_detail 1700000210))
             (sample_world_after 0 true 2) sample_enriched);
      [reflexivity | exact sample_enriched_built].
  - assert (Hplain : has_error sample_enriched = false)
      by (apply Hcomplete; vm_compute; reflexivity).
    destruct (Henriched Hplain) as (_ & md & Hmd & Hcost & Htokens).
    cbn [metadata sample_detail] in Hmd. injection Hmd as <-.
    split; [exact Hplain |]. split; [exact Hcost | exact Htokens].
Defined.

Lemma one_failed_detail_of_three_witness :
  exists r1 r2 r3,
    get_conversation_history utc_format_timestamp canned_client 1
      sample_start_ms sample_end_ms sample_world
    = Some ([r1; r2; r3], sample_world_after 0 true 4) /\
    List.map has_error [r1; r2; r3] = [false; true; false] /\
    List.map (fun r : record => r !! "id") [r1; r2; r3]
    = [Some (VStr "conv1"); Some (VStr "conv2"); Some (VStr "conv3")].
Proof.
  destruct (one_failed_detail_of_three utc_format_timestamp canned_client 0
              sample_start_ms sample_end_ms sample_world
              (sample_world_after 0 true 1)
              (sample_world_after 0 true 2)
              (sample_world_after 0 true 3)
              (sample_world_after 0 true 4)
              sample_conversations
              (sample_conversation "conv1" 1700000210)
              (sample_conversation "conv2" 1700000220)
              (sample_conversation "conv3" 1700000230)
              (Ok (sample_detail 1700000210))
              (Raise (ApiError "status_code: 503"))
              (Ok (sample_detail 1700000230)))
    as (r1 & r2 & r3 & _ & _ & _ & Herr & _ & Hids & Hrun & _).
  - reflexivity.
  - reflexivity.
  - reflexivity.
  - reflexivity.
  - reflexivity.
  - reflexivity.
  - vm_compute. reflexivity.
  - vm_compute. reflexivity.
  - vm_compute. reflexivity.
  - exists r1, r2, r3.
    split; [apply Hrun; reflexivity |].
    split; [exact Herr | exact Hids].
Defined.

Lemma fetched_records_time_consistent_witness :
  Forall (time_consistent utc_format_timestamp) sample_kept /\
  time_consistent utc_format_timestamp sample_enriched.
Proof.
  destruct (fetched_records_time_consistent utc_format_timestamp canned_client)
    as (_ & Henriched & _ & Hspeech & _).
  split.
  - exact (Hspeech 2%nat _ _ _ _ _ sample_speech_run).
  - exact (Henriched _ _ _ sample_enriched_built).
Defined.

Lemma timed_example_calls_ok f1 f2 :
  Forall (fun call => call_ok call = true) (timed_example_calls f1 f2).
Proof. repeat constructor. Qed.

Lemma summarize_usage_totals_and_breakdowns_witness :
  exists s,
    summarize_usage sample_calls = Ok s /\
    total_credits_used s = 8 /\
    breakdown_by_type s !! KStr "conversational_ai" = Some (Bucket 1 3) /\
    breakdown_by_source s !! KStr "api" = Some (Bucket 1 5).
Proof.
  destruct summarize_usage_totals_and_breakdowns as [Hgen _].
  destruct (Hgen sample_calls)
    as (s & Hs & Htotal & Hbt & Hbs).
  - apply timed_example_calls_ok.
  - exists s. split; [exact Hs |].
    split; [rewrite Htotal; reflexivity |].
    split; [rewrite Hbt; reflexivity | rewrite Hbs; reflexivity].
Defined.

Lemma summarize_usage_empty_and_time_range_witness :
  exists s,
    summarize_usage sample_calls = Ok s /\
    earliest_call s = VStr "2024-01-01 09:30:00 UTC" /\
    latest_call s = VStr "2024-01-02 10:00:00 UTC".
Proof.
  destruct summarize_usage_empty_and_time_range as [_ Hrange].
  destruct (Hrange sample_calls)
    as (s & lo & hi & Hs & _ & Hlo & Hhi & [Hin Hmin] & [Hin' Hmax]).
  - discriminate.
  - apply timed_example_calls_ok.
  - exists s. split; [exact Hs |].
    rewrite Hlo, Hhi.
    change (formatted_times _)
      with ["2024-01-02 10:00:00 UTC"; "2024-01-01 09:30:00 UTC"]%string
      in Hin, Hmin, Hin', Hmax.
    split.
    + destruct Hin as [<- | [<- | []]]; [| reflexivity].
      inversion Hmin as [| ? ? _ Hrest]; subst.
      inversion Hrest as [| ? ? Hbad _]; subst. discriminate Hbad.
    + destruct Hin' as [<- | [<- | []]]; [reflexivity |].
      inversion Hmax as [| ? ? Hbad _]; subst. discriminate Hbad.
Defined.

Lemma summary_consistent_with_breakdown_by_type_witness :
  exists s,
    summarize_usage sample_calls = Ok s /\
    total_api_calls s = 2 /\
    bucket_total count (breakdown_by_type s) = 2 /\
    bucket_total credits (breakdown_by_type s) = 8.
Proof.
  destruct summary_consistent_with_breakdown_by_type as [Hcons Hret].
  destruct (Hret sample_calls)
    as (s & Hs & _).
  - apply timed_example_calls_ok.
  - destruct (Hcons sample_calls s) as [Hcount Hcredits].
    + repeat constructor; eexists; reflexivity.
    + exact Hs.
    + destruct (summarize_usage_ok sample_calls (timed_example_calls_ok _ _))
        as (s' & Hs' & Hn & Ht & _).
      assert (s' = s) by congruence. subst s'.
      exists s. split; [exact Hs |].
      rewrite <- Hcount, <- Hcredits, Hn, Ht.
      split; [reflexivity |]. split; reflexivity.
Defined.

Lemma sample_report_run :
  run_report utc_format_timestamp sample_time_ms sample_json_dumps
    sample_write_file 2 canned_client (sample_args 1700000150 1700000400)
    1700000150000 1700000400000 "api_stats_1700000600.json" sample_world
  = Some (Ok tt, sample_world_after 2 true 6).
Proof. vm_compute. reflexivity. Qed.

Lemma main_exit_code_witness :
  main utc_format_timestamp sample_connect sample_time_ms sample_json_dumps
    sample_write_file 2 None UsageError sample_world
  = Some (2, sample_world) /\
  main utc_format_timestamp sample_connect sample_time_ms sample_json_dumps
    sample_write_file 2 None (Parsed (sample_args 1700000150 1700000400))
    sample_world
  = Some (1, sample_world) /\
  main utc_format_timestamp sample_connect sample_time_ms sample_json_dumps
    sample_write_file 2 (Some "sk-demo")
    (Parsed (sample_args 1700000400 1700000150)) sample_world
  = Some (1, sample_world) /\
  main utc_format_timestamp failing_connect sample_time_ms sample_json_dumps
    sample_write_file 2 (Some "sk-demo")
    (Parsed (sample_args 1700000150 1700000400)) sample_world
  = Some (1, sample_world) /\
  main utc_format_timestamp sample_connect sample_time_ms sample_json_dumps
    sample_write_file 2 (Some "sk-demo")
    (Parsed (sample_args 1700000150 1700000400)) sample_world
  = Some (0, sample_world_after 2 true 6).
Proof.
  split; [| split; [| split; [| split]]].
  - apply (main_exit_code utc_format_timestamp sample_connect sample_time_ms
             sample_json_dumps sample_write_file 2 None sample_world).
  - apply (proj1 (proj2 (proj2 (main_exit_code utc_format_timestamp
             sample_connect sample_time_ms sample_json_dumps
             sample_write_file 2 None sample_world)))).
    left. reflexivity.
  - apply (proj1 (proj2 (proj2 (proj2 (main_exit_code utc_format_timestamp
             sample_connect sample_time_ms sample_json_dumps
             sample_write_file 2 (Some "sk-demo") sample_world))))
             (sample_args 1700000400 1700000150) "sk-demo").
    + reflexivity.
    + discriminate.
    + vm_compute. discriminate.
  - apply (proj1 (proj2 (proj2 (proj2 (proj2 (main_exit_code
             utc_format_timestamp failing_connect sample_time_ms
             sample_json_dumps sample_write_file 2 (Some "sk-demo")
             sample_world)))))
             (sample_args 1700000150 1700000400)
             "sk-demo" "2023-11-14 22:15:50 UTC" "2023-11-14 22:20:00 UTC"
             (ApiError "connection refused") sample_world).
    + reflexivity.
    + discriminate.
    + vm_compute. reflexivity.
    + vm_compute. reflexivity.
    + vm_compute. reflexivity.
    + reflexivity.
  - apply (proj1 (proj2 (proj2 (proj2 (proj2 (proj2 (main_exit_code
             utc_format_timestamp sample_connect sample_time_ms
             sample_json_dumps sample_write_file 2 (Some "sk-demo")
             sample_world))))))
             (sample_args 1700000150 1700000400)
             "sk-demo" "2023-11-14 22:15:50 UTC" "2023-11-14 22:20:00 UTC"
             canned_client sample_world).
    + reflexivity.
    + discriminate.
    + vm_compute. reflexivity.
    + vm_compute. reflexivity.
    + vm_compute. reflexivity.
    + reflexivity.
    + exact sample_report_run.
Defined.

(** C6 as the specification words it fails twice over.  When the
    credential variable is set to the empty string, the variable is not
    unset, the start is before the end (as given and normalized), the client
    could be constructed, and the exit code is 1.  And when the command line
    does not parse, the exit code is 2, although the credential variable is
    unset, which should give 1, and also when none of the three conditions
    holds, which should give 0. *)
Lemma main_exit_empty_credential :
  (Some "" <> (None : option string) /\
   start_timestamp (sample_args 1700000150 1700000400)
     < end_timestamp (sample_args 1700000150 1700000400) /\
   normalize_timestamp (start_timestamp (sample_args 1700000150 1700000400))
     < normalize_timestamp (end_timestamp (sample_args 1700000150 1700000400)) /\
   sample_connect "" sample_world = (Ok canned_client, sample_world) /\
   main utc_format_timestamp sample_connect sample_time_ms sample_json_dumps
     sample_write_file 2 (Some "")
     (Parsed (sample_args 1700000150 1700000400)) sample_world
   = Some (1, sample_world)) /\
  main utc_format_timestamp sample_connect sample_time_ms sample_json_dumps
    sample_write_file 2 None UsageError sample_world
  = Some (2, sample_world) /\
  main utc_format_timestamp sample_connect sample_time_ms sample_json_dumps
    sample_write_file 2 (Some "sk-demo") UsageError sample_world
  = Some (2, sample_world).
Proof.
  split; [| split; reflexivity].
  split; [discriminate |].
  split; [vm_compute; reflexivity |].
  split; [vm_compute; reflexivity |].
  split; reflexivity.
Qed.

(** The window check is made on the normalized timestamps: a start before
    the end as given, in seconds just under the threshold against
    milliseconds at it, is refused. *)
Lemma main_compares_normalized_timestamps :
  start_timestamp (sample_args 32503679999 32503680000)
    < end_timestamp (sample_args 32503679999 32503680000) /\
  main utc_format_timestamp sample_connect sample_time_ms sample_json_dumps
    sample_write_file 2 (Some "sk-demo")
    (Parsed (sample_args 32503679999 32503680000)) sample_world
  = Some (1, sample_world).
Proof. split; [vm_compute; reflexivity | reflexivity]. Qed.

(** ** More on the normalizer *)

(** X1: normalizing twice gives the same as normalizing once exactly for 0
    and for the values from 32503680 on; a positive value below that, and
    every negative one, is multiplied again. *)
Theorem normalize_timestamp_idempotent_iff (t : Z) :
  normalize_timestamp (normalize_timestamp t) = normalize_timestamp t
  <-> t = 0 \/ 32503680 <= t.
Proof.
  unfold normalize_timestamp.
  destruct (Z.ltb_spec t 32503680000) as [Hlt | Hge].
  - destruct (Z.ltb_spec (t * 1000) 32503680000); lia.
  - destruct (Z.ltb_spec t 32503680000); lia.
Qed.

Lemma normalize_timestamp_idempotent_iff_witness :
  normalize_timestamp (normalize_timestamp 1700000000)
    = normalize_timestamp 1700000000 /\
  normalize_timestamp (normalize_timestamp 86400)
    <> normalize_timestamp 86400.
Proof.
  split.
  - apply (proj2 (normalize_timestamp_idempotent_iff 1700000000)). right. lia.
  - intros H. apply (proj1 (normalize_timestamp_idempotent_iff 86400)) in H.
    lia.
Defined.

(** X2: normalization keeps the strict order of two timestamps that are on
    the same side of the threshold and never makes a non-negative timestamp
    smaller; across the threshold the order can turn round: a value below it
    whose thousandfold reaches a value above it is not normalized to less. *)
Theorem normalize_timestamp_order (a b : Z) :
  (a < b -> b < 32503680000 ->
   normalize_timestamp a < normalize_timestamp b) /\
  (a < b -> 32503680000 <= a ->
   normalize_timestamp a < normalize_timestamp b) /\
  (0 <= a -> a <= normalize_timestamp a) /\
  (a < 32503680000 -> 32503680000 <= b -> b <= a * 1000 ->
   normalize_timestamp b <= normalize_timestamp a).
Proof.
  unfold normalize_timestamp.
  split; [| split; [| split]]; intros;
    destruct (Z.ltb_spec a 32503680000), (Z.ltb_spec b 32503680000); lia.
Qed.

Lemma normalize_timestamp_order_witness :
  normalize_timestamp 1640995200 < normalize_timestamp 1641081600 /\
  normalize_timestamp 1640995200000 < normalize_timestamp 1641081600000 /\
  1640995200 <= normalize_timestamp 1640995200 /\
  normalize_timestamp 32503680000 <= normalize_timestamp 32503679999.
Proof.
  destruct (normalize_timestamp_order 1640995200 1641081600)
    as (Hs & _ & Hg & _).
  destruct (normalize_timestamp_order 1640995200000 1641081600000)
    as (_ & Hm & _).
  destruct (normalize_timestamp_order 32503679999 32503680000)
    as (_ & _ & _ & Hx).
  split; [apply Hs; lia |]. split; [apply Hm; lia |].
  split; [apply Hg; lia | apply Hx; lia].
Defined.

(** ** More on the two fetchers *)

Section MoreFetcherProperties.

Variable format_timestamp : Z -> result string.
Context {W : Type}.
Variable client : ElevenLabs W.
Variable time_ms : W -> Z.

(** X3: for a window given in seconds, the two readers that take seconds
    are asked with the very seconds given: the milliseconds made by the
    normalizer are divided back without loss. *)
Theorem seconds_window_round_trip fuel s e w :
  s < 32503680000 -> e < 32503680000 ->
  normalize_timestamp s / 1000 = s /\
  normalize_timestamp e / 1000 = e /\
  get_conversation_history format_timestamp client fuel
    (normalize_timestamp s) (normalize_timestamp e) w
  = match conversation_loop format_timestamp client fuel s e None [] w with
    | None => None
    | Some (Ok all_conversations, w1) => Some (all_conversations, w1)
    | Some (Raise _, w1) => Some ([], w1)
    end /\
  get_usage_analytics format_timestamp time_ms client
    (normalize_timestamp s) (normalize_timestamp e) w
  = match usage_get client s e w with
    | (Ok analytics, w1) =>
        match format_timestamp (time_ms w1) with
        | Ok fetched_at =>
            (VDict [("usage_analytics", analytics);
                    ("fetched_at", VStr fetched_at)], w1)
        | Raise ex => (VDict [("error", VStr (exn_str ex))], w1)
        end
    | (Raise ex, w1) => (VDict [("error", VStr (exn_str ex))], w1)
    end.
Proof.
  intros Hs He.
  assert (Hs' : normalize_timestamp s / 1000 = s).
  { unfold normalize_timestamp.
    destruct (Z.ltb_spec s 32503680000); [| lia].
    apply Z.div_mul. lia. }
  assert (He' : normalize_timestamp e / 1000 = e).
  { unfold normalize_timestamp.
    destruct (Z.ltb_spec e 32503680000); [| lia].
    apply Z.div_mul. lia. }
  split; [exact Hs' |]. split; [exact He' |].
  unfold get_conversation_history, get_usage_analytics.
  rewrite Hs', He'. split; reflexivity.
Qed.

End MoreFetcherProperties.

Lemma seconds_window_round_trip_witness :
  normalize_timestamp 1700000150 / 1000 = 1700000150 /\
  get_conversation_history utc_format_timestamp canned_client 1
    (normalize_timestamp 1700000150) (normalize_timestamp 1700000400)
    sample_world
  = match conversation_loop utc_format_timestamp canned_client 1
            1700000150 1700000400 None [] sample_world with
    | None => None
    | Some (Ok all_conversations, w1) => Some (all_conversations, w1)
    | Some (Raise _, w1) => Some ([], w1)
    end.
Proof.
  destruct (seconds_window_round_trip utc_format_timestamp canned_client
              sample_time_ms 1 1700000150 1700000400 sample_world)
    as (Hs & _ & Hconv & _); [lia | lia |].
  split; [exact Hs | exact Hconv].
Defined.

Section MoreSpeech.

Variable format_timestamp : Z -> result string.
Context {W : Type}.
Variable client : ElevenLabs W.

Lemma speech_call_data_counts item t r :
  speech_call_data format_timestamp item t = Ok r ->
  exists from to,
    character_count_change_from item = Has from /\
    character_count_change_to item = Has to /\
    r !! "character_count_from" = Some (VInt from) /\
    r !! "character_count_to" = Some (VInt to) /\
    r !! "credits_used" = Some (VInt (from - to)).
Proof.
  unfold speech_call_data, calculate_credits_used, getattr_int. intros H.
  destruct (character_count_change_from item) as [| | from];
    destruct (character_count_change_to item) as [| | to];
    cbn [bind] in H; try discriminate;
    try (destruct (format_timestamp t); discriminate).
  apply bind_ok in H as (f & Hf & H).
  apply Ok_inj in H. subst r.
  exists from, to. split; [reflexivity |]. split; [reflexivity |].
  generalize (from - to). intros c.
  split; [vm_compute; reflexivity |]. split; vm_compute; reflexivity.
Qed.

(** X4: every record the speech fetcher returns carries the two character
    counters as integers and has [credits_used] equal to their difference;
    an item that lacks one of the counters gets 0 credits from
    [calculate_credits_used], but no record is ever built for it. *)
Theorem speech_records_credit_is_counter_difference start_ms end_ms :
  (forall fuel w res w',
     get_speech_history format_timestamp client fuel start_ms end_ms w
       = Some (res, w') ->
     Forall (fun r : record =>
               exists from to,
                 r !! "character_count_from" = Some (VInt from) /\
                 r !! "character_count_to" = Some (VInt to) /\
                 r !! "credits_used" = Some (VInt (from - to))) res) /\
  (forall item t,
     character_count_change_from item = Missing \/
     character_count_change_to item = Missing ->
     calculate_credits_used item = Ok 0 /\
     exists e, speech_call_data format_timestamp item t = Raise e).
Proof.
  split.
  - intros fuel w res w' Hrun. unfold get_speech_history in Hrun.
    apply speech_history_loop_extends in Hrun as (kept & -> & Hkept).
    simpl. eapply Forall_impl; [exact Hkept |].
    intros r (item & _ & Hrec).
    apply speech_call_data_counts in Hrec as (from & to & _ & _ & H).
    exists from, to. exact H.
  - intros item t Hmiss.
    assert (Hc : calculate_credits_used item = Ok 0).
    { unfold calculate_credits_used.
      destruct Hmiss as [-> | ->];
        [| destruct (character_count_change_from item)]; reflexivity. }
    split; [exact Hc |].
    destruct (speech_call_data format_timestamp item t) as [r |] eqn:Hr;
      [| eauto].
    apply speech_call_data_counts in Hr as (from & to & Hf & Ht & _).
    destruct Hmiss; congruence.
Qed.

(** X5: when a request for a page raises, the speech fetcher returns the
    records of the pages it has scanned so far instead of failing; all of
    them lie in the window. *)
Theorem speech_history_partial_on_failed_request
    n fuel start_ms end_ms w0 cur acc w e w1 :
  pages_scanned format_timestamp client start_ms end_ms n None [] w0 cur acc w ->
  history_list client 1000 cur w = (Raise e, w1) ->
  get_speech_history format_timestamp client (n + S fuel) start_ms end_ms w0
    = Some (acc, w1) /\
  Forall (in_window start_ms end_ms) acc.
Proof.
  intros Hpages Hcall. split.
  - unfold get_speech_history.
    rewrite (speech_history_loop_scanned _ _ n (S fuel) _ _ _ _ _ _ _ _ Hpages).
    cbn [speech_history_loop]. rewrite Hcall. reflexivity.
  - eapply Forall_impl;
      [apply (pages_scanned_kept _ _ _ _ _ _ _ _ _ _ _ Hpages); constructor |].
    intros r. apply kept_record_in_window.
Qed.

(** X6: the speech fetcher ends normally on an empty page, which adds
    nothing, and after a page that announces no more, whatever cursor that
    page carries. *)
Theorem speech_history_ends_without_more_pages
    n fuel start_ms end_ms w0 cur acc w response w1 :
  pages_scanned format_timestamp client start_ms end_ms n None [] w0 cur acc w ->
  history_list client 1000 cur w = (Ok response, w1) ->
  (history response = [] ->
   get_speech_history format_timestamp client (n + S fuel) start_ms end_ms w0
     = Some (acc, w1)) /\
  (forall acc',
     history response <> [] ->
     scan_history format_timestamp start_ms end_ms (history response) acc
       = (acc', PageDone) ->
     has_more response = false ->
     get_speech_history format_timestamp client (n + S fuel) start_ms end_ms w0
       = Some (acc', w1)).
Proof.
  intros Hpages Hcall. unfold get_speech_history.
  rewrite (speech_history_loop_scanned _ _ n (S fuel) _ _ _ _ _ _ _ _ Hpages).
  cbn [speech_history_loop]. rewrite Hcall. split.
  - intros ->. reflexivity.
  - intros acc' Hne Hscan Hmore.
    destruct (history response) as [| item0 items0]; [congruence |].
    rewrite Hscan, Hmore. reflexivity.
Qed.

(** X7: when the record of an item inside the window cannot be built, the
    speech fetcher stops there and returns the records built before it; an
    item one of whose character counters is absent or [None] is such an
    item. *)
Theorem speech_history_truncated_at_unbuildable_item
    n fuel start_ms end_ms w0 cur acc w response w1 before item after acc' :
  pages_scanned format_timestamp client start_ms end_ms n None [] w0 cur acc w ->
  history_list client 1000 cur w = (Ok response, w1) ->
  history response = before ++ item :: after ->
  scan_history format_timestamp start_ms end_ms before acc = (acc', PageDone) ->
  item_in_window start_ms end_ms item = true ->
  (forall from, character_count_change_from item <> Has from) \/
  (forall to, character_count_change_to item <> Has to) ->
  (exists e, speech_call_data format_timestamp item (date_unix item * 1000)
             = Raise e) /\
  get_speech_history format_timestamp client (n + S fuel) start_ms end_ms w0
    = Some (acc', w1).
Proof.
  intros Hpages Hcall Hpage Hscan Hwin Hnull.
  assert (Hraise : exists e, speech_call_data format_timestamp item
                               (date_unix item * 1000) = Raise e).
  { destruct (speech_call_data _ _ _) as [r |] eqn:Hr; [| eauto].
    apply speech_call_data_counts in Hr as (from & to & Hf & Ht & _).
    exfalso. destruct Hnull as [H | H]; [apply (H from) | apply (H to)];
      assumption. }
  split; [exact Hraise |].
  destruct Hraise as [e He].
  unfold get_speech_history.
  rewrite (speech_history_loop_scanned _ _ n (S fuel) _ _ _ _ _ _ _ _ Hpages).
  cbn [speech_history_loop]. rewrite Hcall.
  destruct (history response) as [| item0 items0] eqn:Hh;
    [destruct before; discriminate |].
  rewrite Hpage, scan_history_app, Hscan. cbn [scan_history].
  unfold item_in_window in Hwin. rewrite Hwin, He. reflexivity.
Qed.

End MoreSpeech.

Section Completeness.

Variable format_timestamp : Z -> result string.

Lemma old_items_out_of_window start_ms end_ms items :
  Forall (fun item => date_unix item * 1000 < start_ms) items ->
  List.filter (item_in_window start_ms end_ms) items = [].
Proof.
  induction 1 as [| item items Hold _ IH]; [reflexivity |].
  cbn [List.filter]. unfold item_in_window at 1.
  replace (start_ms <=? date_unix item * 1000) with false
    by (symmetry; apply Z.leb_gt; lia).
  exact IH.
Qed.

(** On a page that comes newest first and whose window items can all be
    built, the scan keeps every window item of the page, whether it runs to
    the end or stops at an older item. *)
Lemma scan_history_newest_first start_ms end_ms items acc :
  newest_first items ->
  Forall (fun item => item_in_window start_ms end_ms item = true ->
                      exists r, speech_record_of format_timestamp item r)
    items ->
  exists kept ending,
    scan_history format_timestamp start_ms end_ms items acc
      = (acc ++ kept, ending) /\
    Forall2 (speech_record_of format_timestamp)
      (List.filter (item_in_window start_ms end_ms) items) kept /\
    (ending = PageDone \/
     ending = StopFetch /\
     exists item, In item items /\ date_unix item * 1000 < start_ms).
Proof.
  intros Hsorted. revert acc.
  induction Hsorted as [| item items _ IH Hle]; intros acc Hbuild.
  - exists [], PageDone. rewrite app_nil_r. simpl. auto.
  - apply Forall_cons_1 in Hbuild as [Hitem Hrest].
    cbn [scan_history List.filter]. unfold item_in_window at 1 in Hitem.
    unfold item_in_window at 1.
    destruct (_ && _) eqn:Hwin.
    + destruct (Hitem eq_refl) as [r Hr]. unfold speech_record_of in Hr.
      rewrite Hr.
      destruct (IH (acc ++ [r]) Hrest) as (kept & ending & -> & Hkept & Hend).
      exists (r :: kept), ending. rewrite <- app_assoc.
      split; [reflexivity |]. split; [constructor; assumption |].
      destruct Hend as [-> | [-> (old & Hin & Hold)]]; [auto |].
      right. split; [reflexivity |]. exists old. split; [right |]; assumption.
    + destruct (Z.ltb_spec (date_unix item * 1000) start_ms) as [Hold | Hnew].
      * exists [], StopFetch. rewrite app_nil_r.
        split; [reflexivity |]. split.
        -- rewrite old_items_out_of_window; [constructor |].
           eapply Forall_impl; [exact Hle |]. intros b Hb. simpl in Hb. lia.
        -- right. split; [reflexivity |]. exists item. split; [left |]; auto.
      * destruct (IH acc Hrest) as (kept & ending & -> & Hkept & Hend).
        exists kept, ending. split; [reflexivity |]. split; [exact Hkept |].
        destruct Hend as [-> | [-> (old & Hin & Hold)]]; [auto |].
        right. split; [reflexivity |]. exists old. split; [right |]; assumption.
Qed.

Lemma canned_speech_loop_complete start_ms end_ms pages :
  forall cur acc (w : canned),
    history_pages w = List.map Ok pages ->
    newest_first (served_items pages) ->
    Forall (fun item => item_in_window start_ms end_ms item = true ->
                        exists r, speech_record_of format_timestamp item r)
      (served_items pages) ->
    exists kept w',
      speech_history_loop format_timestamp canned_client (S (length pages))
        start_ms end_ms cur acc w = Some (acc ++ kept, w') /\
      Forall2 (speech_record_of format_timestamp)
        (List.filter (item_in_window start_ms end_ms) (served_items pages))
        kept.
Proof.
  induction pages as [| page pages IH]; intros cur acc w Hw Hsorted Hbuild;
    rewrite speech_history_loop_step; cbn [canned_client history_list];
    rewrite Hw; cbn [List.map].
  - exists [], w. rewrite app_nil_r. split; [reflexivity | constructor].
  - cbn [served_items] in Hsorted, Hbuild |- *.
    destruct (history page) as [| item0 items0] eqn:Hpage.
    + eexists [], _. rewrite app_nil_r. split; [reflexivity | constructor].
    + apply StronglySorted_app in Hsorted as (Hcross & Hs1 & Hs2).
      apply Forall_app in Hbuild as [Hb1 Hb2].
      destruct (scan_history_newest_first start_ms end_ms (item0 :: items0) acc
                  Hs1 Hb1) as (kept & ending & Hscan & Hkept & Hend).
      rewrite Hscan, List.filter_app.
      destruct Hend as [-> | [-> (old & Hin & Hold)]].
      * destruct (has_more page); cbn [negb].
        -- destruct (IH (last_history_item_id page) (acc ++ kept)
                       (Canned (List.map Ok pages) (conversation_pages w)
                          (details w) (S (requests w))) eq_refl Hs2 Hb2)
             as (kept' & w' & Hloop & Hkept').
           exists (kept ++ kept'), w'. rewrite app_assoc.
           split; [exact Hloop |]. apply Forall2_app; assumption.
        -- eexists kept, _. split; [reflexivity |].
           rewrite <- (app_nil_r kept).
           apply Forall2_app; [exact Hkept | constructor].
      * eexists kept, _. split; [reflexivity |].
        rewrite (old_items_out_of_window start_ms end_ms
                   (if has_more page then served_items pages else []));
          [rewrite app_nil_r; exact Hkept |].
        apply Forall_forall. intros b Hb.
        assert (Hle : date_unix b <= date_unix old).
        { apply (Hcross old b).
          - apply list_elem_of_In. exact Hin.
          - exact Hb. }
        lia.
Qed.

(** X8: a service that hands out its history newest first loses nothing to
    the early stop: when the records of the window items can all be built,
    the speech fetcher returns, in the order served, exactly one record for
    every item of the served pages that lies in the window. *)
Theorem speech_history_complete_on_newest_first
    start_ms end_ms pages (w : canned) :
  history_pages w = List.map Ok pages ->
  newest_first (served_items pages) ->
  Forall (fun item => item_in_window start_ms end_ms item = true ->
                      exists r, speech_record_of format_timestamp item r)
    (served_items pages) ->
  exists res w',
    get_speech_history format_timestamp canned_client (S (length pages))
      start_ms end_ms w = Some (res, w') /\
    Forall2 (speech_record_of format_timestamp)
      (List.filter (item_in_window start_ms end_ms) (served_items pages)) res.
Proof.
  intros Hw Hsorted Hbuild.
  destruct (canned_speech_loop_complete start_ms end_ms pages None [] w
              Hw Hsorted Hbuild) as (kept & w' & Hloop & Hkept).
  exists kept, w'. split; [exact Hloop | exact Hkept].
Qed.

End Completeness.

Section MoreConversation.

Variable format_timestamp : Z -> result string.
Context {W : Type}.
Variable client : ElevenLabs W.

Lemma conversation_loop_scanned n fuel s e listed cur acc w cur' acc' w' :
  conversation_pages_scanned format_timestamp client s e n listed
    cur acc w cur' acc' w' ->
  conversation_loop format_timestamp client (n + fuel) s e cur acc w
  = conversation_loop format_timestamp client fuel s e cur' acc' w'.
Proof.
  induction 1 as [| n listed cur acc w response w1 acc1 w2 c cur' acc' w'
                    Hcall Hpage Hscan Hcur _ IH]; [reflexivity |].
  cbn [Nat.add]. rewrite conversation_loop_step, Hcall.
  destruct (conversations response) as [| c0 cs0]; [congruence |].
  rewrite Hscan. unfold next_cursor in Hcur.
  destruct (cursor response) as [| | c1]; try discriminate.
  destruct (String.eqb c1 ""); [discriminate |].
  injection Hcur as ->. exact IH.
Qed.

Lemma conversation_step_id conversation w r w1 :
  conversation_step format_timestamp client conversation w = (Ok r, w1) ->
  r !! "id" = Some (VStr (conversation_id conversation)).
Proof.
  intros H. apply conversation_step_record in H as [[d H] | [e H]].
  - apply (emitted_for_id format_timestamp conversation (Ok d) r H).
  - apply (emitted_for_id format_timestamp conversation (Raise e) r H).
Qed.

Lemma scan_conversations_ids convs acc w res w' :
  scan_conversations format_timestamp client convs acc w = (Ok res, w') ->
  record_ids res = record_ids acc ++ session_ids convs.
Proof.
  revert acc w. induction convs as [| conversation convs IH]; intros acc w.
  - cbn. intros [= <- _]. rewrite app_nil_r. reflexivity.
  - cbn [scan_conversations].
    destruct (conversation_step _ _ conversation w) as [[r | e] w1] eqn:Hstep;
      [| discriminate].
    intros H. apply IH in H. rewrite H.
    unfold record_ids, session_ids. rewrite List.map_app. cbn [List.map].
    rewrite (conversation_step_id _ _ _ _ Hstep), <- app_assoc. reflexivity.
Qed.

Lemma conversation_pages_scanned_ids n s e listed cur acc w cur' acc' w' :
  conversation_pages_scanned format_timestamp client s e n listed
    cur acc w cur' acc' w' ->
  record_ids acc' = record_ids acc ++ session_ids listed.
Proof.
  induction 1 as [| n listed cur acc w response w1 acc1 w2 c cur' acc' w'
                    Hcall Hpage Hscan Hcur _ IH].
  - rewrite app_nil_r. reflexivity.
  - rewrite IH. apply scan_conversations_ids in Hscan. rewrite Hscan.
    unfold session_ids. rewrite List.map_app, app_assoc. reflexivity.
Qed.

(** X9: when the conversation fetcher comes to a page without a further
    cursor, it returns exactly one record for every session listed on the
    pages it went through, in listing order, whether the session was
    enriched or degraded. *)
Theorem conversation_history_one_record_per_session
    n fuel start_ms end_ms listed w0 cur acc w response w1 acc' w2 :
  conversation_pages_scanned format_timestamp client
    (start_ms / 1000) (end_ms / 1000) n listed None [] w0 cur acc w ->
  conversations_list client cur (start_ms / 1000) (end_ms / 1000) 100 w
    = (Ok response, w1) ->
  scan_conversations format_timestamp client (conversations response) acc w1
    = (Ok acc', w2) ->
  next_cursor (cursor response) = None ->
  exists res,
    get_conversation_history format_timestamp client (n + S fuel)
      start_ms end_ms w0 = Some (res, w2) /\
    record_ids res = session_ids (listed ++ conversations response) /\
    length res = length (listed ++ conversations response).
Proof.
  intros Hpages Hcall Hscan Hcur.
  pose proof (conversation_pages_scanned_ids _ _ _ _ _ _ _ _ _ _ Hpages) as Hids.
  pose proof (scan_conversations_ids _ _ _ _ _ Hscan) as Hids'.
  assert (Hres : record_ids acc' = session_ids (listed ++ conversations response)).
  { rewrite Hids', Hids. unfold session_ids. rewrite List.map_app. reflexivity. }
  exists acc'. split; [| split; [exact Hres |]].
  - unfold get_conversation_history.
    rewrite (conversation_loop_scanned _ (S fuel) _ _ _ _ _ _ _ _ _ Hpages).
    rewrite conversation_loop_step, Hcall.
    destruct (conversations response) as [| c0 cs0] eqn:Hconvs.
    + cbn in Hscan. injection Hscan as <- <-. reflexivity.
    + rewrite Hscan. unfold next_cursor in Hcur.
      destruct (cursor response) as [| | c1]; try reflexivity.
      destruct (String.eqb c1 ""); [reflexivity | discriminate].
  - apply (f_equal (@length _)) in Hres.
    unfold record_ids, session_ids in Hres.
    rewrite !length_map in Hres. exact Hres.
Qed.

(** X10: when a request for a page of sessions raises, the conversation
    fetcher returns the empty list: the records of the pages it went
    through before are given up, not returned. *)
Theorem conversation_history_empty_on_failed_request
    n fuel start_ms end_ms listed w0 cur acc w e w1 :
  conversation_pages_scanned format_timestamp client
    (start_ms / 1000) (end_ms / 1000) n listed None [] w0 cur acc w ->
  conversations_list client cur (start_ms / 1000) (end_ms / 1000) 100 w
    = (Raise e, w1) ->
  get_conversation_history format_timestamp client (n + S fuel)
    start_ms end_ms w0 = Some ([], w1) /\
  length acc = length listed.
Proof.
  intros Hpages Hcall. split.
  - unfold get_conversation_history.
    rewrite (conversation_loop_scanned _ (S fuel) _ _ _ _ _ _ _ _ _ Hpages).
    rewrite conversation_loop_step, Hcall. reflexivity.
  - pose proof (conversation_pages_scanned_ids _ _ _ _ _ _ _ _ _ _ Hpages)
      as Hids.
    apply (f_equal (@length _)) in Hids.
    unfold record_ids, session_ids in Hids. cbn in Hids.
    rewrite !length_map in Hids. exact Hids.
Qed.

(** X11: when the detail of a session cannot be had and the list-level
    start time of that session cannot be rendered either, the exception of
    the handler escapes the loop and the conversation fetcher returns the
    empty list, giving up every record it had. *)
Theorem conversation_history_empty_on_failed_handler
    n fuel start_ms end_ms listed w0 cur acc w response w1
    before conversation after acc1 w2 e w3 e' :
  conversation_pages_scanned format_timestamp client
    (start_ms / 1000) (end_ms / 1000) n listed None [] w0 cur acc w ->
  conversations_list client cur (start_ms / 1000) (end_ms / 1000) 100 w
    = (Ok response, w1) ->
  conversations response = before ++ conversation :: after ->
  scan_conversations format_timestamp client before acc w1 = (Ok acc1, w2) ->
  conversations_get client (conversation_id conversation) w2 = (Raise e, w3) ->
  format_timestamp (start_time_unix_secs conversation * 1000) = Raise e' ->
  get_conversation_history format_timestamp client (n + S fuel)
    start_ms end_ms w0 = Some ([], w3).
Proof.
  intros Hpages Hcall Hconvs Hscan Hget Hfmt.
  assert (Hstep : conversation_step format_timestamp client conversation w2
                  = (Raise e', w3)).
  { unfold conversation_step. rewrite Hget. cbn [bind].
    unfold degraded_conv_data. rewrite Hfmt. reflexivity. }
  assert (Hwhole : forall l acc0 w0' acc0' w0'',
            scan_conversations format_timestamp client l acc0 w0'
              = (Ok acc0', w0'') ->
            scan_conversations format_timestamp client
              (l ++ conversation :: after) acc0 w0'
            = scan_conversations format_timestamp client
                (conversation :: after) acc0' w0'').
  { induction l as [| c l IH]; intros acc0 w0' acc0' w0''.
    - cbn. intros [= <- <-]. reflexivity.
    - cbn [scan_conversations app].
      destruct (conversation_step _ _ c w0') as [[r | ex] wx]; [| discriminate].
      apply IH. }
  unfold get_conversation_history.
  rewrite (conversation_loop_scanned _ (S fuel) _ _ _ _ _ _ _ _ _ Hpages).
  rewrite conversation_loop_step, Hcall.
  destruct (conversations response) as [| c0 cs0] eqn:Hc;
    [destruct before; discriminate |].
  rewrite Hconvs, (Hwhole _ _ _ _ _ Hscan).
  cbn [scan_conversations]. rewrite Hstep. reflexivity.
Qed.

Lemma count_role_bounds items :
  0 <= count_role "user" items /\
  0 <= count_role "assistant" items /\
  count_role "user" items + count_role "assistant" items
    <= Z.of_nat (length items).
Proof.
  unfold count_role. induction items as [| t items IH]; [simpl; lia |].
  cbn [List.filter length].
  destruct (String.eqb_spec (role t) "user") as [Hu | Hu];
    destruct (String.eqb_spec (role t) "assistant") as [Ha | Ha];
    cbn [length]; try lia.
  rewrite Hu in Ha. discriminate.
Qed.

(** X12: the transcript summary of an enriched record holds the length of
    the transcript and the numbers of its [user] and [assistant] entries;
    the two numbers together never exceed the length, and fall short of it
    by the entries with any other role. *)
Theorem enriched_transcript_summary conversation d r :
  enriched_conv_data format_timestamp conversation d = Ok r ->
  r !! "transcript_summary" =
    Some (VDict [
      ("total_items", VInt (Z.of_nat (length (transcript d))));
      ("user_messages", VInt (count_role "user" (transcript d)));
      ("assistant_messages", VInt (count_role "assistant" (transcript d)))]) /\
  count_role "user" (transcript d) + count_role "assistant" (transcript d)
    = Z.of_nat (length (transcript d))
      - Z.of_nat (length (List.filter
                            (fun t => negb (String.eqb (role t) "user")
                                      && negb (String.eqb (role t) "assistant"))
                            (transcript d))) /\
  count_role "user" (transcript d) + count_role "assistant" (transcript d)
    <= Z.of_nat (length (transcript d)).
Proof.
  intros H. split; [| split].
  - unfold enriched_conv_data in H.
    apply bind_ok in H as (c & _ & H).
    apply bind_ok in H as (n & _ & H).
    destruct (metadata d) as [md |]; [| discriminate].
    apply bind_ok in H as (f & _ & H).
    apply Ok_inj in H. subst r.
    generalize (VDict [
      ("total_items", VInt (Z.of_nat (length (transcript d))));
      ("user_messages", VInt (count_role "user" (transcript d)));
      ("assistant_messages", VInt (count_role "assistant" (transcript d)))]).
    intros v. vm_compute. reflexivity.
  - unfold count_role. generalize (transcript d). intros items.
    induction items as [| t items IH]; [reflexivity |].
    cbn [List.filter length].
    destruct (String.eqb_spec (role t) "user") as [Hu | Hu];
      destruct (String.eqb_spec (role t) "assistant") as [Ha | Ha];
      cbn [length negb andb]; try lia.
    rewrite Hu in Ha. discriminate.
  - apply count_role_bounds.
Qed.

(** X13: every record the conversation fetcher returns is of type
    [conversational_ai] and is of exactly one of two kinds: enriched, with a
    [total_llm_tokens] count and no [error] field, or degraded, with an
    [error] field that starts with the fixed note, no [total_llm_tokens] and
    0 credits. *)
Theorem conversation_records_enriched_or_degraded
    fuel start_ms end_ms w res w' :
  get_conversation_history format_timestamp client fuel start_ms end_ms w
    = Some (res, w') ->
  Forall (fun r : record =>
            r !! "type" = Some (VStr "conversational_ai") /\
            ((r !! "error" = None /\
              exists n, r !! "total_llm_tokens" = Some (VInt n)) \/
             ((exists msg,
                 r !! "error"
                 = Some (VStr ("Could not fetch detailed data: " ++ msg))) /\
              r !! "total_llm_tokens" = None /\
              r !! "credits_used" = Some (VInt 0)))) res.
Proof.
  apply conversation_history_inv.
  intros conversation w0 r w1 Hstep.
  apply conversation_step_record in Hstep as [[d H] | [e H]].
  - apply enriched_conv_data_fields in H
      as (md & f & _ & _ & Hty & _ & _ & _ & _ & _ & Htok & Herr & _).
    split; [exact Hty |]. left. eauto.
  - apply degraded_conv_data_fields in H
      as (f & _ & Hty & _ & _ & _ & _ & Hc & Herr & Htok & _).
    split; [exact Hty |]. right. eauto.
Qed.

End MoreConversation.

(** ** More on the aggregator *)

Lemma members_perm key_of k l1 l2 :
  l1 ≡ₚ l2 -> members key_of k l1 ≡ₚ members key_of k l2.
Proof.
  unfold members. induction 1 as [| x l1 l2 _ IH | x y l | l1 l2 l3 _ IH1 _ IH2].
  - reflexivity.
  - cbn [List.filter]. destruct (bool_decide _); [constructor |]; exact IH.
  - cbn [List.filter].
    destruct (bool_decide (key_of x = Some k)),
             (bool_decide (key_of y = Some k)); try reflexivity.
    apply Permutation_swap.
  - etransitivity; eassumption.
Qed.

Lemma sum_Z_perm (l1 l2 : list Z) : l1 ≡ₚ l2 -> sum_Z l1 = sum_Z l2.
Proof.
  unfold sum_Z.
  induction 1 as [| x l1 l2 _ IH | x y l | l1 l2 l3 _ IH1 _ IH2]; simpl; lia.
Qed.

Lemma bucket_of_perm g1 g2 : g1 ≡ₚ g2 -> bucket_of g1 = bucket_of g2.
Proof.
  intros H. pose proof (Permutation_length H) as Hlen.
  pose proof (sum_Z_perm _ _ (Permutation_map credit_value H)) as Hsum.
  destruct g1 as [| a g1], g2 as [| b g2]; try discriminate; [reflexivity |].
  unfold bucket_of. rewrite Hlen, Hsum. reflexivity.
Qed.

Lemma lex_min_unique m1 m2 l1 l2 :
  l1 ≡ₚ l2 -> lex_min m1 l1 -> lex_min m2 l2 -> m1 = m2.
Proof.
  intros Hperm [Hin1 Hall1] [Hin2 Hall2].
  apply String.leb_antisym.
  - rewrite Forall_forall in Hall1. apply Hall1.
    rewrite Hperm. apply list_elem_of_In. exact Hin2.
  - rewrite Forall_forall in Hall2. apply Hall2.
    rewrite <- Hperm. apply list_elem_of_In. exact Hin1.
Qed.

Lemma lex_max_unique m1 m2 l1 l2 :
  l1 ≡ₚ l2 -> lex_max m1 l1 -> lex_max m2 l2 -> m1 = m2.
Proof.
  intros Hperm [Hin1 Hall1] [Hin2 Hall2].
  apply String.leb_antisym.
  - rewrite Forall_forall in Hall2. apply Hall2.
    rewrite <- Hperm. apply list_elem_of_In. exact Hin1.
  - rewrite Forall_forall in Hall1. apply Hall1.
    rewrite Hperm. apply list_elem_of_In. exact Hin2.
Qed.

Lemma formatted_times_perm l1 l2 :
  l1 ≡ₚ l2 -> formatted_times l1 ≡ₚ formatted_times l2.
Proof. intros H. unfold formatted_times. rewrite H. reflexivity. Qed.

(** X14: the summary does not depend on the order of the records: on any
    rearrangement of a list of records the aggregator can work with, it
    returns the same summary, time range included. *)
Theorem summarize_usage_order_independent l1 l2 :
  l1 ≡ₚ l2 ->
  Forall (fun call => call_ok call = true) l1 ->
  exists s, summarize_usage l1 = Ok s /\ summarize_usage l2 = Ok s.
Proof.
  intros Hperm Hok1.
  assert (Hok2 : Forall (fun call => call_ok call = true) l2)
    by (rewrite <- Hperm; exact Hok1).
  destruct (summarize_usage_ok l1 Hok1)
    as (s1 & Hs1 & Hn1 & Ht1 & Hbt1 & Hbs1 & Hbv1 & Hlo1 & Hhi1).
  destruct (summarize_usage_ok l2 Hok2)
    as (s2 & Hs2 & Hn2 & Ht2 & Hbt2 & Hbs2 & Hbv2 & Hlo2 & Hhi2).
  exists s1. split; [exact Hs1 |]. rewrite Hs2. f_equal.
  destruct s1 as [n1 t1 bt1 bs1 bv1 lo1 hi1], s2 as [n2 t2 bt2 bs2 bv2 lo2 hi2].
  cbn in *.
  assert (n2 = n1) as -> by (rewrite Hn1, Hn2, (Permutation_length Hperm); reflexivity).
  assert (t2 = t1) as ->.
  { rewrite Ht1, Ht2. symmetry. apply sum_Z_perm, Permutation_map, Hperm. }
  assert (bt2 = bt1) as ->.
  { apply map_eq. intros k. rewrite Hbt1, Hbt2. symmetry.
    apply bucket_of_perm, members_perm, Hperm. }
  assert (bs2 = bs1) as ->.
  { apply map_eq. intros k. rewrite Hbs1, Hbs2. symmetry.
    apply bucket_of_perm, members_perm, Hperm. }
  assert (bv2 = bv1) as ->.
  { apply map_eq. intros k. rewrite Hbv1, Hbv2. symmetry.
    apply bucket_of_perm, members_perm, Hperm. }
  destruct l1 as [| c1 l1'].
  - apply Permutation_nil_l in Hperm. subst l2.
    cbn in Hlo1, Hhi1, Hlo2, Hhi2. congruence.
  - assert (Hne2 : l2 <> []).
    { intros ->. apply Permutation_nil_r in Hperm. discriminate. }
    destruct (extreme_formatted_time_min (c1 :: l1')) as (a1 & Ha1 & Hmin1);
      [discriminate | exact Hok1 |].
    destruct (extreme_formatted_time_min l2 Hne2 Hok2) as (a2 & Ha2 & Hmin2).
    destruct (extreme_formatted_time_max (c1 :: l1')) as (b1 & Hb1 & Hmax1);
      [discriminate | exact Hok1 |].
    destruct (extreme_formatted_time_max l2 Hne2 Hok2) as (b2 & Hb2 & Hmax2).
    pose proof (formatted_times_perm _ _ Hperm) as Hfp.
    pose proof (lex_min_unique _ _ _ _ Hfp Hmin1 Hmin2).
    pose proof (lex_max_unique _ _ _ _ Hfp Hmax1 Hmax2).
    assert (lo2 = lo1) as -> by congruence.
    assert (hi2 = hi1) as -> by congruence.
    reflexivity.
Qed.

Lemma members_length_le key_of k all_calls :
  (length (members key_of k all_calls) <= length all_calls)%nat.
Proof. unfold members. apply List.filter_length_le. Qed.

Lemma bucket_of_count group b :
  bucket_of group = Some b ->
  count b = Z.of_nat (length group) /\ 1 <= count b.
Proof.
  destruct group as [| c group]; [discriminate |].
  intros [= <-]. cbn [count length]. lia.
Qed.

(** X15: the breakdown by voice counts, under each voice name, the
    speech-generation records whose [voice_name] is there and true, and sums
    their credits; and no entry of any of the three breakdowns is empty:
    its count is at least 1 and at most the number of records. *)
Theorem summarize_usage_by_voice_and_entry_counts all_calls :
  Forall (fun call => call_ok call = true) all_calls ->
  exists s,
    summarize_usage all_calls = Ok s /\
    (forall k, breakdown_by_voice s !! k
               = bucket_of (members (speech_key "voice_name") k all_calls)) /\
    (forall m k b,
       m = breakdown_by_type s \/ m = breakdown_by_source s \/
       m = breakdown_by_voice s ->
       m !! k = Some b ->
       1 <= count b <= total_api_calls s).
Proof.
  intros H.
  destruct (summarize_usage_ok all_calls H)
    as (s & Hs & Hn & _ & Hbt & Hbs & Hbv & _).
  exists s. split; [exact Hs |]. split; [exact Hbv |].
  intros m k b Hm Hb.
  assert (Hgroup : exists key_of,
            bucket_of (members key_of k all_calls) = Some b).
  { destruct Hm as [-> | [-> | ->]]; eexists;
      [rewrite <- Hbt | rewrite <- Hbs | rewrite <- Hbv]; exact Hb. }
  destruct Hgroup as [key_of Hgroup].
  apply bucket_of_count in Hgroup as [Hcount Hpos].
  pose proof (members_length_le key_of k all_calls). lia.
Qed.

Lemma group_speech_by_totals field all_calls by_field m :
  group_speech_by field all_calls by_field = Ok m ->
  bucket_total count m
  = bucket_total count by_field
    + Z.of_nat (length (List.filter (speech_with field) all_calls)).
Proof.
  revert by_field. induction all_calls as [| call rest IH]; intros by_field.
  - simpl. intros [= <-]. lia.
  - cbn [group_speech_by List.filter]. intros H.
    apply bind_ok in H as (t & Ht & H).
    unfold getitem in Ht.
    destruct (call !! "type") as [t' |] eqn:Hty; [| discriminate].
    injection Ht as ->.
    assert (Hsw : speech_with field call
                  = is_speech_generation t && truthy (get_or call field VNone))
      by (unfold speech_with; rewrite Hty; reflexivity).
    rewrite <- Hsw in H.
    destruct (speech_with field call).
    + apply bind_ok in H as (v & _ & H).
      apply bind_ok in H as (k & _ & H).
      apply bind_ok in H as (c & _ & H).
      apply IH in H. rewrite H.
      destruct (bucket_total_bump by_field k c) as [-> _].
      cbn [length]. lia.
    + apply IH in H. exact H.
Qed.

Lemma filter_length_le_impl {A : Type} (p q : A -> bool) l :
  (forall x, p x = true -> q x = true) ->
  (length (List.filter p l) <= length (List.filter q l))%nat.
Proof.
  intros Hpq. induction l as [| x l IH]; [reflexivity |].
  cbn [List.filter]. destruct (p x) eqn:Hp.
  - rewrite (Hpq x Hp). cbn [length]. lia.
  - destruct (q x); cbn [length]; lia.
Qed.

Lemma speech_with_type_key field (call : record) :
  speech_with field call = true ->
  type_key call = Some (KStr "speech_generation").
Proof.
  unfold speech_with, type_key.
  destruct (call !! "type") as [t |]; [| discriminate].
  intros H. apply andb_prop in H as [H _].
  destruct t as [| n | s | d]; try discriminate.
  simpl in H. apply String.eqb_eq in H. subst s. reflexivity.
Qed.

(** X16: the breakdowns by source and by voice count speech generations
    only: the counts of each add up to the number of speech-generation
    records whose [source] (respectively [voice_name]) is there and true,
    which is never more than the count of [speech_generation] in the
    breakdown by type. *)
Theorem summarize_usage_speech_breakdowns_bounded all_calls :
  Forall (fun call => call_ok call = true) all_calls ->
  exists s,
    summarize_usage all_calls = Ok s /\
    bucket_total count (breakdown_by_source s)
      = Z.of_nat (length (List.filter (speech_with "source") all_calls)) /\
    bucket_total count (breakdown_by_voice s)
      = Z.of_nat (length (List.filter (speech_with "voice_name") all_calls)) /\
    bucket_total count (breakdown_by_source s)
      <= count_at (breakdown_by_type s) (KStr "speech_generation") /\
    bucket_total count (breakdown_by_voice s)
      <= count_at (breakdown_by_type s) (KStr "speech_generation").
Proof.
  intros H.
  destruct (summarize_usage_ok all_calls H)
    as (s & Hs & _ & _ & Hbt & _).
  exists s. split; [exact Hs |].
  pose proof Hs as Hs'. unfold summarize_usage in Hs'.
  apply bind_ok in Hs' as (total & _ & Hs').
  apply bind_ok in Hs' as (bt & _ & Hs').
  apply bind_ok in Hs' as (bs & Hbs & Hs').
  apply bind_ok in Hs' as (bv & Hbv & Hs').
  apply bind_ok in Hs' as (lo & _ & Hs').
  apply bind_ok in Hs' as (hi & _ & Hs').
  apply Ok_inj in Hs'.
  apply group_speech_by_totals in Hbs, Hbv.
  assert (H0 : bucket_total count ∅ = 0) by apply map_fold_empty.
  rewrite H0 in Hbs, Hbv.
  assert (Hsrc : breakdown_by_source s = bs) by (subst s; reflexivity).
  assert (Hvoice : breakdown_by_voice s = bv) by (subst s; reflexivity).
  rewrite Hsrc, Hvoice, Hbs, Hbv.
  split; [lia |]. split; [lia |].
  assert (Hle : forall field,
            Z.of_nat (length (List.filter (speech_with field) all_calls))
            <= count_at (breakdown_by_type s) (KStr "speech_generation")).
  { intros field. unfold count_at. rewrite Hbt.
    pose proof (filter_length_le_impl (speech_with field)
                  (fun call => bool_decide
                     (type_key call = Some (KStr "speech_generation")))
                  all_calls) as Hlen.
    fold (members type_key (KStr "speech_generation") all_calls) in Hlen.
    assert (Hlen' : (length (List.filter (speech_with field) all_calls)
                     <= length (members type_key (KStr "speech_generation")
                                  all_calls))%nat).
    { apply Hlen. intros x Hx. apply bool_decide_eq_true_2.
      apply (speech_with_type_key field). exact Hx. }
    destruct (members type_key (KStr "speech_generation") all_calls)
      as [| c cs] eqn:Hm.
    - cbn [bucket_of]. simpl in Hlen'. lia.
    - cbn [bucket_of count]. lia. }
  split; [apply (Hle "source") | apply (Hle "voice_name")].
Qed.

(** *** What makes the aggregator raise *)

Lemma sum_credits_prefix before rest total :
  Forall (fun call => credits_ok call = true) before ->
  sum_credits (before ++ rest) total
  = sum_credits rest (total + sum_Z (List.map credit_value before)).
Proof.
  intros H. revert total.
  induction H as [| call before Hc _ IH]; intros total.
  - simpl. f_equal. lia.
  - cbn [app sum_credits List.map].
    rewrite (credits_of_ok call Hc). cbn [bind]. rewrite IH.
    f_equal. unfold sum_Z. simpl. lia.
Qed.

Lemma sum_credits_returns all_calls total :
  Forall (fun call => credits_ok call = true) all_calls ->
  exists res, sum_credits all_calls total = Ok res.
Proof.
  intros H. rewrite <- (app_nil_r all_calls), (sum_credits_prefix _ [] _ H).
  simpl. eauto.
Qed.

Lemma type_ok_key (call : record) :
  type_ok call = true ->
  exists t k, call !! "type" = Some t /\ as_key t = Ok k.
Proof.
  unfold type_ok. destruct (call !! "type") as [t |]; [| discriminate].
  intros H. apply hashable_key in H as [k Hk]. eauto.
Qed.

Lemma group_by_type_prefix before rest by_type :
  Forall (fun call => type_ok call = true /\ credits_ok call = true) before ->
  exists m, group_by_type (before ++ rest) by_type = group_by_type rest m.
Proof.
  intros H. revert by_type.
  induction H as [| call before [Hty Hc] _ IH]; intros by_type.
  - exists by_type. reflexivity.
  - apply type_ok_key in Hty as (t & k & Ht & Hk).
    cbn [app group_by_type]. unfold getitem. rewrite Ht. cbn [bind].
    rewrite Hk. cbn [bind]. rewrite (credits_of_ok call Hc). cbn [bind].
    apply IH.
Qed.

Lemma group_by_type_returns all_calls by_type :
  Forall (fun call => type_ok call = true /\ credits_ok call = true)
    all_calls ->
  exists m, group_by_type all_calls by_type = Ok m.
Proof.
  intros H. destruct (group_by_type_prefix all_calls [] by_type H) as [m Hm].
  rewrite app_nil_r in Hm. rewrite Hm. simpl. eauto.
Qed.

(** X17: a [credits_used] that is there but is not an integer ([None], a
    string, a dictionary) makes the aggregator raise a [TypeError], whatever
    else the records hold, while a record without the field counts for 0. *)
Theorem summarize_usage_non_integer_credits before call after v :
  Forall (fun c => credits_ok c = true) before ->
  call !! "credits_used" = Some v ->
  (forall n, v <> VInt n) ->
  (exists msg,
     summarize_usage (before ++ call :: after) = Raise (TypeError msg)) /\
  (forall c : record, c !! "credits_used" = None -> credits_of c = Ok 0).
Proof.
  intros Hbefore Hv Hnot. split.
  - unfold summarize_usage. rewrite (sum_credits_prefix _ _ _ Hbefore).
    cbn [sum_credits]. unfold credits_of, get_or. rewrite Hv.
    destruct v as [| n | s | d]; cbn [bind]; eauto.
    exfalso. apply (Hnot n). reflexivity.
  - intros c Hc. unfold credits_of, get_or. rewrite Hc. reflexivity.
Qed.

(** X18: when the credits of all records can be summed and the first
    record in which something is wrong with the [type] is one that lacks it,
    the aggregator raises [KeyError('type')]. *)
Theorem summarize_usage_missing_type before call after :
  Forall (fun c => credits_ok c = true) (before ++ call :: after) ->
  Forall (fun c => type_ok c = true) before ->
  call !! "type" = None ->
  summarize_usage (before ++ call :: after) = Raise (KeyError "type").
Proof.
  intros Hcredits Htypes Hmissing. unfold summarize_usage.
  destruct (sum_credits_returns _ 0 Hcredits) as [total ->]. cbn [bind].
  destruct (group_by_type_prefix before (call :: after) ∅) as [m ->].
  { apply Forall_app in Hcredits as [Hc _].
    rewrite Forall_forall in Htypes, Hc |- *. auto. }
  cbn [group_by_type]. unfold getitem. rewrite Hmissing. reflexivity.
Qed.

Lemma group_speech_by_returns field all_calls by_field :
  Forall (fun call => field_ok field call = true) all_calls ->
  exists m, group_speech_by field all_calls by_field = Ok m.
Proof.
  intros H. destruct (group_speech_by_spec field all_calls by_field H)
    as (m & Hm & _). eauto.
Qed.

Lemma best_formatted_time_missing better before call after best :
  better = value_lt \/ better = value_gt ->
  Forall (fun c : record => exists f, c !! "formatted_time" = Some (VStr f))
    before ->
  call !! "formatted_time" = None ->
  best_formatted_time better (before ++ call :: after) (VStr best)
  = Raise (KeyError "formatted_time").
Proof.
  intros Hb H Hmissing. revert best.
  induction H as [| c before [f Hf] _ IH]; intros best.
  - cbn [app best_formatted_time]. unfold getitem. rewrite Hmissing.
    reflexivity.
  - cbn [app best_formatted_time]. unfold getitem. rewrite Hf. cbn [bind].
    destruct Hb as [-> | ->]; cbn [value_lt value_gt bind];
      match goal with |- context [if ?b then _ else _] => destruct b end;
      apply IH.
Qed.

(** X19: a non-empty list in which every record can be grouped, and the
    first record in which something is wrong with the [formatted_time] is
    one that lacks it, makes the aggregator raise
    [KeyError('formatted_time')], after all the totals were computed. *)
Theorem summarize_usage_missing_formatted_time before call after :
  Forall (fun c => type_ok c = true /\
                   field_ok "source" c = true /\
                   field_ok "voice_name" c = true)
    (before ++ call :: after) ->
  Forall (fun c : record => exists f, c !! "formatted_time" = Some (VStr f))
    before ->
  call !! "formatted_time" = None ->
  summarize_usage (before ++ call :: after)
  = Raise (KeyError "formatted_time").
Proof.
  intros Hok Htimes Hmissing. unfold summarize_usage.
  assert (Hcredits : Forall (fun c => credits_ok c = true)
                       (before ++ call :: after)).
  { eapply Forall_impl; [exact Hok |]. intros c (_ & Hs & _).
    unfold field_ok in Hs. apply andb_prop in Hs as [Hs _].
    apply andb_prop in Hs as [_ Hs]. exact Hs. }
  destruct (sum_credits_returns _ 0 Hcredits) as [total ->]. cbn [bind].
  destruct (group_by_type_returns (before ++ call :: after) ∅) as [bt ->].
  { rewrite Forall_forall in Hok, Hcredits |- *. intros c Hc.
    split; [apply (Hok c Hc) | apply (Hcredits c Hc)]. }
  cbn [bind].
  destruct (group_speech_by_returns "source" (before ++ call :: after) ∅)
    as [bs ->].
  { eapply Forall_impl; [exact Hok |]. intros c (_ & Hs & _). exact Hs. }
  cbn [bind].
  destruct (group_speech_by_returns "voice_name" (before ++ call :: after) ∅)
    as [bv ->].
  { eapply Forall_impl; [exact Hok |]. intros c (_ & _ & Hs). exact Hs. }
  cbn [bind].
  destruct Htimes as [| c before [f Hf] Hrest].
  - cbn [app extreme_formatted_time]. unfold getitem. rewrite Hmissing.
    reflexivity.
  - cbn [app extreme_formatted_time]. unfold getitem at 1. rewrite Hf.
    cbn [bind].
    rewrite (best_formatted_time_missing value_lt before call after f);
      auto.
Qed.

(** ** More on the report *)

Lemma timestamp_keys_right all_calls :
  Forall has_int_timestamp all_calls ->
  exists keyed,
    timestamp_keys all_calls = Ok keyed /\
    List.map snd keyed = all_calls /\
    Forall keyed_right keyed.
Proof.
  induction 1 as [| call rest [t Ht] _ (keyed & Hk & Hsnd & Hright)].
  - exists []. auto.
  - exists ((VInt t, call) :: keyed). cbn [timestamp_keys].
    unfold getitem. rewrite Ht. cbn [bind]. rewrite Hk. cbn [bind].
    split; [reflexivity |]. split; [simpl; congruence |].
    constructor; [| exact Hright].
    unfold keyed_right, timestamp_of. simpl. rewrite Ht. reflexivity.
Qed.

Lemma insert_by_key_sorted x sorted :
  keyed_right x -> Forall keyed_right sorted ->
  StronglySorted keyed_le sorted ->
  exists res,
    insert_by_key x sorted = Ok res /\ res ≡ₚ x :: sorted /\
    Forall keyed_right res /\ StronglySorted keyed_le res /\
    (Forall (keyed_le x) sorted -> res = x :: sorted).
Proof.
  intros Hx Hright Hsorted. revert Hright.
  induction Hsorted as [| y rest Hrest IH Hy]; intros Hright.
  - exists [x]. simpl. split; [reflexivity |]. split; [reflexivity |].
    split; [constructor; [exact Hx | constructor] |].
    split; [repeat constructor | reflexivity].
  - apply Forall_cons_1 in Hright as [Hyr Hright].
    cbn [insert_by_key]. rewrite Hx, Hyr. cbn [value_lt bind].
    destruct (Z.ltb_spec (timestamp_of (snd y)) (timestamp_of (snd x)))
      as [Hlt | Hge].
    + destruct (IH Hright) as (res & -> & Hperm & Hres & Hsres & _).
      cbn [bind]. exists (y :: res).
      split; [reflexivity |].
      split; [rewrite Hperm; apply Permutation_swap |].
      split; [constructor; assumption |].
      split.
      * constructor; [exact Hsres |]. rewrite Hperm.
        constructor; [unfold keyed_le, by_timestamp; lia | exact Hy].
      * intros Hall. apply Forall_cons_1 in Hall as [Hxy _].
        unfold keyed_le, by_timestamp in Hxy. lia.
    + exists (x :: y :: rest).
      split; [reflexivity |]. split; [reflexivity |].
      split; [repeat (constructor; try assumption) |].
      split; [| reflexivity].
      constructor; [constructor; assumption |].
      constructor; [exact Hge |].
      eapply Forall_impl; [exact Hy |].
      intros z Hz. unfold keyed_le, by_timestamp in *. lia.
Qed.

Lemma sort_keyed_sorted keyed :
  Forall keyed_right keyed ->
  exists res,
    sort_keyed keyed = Ok res /\ res ≡ₚ keyed /\
    Forall keyed_right res /\ StronglySorted keyed_le res /\
    (StronglySorted keyed_le keyed -> res = keyed).
Proof.
  induction 1 as [| x rest Hx _ (sorted & Hs & Hperm & Hright & Hsorted & Hid)].
  - exists []. repeat split; auto; constructor.
  - cbn [sort_keyed]. rewrite Hs. cbn [bind].
    destruct (insert_by_key_sorted x sorted Hx Hright Hsorted)
      as (res & Hres & Hp & Hr & Hsr & Hi).
    exists res. split; [exact Hres |].
    split; [rewrite Hp, Hperm; reflexivity |].
    split; [exact Hr |]. split; [exact Hsr |].
    intros Hin. apply StronglySorted_inv in Hin as [Hin Hall].
    rewrite (Hid Hin) in Hi. apply Hi. exact Hall.
Qed.

Lemma keyed_le_map_snd keyed :
  StronglySorted keyed_le keyed <->
  StronglySorted by_timestamp (List.map snd keyed).
Proof.
  induction keyed as [| x keyed IH]; [split; constructor |].
  cbn [List.map]. split; intros H; inversion H as [| ? ? Hs Hall]; subst;
    constructor; try (apply IH; exact Hs).
  - rewrite List.Forall_map. exact Hall.
  - rewrite List.Forall_map in Hall. exact Hall.
Qed.

Lemma insert_by_key_stable t x sorted :
  keyed_right x -> Forall keyed_right sorted ->
  forall res,
    insert_by_key x sorted = Ok res ->
    stamped_at t (List.map snd res) = stamped_at t (List.map snd (x :: sorted)).
Proof.
  intros Hx Hright. induction Hright as [| y rest Hy _ IH]; intros res.
  - cbn [insert_by_key]. intros H. apply Ok_inj in H. subst res. reflexivity.
  - cbn [insert_by_key]. rewrite Hx, Hy. cbn [value_lt bind].
    destruct (Z.ltb_spec (timestamp_of (snd y)) (timestamp_of (snd x)))
      as [Hlt | Hge].
    + intros H. apply bind_ok in H as (res' & Hres' & H).
      apply Ok_inj in H. subst res.
      specialize (IH res' Hres'). unfold stamped_at in *.
      cbn [List.map List.filter] in IH |- *. rewrite IH.
      destruct (Z.eqb_spec (timestamp_of (snd y)) t),
               (Z.eqb_spec (timestamp_of (snd x)) t); try reflexivity.
      lia.
    + intros H. apply Ok_inj in H. subst res. reflexivity.
Qed.

Lemma sort_keyed_stable t keyed :
  Forall keyed_right keyed ->
  forall res,
    sort_keyed keyed = Ok res ->
    stamped_at t (List.map snd res) = stamped_at t (List.map snd keyed).
Proof.
  induction 1 as [| x rest Hx Hrest IH]; intros res.
  - cbn. intros H. apply Ok_inj in H. subst res. reflexivity.
  - cbn [sort_keyed]. intros H. apply bind_ok in H as (sorted & Hs & H).
    destruct (sort_keyed_sorted rest Hrest) as (sorted' & Hs' & _ & Hright & _).
    assert (sorted' = sorted) by congruence. subst sorted'.
    rewrite (insert_by_key_stable t x sorted Hx Hright res H).
    unfold stamped_at in *. cbn [List.map List.filter].
    rewrite (IH sorted Hs). reflexivity.
Qed.

(** For records that all have an integer [timestamp] the sort returns a
    rearrangement in which the timestamps do not decrease. *)
Lemma sort_by_timestamp_sorted all_calls :
  Forall has_int_timestamp all_calls ->
  exists sorted,
    sort_by_timestamp all_calls = Ok sorted /\
    sorted ≡ₚ all_calls /\
    StronglySorted by_timestamp sorted.
Proof.
  intros H. unfold sort_by_timestamp.
  destruct (timestamp_keys_right all_calls H) as (keyed & -> & Hsnd & Hright).
  cbn [bind].
  destruct (sort_keyed_sorted keyed Hright)
    as (res & -> & Hperm & _ & Hsorted & _).
  cbn [bind]. exists (List.map snd res).
  split; [reflexivity |].
  split; [rewrite <- Hsnd; apply Permutation_map; exact Hperm |].
  apply keyed_le_map_snd. exact Hsorted.
Qed.

(** X20: the sort [main] applies to the merged records is a stable sort on
    the timestamp: for records that all have an integer [timestamp] it
    returns a rearrangement of them in which the timestamps do not
    decrease and the records of one timestamp keep the order they had. *)
Theorem sort_by_timestamp_sorts all_calls :
  Forall has_int_timestamp all_calls ->
  exists sorted,
    sort_by_timestamp all_calls = Ok sorted /\
    sorted ≡ₚ all_calls /\
    StronglySorted by_timestamp sorted /\
    (forall t, stamped_at t sorted = stamped_at t all_calls).
Proof.
  intros H.
  destruct (sort_by_timestamp_sorted all_calls H)
    as (sorted & Hsort & Hperm & Hsorted).
  exists sorted. split; [exact Hsort |]. split; [exact Hperm |].
  split; [exact Hsorted |].
  intros t. unfold sort_by_timestamp in Hsort.
  destruct (timestamp_keys_right all_calls H) as (keyed & Hk & Hsnd & Hright).
  rewrite Hk in Hsort. cbn [bind] in Hsort.
  apply bind_ok in Hsort as (res & Hres & Hsort).
  apply Ok_inj in Hsort. subst sorted. rewrite <- Hsnd.
  apply sort_keyed_stable; assumption.
Qed.



(** ** From the fetchers to the report *)

Lemma members_all key_of k l :
  Forall (fun r => key_of r = Some k) l -> members key_of k l = l.
Proof.
  unfold members. induction 1 as [| r l Hr _ IH]; [reflexivity |].
  cbn [List.filter]. rewrite (bool_decide_eq_true_2 _ Hr), IH. reflexivity.
Qed.

Lemma members_none key_of k l :
  Forall (fun r => key_of r <> Some k) l -> members key_of k l = [].
Proof.
  unfold members. induction 1 as [| r l Hr _ IH]; [reflexivity |].
  cbn [List.filter]. rewrite (bool_decide_eq_false_2 _ Hr). exact IH.
Qed.

Lemma members_app key_of k l1 l2 :
  members key_of k (l1 ++ l2) = members key_of k l1 ++ members key_of k l2.
Proof. unfold members. apply List.filter_app. Qed.

Lemma count_at_bucket_of (m : breakdown) k group :
  m !! k = bucket_of group -> count_at m k = Z.of_nat (length group).
Proof.
  unfold count_at. intros ->. destruct group; reflexivity.
Qed.

Lemma type_key_str (r : record) s :
  r !! "type" = Some (VStr s) -> type_key r = Some (KStr s).
Proof. unfold type_key. intros ->. reflexivity. Qed.

Section Pipeline.
Variable format_timestamp : Z -> result string.
Context {W : Type}.
Variable client : ElevenLabs W.

Lemma speech_records_typed fuel start_ms end_ms w sh w' :
  get_speech_history format_timestamp client fuel start_ms end_ms w
    = Some (sh, w') ->
  Forall (fun r => type_key r = Some (KStr "speech_generation") /\
                   call_ok r = true /\ has_int_timestamp r) sh.
Proof.
  unfold get_speech_history. intros H.
  apply speech_history_loop_extends in H as (kept & -> & Hkept).
  simpl. eapply Forall_impl; [exact Hkept |].
  intros r Hr. split; [| apply (kept_record_call_ok _ _ _ _ Hr)].
  destruct Hr as (item & _ & Hrec).
  apply speech_call_data_fields in Hrec as (Hty & _).
  apply type_key_str. exact Hty.
Qed.

Lemma conversation_records_typed fuel start_ms end_ms w ch w' :
  get_conversation_history format_timestamp client fuel start_ms end_ms w
    = Some (ch, w') ->
  Forall (fun r => type_key r = Some (KStr "conversational_ai") /\
                   call_ok r = true /\ has_int_timestamp r) ch.
Proof.
  apply conversation_history_inv.
  intros conversation w0 r w1 Hstep.
  apply conversation_step_record in Hstep.
  split; [| apply (conversation_record_call_ok format_timestamp conversation);
            exact Hstep].
  destruct Hstep as [[d H] | [e H]].
  - apply enriched_conv_data_fields in H as (md & f & _ & _ & Hty & _).
    apply type_key_str. exact Hty.
  - apply degraded_conv_data_fields in H as (f & _ & Hty & _).
    apply type_key_str. exact Hty.
Qed.

(** X22: whatever the two fetchers return can be merged, sorted and
    summarized: the sort gives the records in the order of their timestamps,
    the summary counts all of them, and its breakdown by type has the number
    of speech records under [speech_generation], the number of conversation
    records under [conversational_ai] and no other entry. *)
Theorem fetched_calls_sorted_and_counted
    fuel1 fuel2 start_ms end_ms w1 sh w2 w2' ch w3 :
  get_speech_history format_timestamp client fuel1 start_ms end_ms w1
    = Some (sh, w2) ->
  get_conversation_history format_timestamp client fuel2 start_ms end_ms w2'
    = Some (ch, w3) ->
  exists all_calls s,
    sort_by_timestamp (sh ++ ch) = Ok all_calls /\
    all_calls ≡ₚ sh ++ ch /\
    StronglySorted by_timestamp all_calls /\
    summarize_usage all_calls = Ok s /\
    total_api_calls s = Z.of_nat (length sh) + Z.of_nat (length ch) /\
    count_at (breakdown_by_type s) (KStr "speech_generation")
      = Z.of_nat (length sh) /\
    count_at (breakdown_by_type s) (KStr "conversational_ai")
      = Z.of_nat (length ch) /\
    (forall k, k <> KStr "speech_generation" ->
               k <> KStr "conversational_ai" ->
               breakdown_by_type s !! k = None).
Proof.
  intros Hsh Hch.
  apply speech_records_typed in Hsh. apply conversation_records_typed in Hch.
  assert (Hall : Forall (fun r => call_ok r = true /\ has_int_timestamp r)
                   (sh ++ ch)).
  { apply Forall_app. split; (eapply Forall_impl; [eassumption |]);
      intros r (_ & H); exact H. }
  apply Forall_and in Hall as [Hok Hint].
  destruct (sort_by_timestamp_sorted (sh ++ ch) Hint)
    as (sorted & Hsort & Hperm & Hsorted).
  destruct (summarize_usage_ok sorted) as (s & Hs & Hn & _ & Hbt & _).
  { rewrite Hperm. exact Hok. }
  assert (Hlen : forall k,
            length (members type_key k sorted)
            = (length (members type_key k sh)
               + length (members type_key k ch))%nat).
  { intros k. rewrite (Permutation_length (members_perm type_key k _ _ Hperm)).
    rewrite members_app, length_app. reflexivity. }
  assert (Hspeech : forall k, k <> KStr "speech_generation" ->
                              members type_key k sh = []).
  { intros k Hk. apply members_none. eapply Forall_impl; [exact Hsh |].
    intros r (Hr & _). rewrite Hr. congruence. }
  assert (Hconv : forall k, k <> KStr "conversational_ai" ->
                            members type_key k ch = []).
  { intros k Hk. apply members_none. eapply Forall_impl; [exact Hch |].
    intros r (Hr & _). rewrite Hr. congruence. }
  exists sorted, s.
  split; [exact Hsort |]. split; [exact Hperm |]. split; [exact Hsorted |].
  split; [exact Hs |].
  split.
  { rewrite Hn, (Permutation_length Hperm), length_app. lia. }
  split.
  { rewrite (count_at_bucket_of _ _ _ (Hbt _)), Hlen.
    rewrite (Hconv (KStr "speech_generation")) by discriminate.
    rewrite members_all;
      [cbn [length]; lia |].
    eapply Forall_impl; [exact Hsh |]. intros r (Hr & _). exact Hr. }
  split.
  { rewrite (count_at_bucket_of _ _ _ (Hbt _)), Hlen.
    rewrite (Hspeech (KStr "conversational_ai")) by discriminate.
    rewrite members_all; [cbn [length]; lia |].
    eapply Forall_impl; [exact Hch |]. intros r (Hr & _). exact Hr. }
  intros k Hk1 Hk2. rewrite Hbt.
  pose proof (Hlen k) as Hk. rewrite (Hspeech k Hk1), (Hconv k Hk2) in Hk.
  destruct (members type_key k sorted); [reflexivity | discriminate].
Qed.

Variable time_ms : W -> Z.
Variable json_dumps : report -> bool -> result string.
Variable write_file : string -> string -> W -> result unit * W.

(** X23: when the report run comes to its end, one JSON text was made and
    written to the automatic file first and then, unchanged, to the file
    named by a non-empty [--output]; the document it was made from holds
    the timestamps as given and as normalized, the summary of the sorted
    records, and the records themselves unless [--summary-only] was given,
    as many as the summary counts. *)
Theorem run_report_writes_one_document
    fuel args start_ms end_ms auto_filename w w' :
  run_report format_timestamp time_ms json_dumps write_file fuel client args
    start_ms end_ms auto_filename w = Some (Ok tt, w') ->
  exists output_data json_output w4 w5 all_calls,
    json_dumps output_data (pretty args) = Ok json_output /\
    write_file auto_filename json_output w4 = (Ok tt, w5) /\
    match output args with
    | Some path =>
        if String.eqb path "" then w' = w5
        else write_file path json_output w5 = (Ok tt, w')
    | None => w' = w5
    end /\
    q_start_timestamp (r_query_info output_data) = start_timestamp args /\
    q_end_timestamp (r_query_info output_data) = end_timestamp args /\
    q_start_timestamp_ms (r_query_info output_data) = start_ms /\
    q_end_timestamp_ms (r_query_info output_data) = end_ms /\
    format_timestamp start_ms
      = Ok (q_start_time_formatted (r_query_info output_data)) /\
    format_timestamp end_ms
      = Ok (q_end_time_formatted (r_query_info output_data)) /\
    StronglySorted by_timestamp all_calls /\
    summarize_usage all_calls = Ok (r_summary output_data) /\
    total_api_calls (r_summary output_data) = Z.of_nat (length all_calls) /\
    r_individual_calls output_data
      = (if summary_only args then None else Some all_calls).
Proof.
  unfold run_report.
  destruct (get_subscription_info client w) as [subscription_info w1].
  destruct (get_speech_history _ _ _ _ _ w1) as [[sh w2] |] eqn:Hsh;
    [| discriminate].
  destruct (get_conversation_history _ _ _ _ _ w2) as [[ch w3] |] eqn:Hch;
    [| discriminate].
  destruct (get_usage_analytics _ _ _ _ _ w3) as [usage_analytics w4].
  apply speech_records_typed in Hsh. apply conversation_records_typed in Hch.
  assert (Hall : Forall (fun r => call_ok r = true /\ has_int_timestamp r)
                   (sh ++ ch)).
  { apply Forall_app. split; (eapply Forall_impl; [eassumption |]);
      intros r (_ & H); exact H. }
  apply Forall_and in Hall as [Hok Hint].
  destruct (sort_by_timestamp_sorted (sh ++ ch) Hint)
    as (all_calls & Hsort & Hperm & Hsorted).
  destruct (summarize_usage_ok all_calls) as (s & Hs & Hn & _).
  { rewrite Hperm. exact Hok. }
  rewrite Hsort. cbn [bind]. rewrite Hs. cbn [bind].
  destruct (format_timestamp start_ms) as [fs |] eqn:Hfs; [| discriminate].
  destruct (format_timestamp end_ms) as [fe |] eqn:Hfe; [| discriminate].
  destruct (format_timestamp (time_ms w4)) as [fg |]; [| discriminate].
  cbn [bind].
  match goal with
  | |- context [json_dumps ?d ?b] => set (output_data := d)
  end.
  destruct (json_dumps output_data (pretty args)) as [j |] eqn:Hj;
    [| discriminate].
  destruct (write_file auto_filename j w4) as [[[] | e] w5] eqn:Hw;
    [| discriminate].
  intros Hrun.
  exists output_data, j, w4, w5, all_calls.
  split; [exact Hj |]. split; [exact Hw |].
  split.
  { destruct (output args) as [path |].
    - destruct (String.eqb path "").
      + injection Hrun as <-. reflexivity.
      + injection Hrun as Hrun. exact Hrun.
    - injection Hrun as <-. reflexivity. }
  subst output_data. cbn.
  split; [reflexivity |]. split; [reflexivity |]. split; [reflexivity |].
  split; [reflexivity |]. split; [reflexivity |]. split; [reflexivity |].
  split; [exact Hsorted |]. split; [exact Hs |]. split; [exact Hn |].
  reflexivity.
Qed.

End Pipeline.

(** ** More on the entry point *)

Section MoreMain.

Variable format_timestamp : Z -> result string.
Context {W : Type}.
Variable connect : string -> W -> result (ElevenLabs W) * W.
Variable time_ms : W -> Z.
Variable json_dumps : report -> bool -> result string.
Variable write_file : string -> string -> W -> result unit * W.

Lemma run_report_needs_automatic_file fuel client args start_ms end_ms
    auto_filename w w' :
  (forall content w0,
     exists e w1, write_file auto_filename content w0 = (Raise e, w1)) ->
  run_report format_timestamp time_ms json_dumps write_file fuel client args
    start_ms end_ms auto_filename w <> Some (Ok tt, w').
Proof.
  intros Hauto. unfold run_report.
  destruct (get_subscription_info client w) as [subscription_info w1].
  destruct (get_speech_history _ _ _ _ _ w1) as [[sh w2] |]; [| discriminate].
  destruct (get_conversation_history _ _ _ _ _ w2) as [[ch w3] |];
    [| discriminate].
  destruct (get_usage_analytics _ _ _ _ _ w3) as [usage_analytics w4].
  destruct (bind _ _) as [j | e]; [| discriminate].
  destruct (Hauto j w4) as (e & w5 & ->). discriminate.
Qed.

(** X24: the automatic file is not optional: when it cannot be written, a
    run whose arguments were parsed exits with code 1, whatever [--output]
    names and however well that file could be written; the only exit with
    code 0 left is the one of the argument parser after the help. *)
Theorem main_exit_one_without_automatic_file
    fuel api_key parsed w code w' :
  (forall content w0,
     exists e w1,
       write_file ("api_stats_" ++ str_of_int (time_ms w / 1000) ++ ".json")
         content w0 = (Raise e, w1)) ->
  main format_timestamp connect time_ms json_dumps write_file fuel api_key
    parsed w = Some (code, w') ->
  (forall args, parsed = Parsed args -> code = 1) /\
  (code = 0 -> parsed = HelpShown).
Proof.
  intros Hauto Hrun.
  assert (Hparsed : forall args, parsed = Parsed args -> code = 1).
  { intros args ->. revert Hrun. unfold main.
    destruct api_key as [key |]; [| intros [= <- _]; reflexivity].
    destruct (String.eqb key ""); [intros [= <- _]; reflexivity |].
    destruct (_ >=? _); [intros [= <- _]; reflexivity |].
    destruct (bind _ _); [| intros [= <- _]; reflexivity].
    destruct (connect key w) as [[client | e] w1];
      [| intros [= <- _]; reflexivity].
    pose proof (run_report_needs_automatic_file fuel client args
                  (normalize_timestamp (start_timestamp args))
                  (normalize_timestamp (end_timestamp args))
                  ("api_stats_" ++ str_of_int (time_ms w / 1000) ++ ".json")
                  w1) as Hneed.
    destruct (run_report _ _ _ _ _ _ _ _ _ _ _) as [[[[] | e] w2] |];
      [| intros [= <- _]; reflexivity | discriminate].
    exfalso. apply (Hneed w2 Hauto). reflexivity. }
  split; [exact Hparsed |].
  intros ->. destruct parsed as [args | |]; [| discriminate | reflexivity].
  specialize (Hparsed args eq_refl). discriminate.
Qed.

End MoreMain.

(** ** Termination against a service with finitely many pages *)

Section FiniteService.

Variable format_timestamp : Z -> result string.

Lemma speech_history_loop_more_fuel {W : Type} (client : ElevenLabs W)
    fuel k start_ms end_ms cur acc w r :
  speech_history_loop format_timestamp client fuel start_ms end_ms cur acc w
    = Some r ->
  speech_history_loop format_timestamp client (fuel + k) start_ms end_ms
    cur acc w = Some r.
Proof.
  revert cur acc w. induction fuel as [| fuel IH]; intros cur acc w;
    [discriminate |].
  cbn [Nat.add]. rewrite !speech_history_loop_step.
  destruct (history_list client 1000 cur w) as [[response | e] w1]; [| auto].
  destruct (history response) as [| item0 items0]; [auto |].
  destruct (scan_history _ _ _ _ _) as [acc1 [| | e]]; [| auto | auto].
  destruct (negb (has_more response)); [auto |]. apply IH.
Qed.

Lemma conversation_loop_more_fuel {W : Type} (client : ElevenLabs W)
    fuel k s e cur acc w r :
  conversation_loop format_timestamp client fuel s e cur acc w = Some r ->
  conversation_loop format_timestamp client (fuel + k) s e cur acc w = Some r.
Proof.
  revert cur acc w. induction fuel as [| fuel IH]; intros cur acc w;
    [discriminate |].
  cbn [Nat.add]. rewrite !conversation_loop_step.
  destruct (conversations_list client cur s e 100 w)
    as [[response | ex] w1]; [| auto].
  destruct (conversations response) as [| c0 cs0]; [auto |].
  destruct (scan_conversations _ _ _ _ _) as [[acc1 | ex] w2]; [| auto].
  destruct (cursor response) as [| | c]; [auto | auto |].
  destruct (String.eqb c ""); [auto |]. apply IH.
Qed.

Lemma canned_speech_history_loop_pages fuel start_ms end_ms :
  forall cur acc (w : canned) res w',
    speech_history_loop format_timestamp canned_client fuel start_ms end_ms
      cur acc w = Some (res, w') ->
    conversation_pages w' = conversation_pages w.
Proof.
  induction fuel as [| fuel IH]; intros cur acc w res w'; [discriminate |].
  rewrite speech_history_loop_step. cbn [canned_client history_list].
  destruct (history_pages w) as [| p hp]; [intros [= _ <-]; reflexivity |].
  destruct p as [response | e]; [| intros [= _ <-]; reflexivity].
  destruct (history response) as [| item0 items0];
    [intros [= _ <-]; reflexivity |].
  destruct (scan_history _ _ _ _ _) as [acc1 [| | e]];
    [| intros [= _ <-]; reflexivity | intros [= _ <-]; reflexivity].
  destruct (negb (has_more response)); [intros [= _ <-]; reflexivity |].
  intros H. apply IH in H. exact H.
Qed.

Variable time_ms : canned -> Z.
Variable json_dumps : report -> bool -> result string.
Variable write_file : string -> string -> canned -> result unit * canned.

Lemma canned_run_report_returns fuel args start_ms end_ms auto_filename
    (w : canned) :
  (length (history_pages w) < fuel)%nat ->
  (length (conversation_pages w) < fuel)%nat ->
  exists r w',
    run_report format_timestamp time_ms json_dumps write_file fuel
      canned_client args start_ms end_ms auto_filename w = Some (r, w').
Proof.
  intros Hh Hc. unfold run_report.
  cbn [get_subscription_info canned_client user_get].
  destruct (canned_speech_history_returns format_timestamp start_ms end_ms w)
    as (sh & w2 & Hsh).
  pose proof Hsh as Hpages. apply canned_speech_history_loop_pages in Hpages.
  apply (speech_history_loop_more_fuel canned_client _
           (fuel - S (length (history_pages w)))) in Hsh.
  replace (S (length (history_pages w))
           + (fuel - S (length (history_pages w))))%nat with fuel in Hsh by lia.
  unfold get_speech_history at 1. rewrite Hsh.
  destruct (canned_conversation_loop_returns format_timestamp
              (length (conversation_pages w2)) (start_ms / 1000)
              (end_ms / 1000) w2 None [] eq_refl) as (rc & w3 & Hch).
  apply (conversation_loop_more_fuel canned_client _
           (fuel - S (length (conversation_pages w2)))) in Hch.
  replace (S (length (conversation_pages w2))
           + (fuel - S (length (conversation_pages w2))))%nat with fuel in Hch
    by (rewrite Hpages; lia).
  unfold get_conversation_history. rewrite Hch.
  destruct rc as [ch | ex];
    destruct (get_usage_analytics _ _ _ _ _ w3) as [usage_analytics w4];
    destruct (bind _ _) as [j | e]; eauto;
    destruct (write_file auto_filename j w4) as [[u | e] w5]; eauto;
    destruct (output args) as [path |]; eauto;
    destruct (String.eqb path ""); eauto;
    destruct (write_file path j w5); eauto.
Qed.

(** X25: against a service that has finitely many pages of history and of
    sessions the program comes to an end: a run that is allowed one request
    more than each has pages returns an exit code, the one of the argument
    parser (2 or 0) when that ends the run, and 0 or 1 for parsed
    arguments. *)
Theorem main_returns_on_finite_service fuel api_key parsed (w : canned) :
  (length (history_pages w) < fuel)%nat ->
  (length (conversation_pages w) < fuel)%nat ->
  exists code w',
    main format_timestamp sample_connect time_ms json_dumps write_file fuel
      api_key parsed w = Some (code, w') /\
    match parsed with
    | Parsed _ => code = 0 \/ code = 1
    | UsageError => code = 2
    | HelpShown => code = 0
    end.
Proof.
  intros Hh Hc. unfold main.
  destruct parsed as [args | |]; [| eauto | eauto].
  destruct api_key as [key |]; [| eauto 6].
  destruct (String.eqb key ""); [eauto 6 |].
  destruct (_ >=? _); [eauto 6 |].
  destruct (bind _ _); [| eauto 6].
  cbn [sample_connect].
  destruct (canned_run_report_returns fuel args
              (normalize_timestamp (start_timestamp args))
              (normalize_timestamp (end_timestamp args))
              ("api_stats_" ++ str_of_int (time_ms w / 1000) ++ ".json")
              w Hh Hc) as ([u | e] & w' & ->); eauto 6.
Qed.

End FiniteService.

(** ** The subscription reader *)

Lemma next_reset_formatted_of_reset format_timestamp user_info :
  next_reset_formatted_of format_timestamp
    (next_character_count_reset_unix (subscription user_info))
  = match reset_time user_info with
    | Some t => formatted <- format_timestamp (t * 1000) ;; Ok (VStr formatted)
    | None => Ok VNone
    end.
Proof.
  unfold next_reset_formatted_of, reset_time.
  destruct (next_character_count_reset_unix _) as [t |]; [| reflexivity].
  destruct (t =? 0); reflexivity.
Qed.

Lemma subscription_data_ok format_timestamp user_info v :
  next_reset_formatted_of format_timestamp
    (next_character_count_reset_unix (subscription user_info)) = Ok v ->
  exists d,
    subscription_data format_timestamp user_info = Ok d /\
    List.map fst d
    = subscription_keys
      ++ (if has_detailed_usage user_info then ["detailed_usage"] else []) /\
    dict_get "next_reset_unix" d
    = Some (opt_int (next_character_count_reset_unix (subscription user_info))) /\
    dict_get "next_reset_formatted" d = Some v /\
    dict_get "character_count_used" d
    = Some (character_count (subscription user_info)) /\
    dict_get "detailed_usage" d
    = match subscription_extras user_info with
      | Some extras => option_map detailed_usage_of (usage extras)
      | None => None
      end.
Proof.
  intros Hv. unfold subscription_data, has_detailed_usage. rewrite Hv.
  cbn [bind].
  destruct (subscription_extras user_info) as [[[u |]] |];
    eexists; (split; [reflexivity |]); repeat split.
Qed.

Section SubscriptionReader.
Variable format_timestamp : Z -> result string.
Context {W : Type}.
Variable client : ElevenLabs W.
Variable get : W -> result user_response * W.
Hypothesis client_reads : user_get client = read_subscription format_timestamp get.

(** X26: from an answer of the service the subscription reader makes a
    dictionary with the eleven fixed keys in their order, followed by
    [detailed_usage] exactly when the answer carries usage extras;
    [character_count_used] is the answer's [character_count]; and
    [next_reset_formatted] is the rendered reset time, or [None] when the
    reset time is [None] or 0. *)
Theorem subscription_info_of_answer w user_info w1 v :
  get w = (Ok user_info, w1) ->
  match reset_time user_info with
  | Some t => exists f, format_timestamp (t * 1000) = Ok f /\ v = VStr f
  | None => v = VNone
  end ->
  exists d,
    get_subscription_info client w = (VDict d, w1) /\
    List.map fst d
    = subscription_keys
      ++ (if has_detailed_usage user_info then ["detailed_usage"] else []) /\
    dict_get "next_reset_unix" d
    = Some (opt_int (next_character_count_reset_unix (subscription user_info))) /\
    dict_get "next_reset_formatted" d = Some v /\
    dict_get "character_count_used" d
    = Some (character_count (subscription user_info)) /\
    dict_get "detailed_usage" d
    = match subscription_extras user_info with
      | Some extras => option_map detailed_usage_of (usage extras)
      | None => None
      end.
Proof.
  intros Hget Hv.
  destruct (subscription_data_ok format_timestamp user_info v)
    as (d & Hd & Hrest).
  { rewrite next_reset_formatted_of_reset.
    destruct (reset_time user_info) as [t |]; [| congruence].
    destruct Hv as (f & -> & ->). reflexivity. }
  exists d. split; [| exact Hrest].
  unfold get_subscription_info. rewrite client_reads.
  unfold read_subscription. rewrite Hget. cbn [bind]. rewrite Hd.
  reflexivity.
Qed.

(** X27: the subscription reader never raises, and it answers with a
    dictionary that holds nothing but an [error] note in two cases: when
    the request fails, and when the reset time is there, is not 0 and
    cannot be rendered, in which case all the other fields are lost with
    it. *)
Theorem subscription_info_error w :
  (forall e w1,
     get w = (Raise e, w1) ->
     get_subscription_info client w
     = (VDict [("error", VStr (exn_str e))], w1)) /\
  (forall user_info w1 t e,
     get w = (Ok user_info, w1) ->
     reset_time user_info = Some t ->
     format_timestamp (t * 1000) = Raise e ->
     get_subscription_info client w
     = (VDict [("error", VStr (exn_str e))], w1)) /\
  (forall d w1,
     get_subscription_info client w = (VDict d, w1) ->
     dict_get "error" d <> None ->
     (exists e, get w = (Raise e, w1)) \/
     (exists user_info t e,
        get w = (Ok user_info, w1) /\ reset_time user_info = Some t /\
        format_timestamp (t * 1000) = Raise e)).
Proof.
  unfold get_subscription_info. rewrite client_reads. unfold read_subscription.
  split; [| split].
  - intros e w1 ->. reflexivity.
  - intros user_info w1 t e -> Ht Hf. cbn [bind].
    unfold subscription_data. rewrite next_reset_formatted_of_reset, Ht, Hf.
    reflexivity.
  - intros d w1. destruct (get w) as [[user_info | e] w0]; cbn [bind].
    + pose proof (next_reset_formatted_of_reset format_timestamp user_info)
        as Hreset.
      destruct (reset_time user_info) as [t |] eqn:Ht.
      * destruct (format_timestamp (t * 1000)) as [f | e] eqn:Hf.
        -- cbn [bind] in Hreset.
           destruct (subscription_data_ok _ _ _ Hreset)
             as (d' & -> & Hkeys & _).
           intros [= <- <-] Herr. exfalso. apply Herr. clear Herr.
           assert (Hnot : ~ In "error" (List.map fst d')).
           { rewrite Hkeys. destruct (has_detailed_usage user_info);
               cbn; intros H; repeat destruct H as [H | H]; discriminate || auto. }
           clear Hkeys. induction d' as [| [k x] d' IH]; [reflexivity |].
           cbn in Hnot |- *. destruct (String.eqb_spec k "error") as [-> | _].
           ++ exfalso. apply Hnot. left. reflexivity.
           ++ apply IH. intros H. apply Hnot. right. exact H.
        -- intros H _. right. exists user_info, t, e.
           unfold subscription_data in H. rewrite Hreset in H.
           cbn [bind] in H. injection H as _ <-. auto.
      * destruct (subscription_data_ok _ _ _ Hreset) as (d' & -> & Hkeys & _).
        intros [= <- <-] Herr. exfalso. apply Herr. clear Herr.
        assert (Hnot : ~ In "error" (List.map fst d')).
        { rewrite Hkeys. destruct (has_detailed_usage user_info);
            cbn; intros H; repeat destruct H as [H | H]; discriminate || auto. }
        clear Hkeys. induction d' as [| [k x] d' IH]; [reflexivity |].
        cbn in Hnot |- *. destruct (String.eqb_spec k "error") as [-> | _].
        -- exfalso. apply Hnot. left. reflexivity.
        -- apply IH. intros H. apply Hnot. right. exact H.
    + intros [= _ <-] _. left. eauto.
Qed.

End SubscriptionReader.

(** ** The further statements at work on the sample data *)

Lemma sample_item_record id t from to :
  0 <= t * 1000 < 253402300800000 ->
  exists r,
    speech_call_data utc_format_timestamp
      (sample_item_counting (Has from) (Has to) id t) (t * 1000) = Ok r.
Proof.
  intros Ht.
  assert (Hf : exists f, utc_format_timestamp (t * 1000) = Ok f).
  { unfold utc_format_timestamp.
    destruct (civil_from_days _) as [[y m] d].
    replace ((-62135596800000 <=? t * 1000)
             && (t * 1000 <? 253402300800000)) with true; [eauto |].
    symmetry. apply andb_true_intro.
    split; [apply Z.leb_le | apply Z.ltb_lt]; lia. }
  destruct Hf as [f Hf]. unfold speech_call_data. rewrite Hf.
  cbn [bind calculate_credits_used getattr_int sample_item_counting
       character_count_change_from character_count_change_to].
  eexists. reflexivity.
Defined.

Lemma sample_first_page_scanned_with rest cp :
  pages_scanned utc_format_timestamp canned_client sample_start_ms
    sample_end_ms 1 None [] (sample_world_with (Ok sample_first_page :: rest) cp)
    (Some "h5") sample_first_kept
    (Canned rest cp (details sample_world) 1).
Proof.
  apply (scanned_more utc_format_timestamp canned_client sample_start_ms
           sample_end_ms 0 None []
           (sample_world_with (Ok sample_first_page :: rest) cp)
           sample_first_page
           (Canned rest cp (details sample_world) 1) sample_first_kept).
  - reflexivity.
  - discriminate.
  - exact sample_first_scanned.
  - reflexivity.
  - constructor.
Defined.

Lemma speech_records_credit_is_counter_difference_witness :
  Forall (fun r : record =>
            exists from to,
              r !! "character_count_from" = Some (VInt from) /\
              r !! "character_count_to" = Some (VInt to) /\
              r !! "credits_used" = Some (VInt (from - to))) sample_kept /\
  calculate_credits_used
    (sample_item_counting Missing (Has 100) "h3" 1700000300) = Ok 0 /\
  exists e,
    speech_call_data utc_format_timestamp
      (sample_item_counting Missing (Has 100) "h3" 1700000300) 1700000300000
    = Raise e.
Proof.
  destruct (speech_records_credit_is_counter_difference utc_format_timestamp
              canned_client sample_start_ms sample_end_ms) as [Hrecs Hmiss].
  split; [exact (Hrecs 2%nat _ _ _ sample_speech_run) |].
  apply Hmiss. left. reflexivity.
Defined.

Lemma speech_history_partial_on_failed_request_witness :
  get_speech_history utc_format_timestamp canned_client 2
    sample_start_ms sample_end_ms
    (sample_world_with
       [Ok sample_first_page; Raise (ApiError "status_code: 502");
        Ok sample_page] [])
  = Some (sample_first_kept,
          Canned [Ok sample_page] [] (details sample_world) 2) /\
  Forall (in_window sample_start_ms sample_end_ms) sample_first_kept.
Proof.
  apply (speech_history_partial_on_failed_request utc_format_timestamp
           canned_client 1 0 sample_start_ms sample_end_ms _ _ _ _
           (ApiError "status_code: 502")
           (Canned [Ok sample_page] [] (details sample_world) 2)
           (sample_first_page_scanned_with
              [Raise (ApiError "status_code: 502"); Ok sample_page] [])).
  reflexivity.
Defined.

Lemma speech_history_ends_without_more_pages_witness :
  get_speech_history utc_format_timestamp canned_client 2
    sample_start_ms sample_end_ms
    (sample_world_with
       [Ok sample_first_page; Ok sample_empty_page; Ok sample_page] [])
  = Some (sample_first_kept,
          Canned [Ok sample_page] [] (details sample_world) 2) /\
  get_speech_history utc_format_timestamp canned_client 2
    sample_start_ms sample_end_ms
    (sample_world_with
       [Ok sample_first_page; Ok sample_last_page; Ok sample_page] [])
  = Some (sample_kept,
          Canned [Ok sample_page] [] (details sample_world) 2).
Proof.
  split.
  - destruct (speech_history_ends_without_more_pages utc_format_timestamp
                canned_client 1 0 sample_start_ms sample_end_ms _ _ _ _
                sample_empty_page
                (Canned [Ok sample_page] [] (details sample_world) 2)
                (sample_first_page_scanned_with
                   [Ok sample_empty_page; Ok sample_page] []) eq_refl) as [Hempty _].
    apply Hempty. reflexivity.
  - destruct (speech_history_ends_without_more_pages utc_format_timestamp
                canned_client 1 0 sample_start_ms sample_end_ms _ _ _ _
                sample_last_page
                (Canned [Ok sample_page] [] (details sample_world) 2)
                (sample_first_page_scanned_with
                   [Ok sample_last_page; Ok sample_page] []) eq_refl) as [_ Hlast].
    apply Hlast.
    + discriminate.
    + exact sample_newer_scanned.
    + reflexivity.
Defined.

Lemma speech_history_truncated_at_unbuildable_item_witness :
  exists r,
    get_speech_history utc_format_timestamp canned_client 1
      sample_start_ms sample_end_ms
      (sample_world_with [Ok sample_page_with_null] [])
    = Some ([r], Canned [] [] (details sample_world) 1) /\
    r !! "id" = Some (VStr "h3").
Proof.
  destruct (sample_item_record "h3" 1700000300 142 100) as [r Hr]; [lia |].
  exists r.
  destruct (speech_history_truncated_at_unbuildable_item utc_format_timestamp
              canned_client 0 0 sample_start_ms sample_end_ms
              (sample_world_with [Ok sample_page_with_null] []) None []
              (sample_world_with [Ok sample_page_with_null] [])
              sample_page_with_null (Canned [] [] (details sample_world) 1)
              [sample_item "h3" 1700000300]
              (sample_item_counting Null (Has 100) "h2" 1700000200)
              [sample_item "h1" 1700000160] [r])
    as [_ Hrun].
  - constructor.
  - reflexivity.
  - reflexivity.
  - cbn [scan_history date_unix sample_item].
    replace ((sample_start_ms <=? 1700000300 * 1000)
             && (1700000300 * 1000 <=? sample_end_ms)) with true
      by (vm_compute; reflexivity).
    change (sample_item "h3" 1700000300)
      with (sample_item_counting (Has 142) (Has 100) "h3" 1700000300).
    rewrite Hr. reflexivity.
  - vm_compute. reflexivity.
  - left. intros from. discriminate.
  - split; [exact Hrun |].
    clear Hrun. revert Hr. unfold speech_call_data.
    destruct (calculate_credits_used _); [| discriminate]. cbn [bind].
    destruct (utc_format_timestamp _); [| discriminate]. cbn [bind].
    intros H. apply Ok_inj in H. subst r. vm_compute. reflexivity.
Defined.

Lemma speech_history_complete_on_newest_first_witness :
  exists res w',
    get_speech_history utc_format_timestamp canned_client 3
      sample_start_ms sample_end_ms
      (sample_world_with (List.map Ok sample_sorted_pages) [])
    = Some (res, w') /\
    length res = 2%nat.
Proof.
  assert (Hb : forall id t,
            0 <= t * 1000 < 253402300800000 ->
            item_in_window sample_start_ms sample_end_ms (sample_item id t)
              = true ->
            exists r, speech_record_of utc_format_timestamp (sample_item id t) r).
  { intros id t Ht _. exact (sample_item_record id t 142 100 Ht). }
  destruct (speech_history_complete_on_newest_first utc_format_timestamp
              sample_start_ms sample_end_ms sample_sorted_pages
              (sample_world_with (List.map Ok sample_sorted_pages) []))
    as (res & w' & Hrun & Hrecs).
  - reflexivity.
  - unfold newest_first. cbn [served_items sample_sorted_pages history has_more app].
    repeat constructor; cbn; lia.
  - cbn [served_items sample_sorted_pages history has_more app].
    repeat (constructor; [apply Hb; lia |]). constructor.
  - exists res, w'. split; [exact Hrun |].
    apply Forall2_length in Hrecs. rewrite <- Hrecs. vm_compute. reflexivity.
Defined.

Lemma sample_scanned_run convs acc w w' :
  match scan_conversations utc_format_timestamp canned_client convs acc w with
  | (Ok _, w1) => Some w1
  | (Raise _, _) => None
  end = Some w' ->
  scan_conversations utc_format_timestamp canned_client convs acc w
  = (Ok (sample_scanned convs acc w), w').
Proof.
  unfold sample_scanned.
  destruct (scan_conversations _ _ _ _ _) as [[records | e] w1];
    [intros [= ->]; reflexivity | discriminate].
Defined.

Lemma sample_more_scanned cp :
  conversation_pages_scanned utc_format_timestamp canned_client
    (sample_start_ms / 1000) (sample_end_ms / 1000) 1
    (conversations sample_conversations_more) None []
    (sample_world_with [] (Ok sample_conversations_more :: cp))
    (Some "page2")
    (sample_scanned (conversations sample_conversations_more) []
       (sample_conversations_after cp 0 1))
    (sample_conversations_after cp 0 3).
Proof.
  rewrite <- (app_nil_r (conversations sample_conversations_more)) at 1.
  apply (conversations_scanned_more utc_format_timestamp canned_client
           (sample_start_ms / 1000) (sample_end_ms / 1000) 0 [] None []
           (sample_world_with [] (Ok sample_conversations_more :: cp))
           sample_conversations_more
           (sample_conversations_after cp 0 1)
           (sample_scanned (conversations sample_conversations_more) []
              (sample_conversations_after cp 0 1))
           (sample_conversations_after cp 0 3) "page2").
  - reflexivity.
  - discriminate.
  - apply sample_scanned_run. reflexivity.
  - reflexivity.
  - constructor.
Defined.

Lemma conversation_history_one_record_per_session_witness :
  exists res,
    get_conversation_history utc_format_timestamp canned_client 2
      sample_start_ms sample_end_ms
      (sample_world_with []
         [Ok sample_conversations_more; Ok sample_conversations])
    = Some (res, sample_conversations_after [] 0 7) /\
    record_ids res
    = [Some (VStr "conv1"); Some (VStr "conv3"); Some (VStr "conv1");
       Some (VStr "conv2"); Some (VStr "conv3")].
Proof.
  destruct (conversation_history_one_record_per_session utc_format_timestamp
              canned_client 1 0 sample_start_ms sample_end_ms
              (conversations sample_conversations_more)
              (sample_world_with []
                 [Ok sample_conversations_more; Ok sample_conversations])
              (Some "page2")
              (sample_scanned (conversations sample_conversations_more) []
                 (sample_conversations_after [Ok sample_conversations] 0 1))
              (sample_conversations_after [Ok sample_conversations] 0 3)
              sample_conversations
              (sample_conversations_after [] 0 4)
              (sample_scanned (conversations sample_conversations)
                 (sample_scanned (conversations sample_conversations_more) []
                    (sample_conversations_after [Ok sample_conversations] 0 1))
                 (sample_conversations_after [] 0 4))
              (sample_conversations_after [] 0 7))
    as (res & Hrun & Hids & _).
  - exact (sample_more_scanned [Ok sample_conversations]).
  - reflexivity.
  - apply sample_scanned_run. vm_compute. reflexivity.
  - reflexivity.
  - exists res. split; [exact Hrun | exact Hids].
Defined.

Lemma conversation_history_empty_on_failed_request_witness :
  get_conversation_history utc_format_timestamp canned_client 2
    sample_start_ms sample_end_ms
    (sample_world_with []
       [Ok sample_conversations_more; Raise (ApiError "status_code: 502")])
  = Some ([], sample_conversations_after [] 0 4) /\
  length (sample_scanned (conversations sample_conversations_more) []
            (sample_conversations_after
               [Raise (ApiError "status_code: 502")] 0 1)) = 2%nat.
Proof.
  apply (conversation_history_empty_on_failed_request utc_format_timestamp
           canned_client 1 0 sample_start_ms sample_end_ms
           (conversations sample_conversations_more) _ _ _ _
           (ApiError "status_code: 502")
           (sample_conversations_after [] 0 4)
           (sample_more_scanned [Raise (ApiError "status_code: 502")])).
  reflexivity.
Defined.

Lemma conversation_history_empty_on_failed_handler_witness :
  get_conversation_history utc_format_timestamp canned_client 1
    sample_start_ms sample_end_ms
    (sample_world_with [] [Ok sample_conversations_unrenderable])
  = Some ([], sample_conversations_after [] 0 3).
Proof.
  apply (conversation_history_empty_on_failed_handler utc_format_timestamp
           canned_client 0 0 sample_start_ms sample_end_ms []
           (sample_world_with [] [Ok sample_conversations_unrenderable])
           None []
           (sample_world_with [] [Ok sample_conversations_unrenderable])
           sample_conversations_unrenderable
           (sample_conversations_after [] 0 1)
           [sample_conversation "conv1" 1700000210]
           (sample_conversation "conv2" 253402300800)
           [sample_conversation "conv3" 1700000230]
           (sample_scanned [sample_conversation "conv1" 1700000210] []
              (sample_conversations_after [] 0 1))
           (sample_conversations_after [] 0 2)
           (ApiError "status_code: 503")
           (sample_conversations_after [] 0 3)
           (ValueError "year 10000 is out of range")).
  - constructor.
  - reflexivity.
  - reflexivity.
  - apply sample_scanned_run. vm_compute. reflexivity.
  - reflexivity.
  - reflexivity.
Defined.

Lemma enriched_transcript_summary_witness :
  sample_enriched !! "transcript_summary" =
    Some (VDict [("total_items", VInt 5); ("user_messages", VInt 2);
                 ("assistant_messages", VInt 3)]) /\
  count_role "user" sample_transcript + count_role "assistant" sample_transcript
    <= 5.
Proof.
  destruct (enriched_transcript_summary utc_format_timestamp
              (sample_conversation "conv1" 1700000210)
              (sample_detail 1700000210) sample_enriched sample_enriched_built)
    as (Hsum & _ & Hle).
  split; [exact Hsum | exact Hle].
Defined.

Lemma sample_conversation_run :
  get_conversation_history utc_format_timestamp canned_client 1
    sample_start_ms sample_end_ms sample_world
  = Some (sample_scanned (conversations sample_conversations) []
            (sample_world_after 0 true 1),
          sample_world_after 0 true 4).
Proof.
  unfold get_conversation_history.
  rewrite (conversation_loop_step utc_format_timestamp canned_client).
  replace (conversations_list canned_client None (sample_start_ms / 1000)
             (sample_end_ms / 1000) 100 sample_world)
    with (Ok sample_conversations, sample_world_after 0 true 1)
    by reflexivity.
  cbn [conversations sample_conversations cursor].
  rewrite (sample_scanned_run _ [] (sample_world_after 0 true 1)
             (sample_world_after 0 true 4)); [reflexivity |].
  vm_compute. reflexivity.
Defined.

Lemma conversation_records_enriched_or_degraded_witness :
  Forall (fun r : record =>
            r !! "type" = Some (VStr "conversational_ai") /\
            ((r !! "error" = None /\
              exists n, r !! "total_llm_tokens" = Some (VInt n)) \/
             ((exists msg,
                 r !! "error"
                 = Some (VStr ("Could not fetch detailed data: " ++ msg))) /\
              r !! "total_llm_tokens" = None /\
              r !! "credits_used" = Some (VInt 0))))
    (sample_scanned (conversations sample_conversations) []
       (sample_world_after 0 true 1)).
Proof.
  exact (conversation_records_enriched_or_degraded utc_format_timestamp
           canned_client 1 sample_start_ms sample_end_ms sample_world _ _
           sample_conversation_run).
Defined.

Lemma summarize_usage_order_independent_witness :
  exists s,
    summarize_usage sample_calls = Ok s /\
    summarize_usage (rev sample_calls) = Ok s.
Proof.
  apply (summarize_usage_order_independent sample_calls (rev sample_calls)).
  - apply Permutation_swap.
  - apply timed_example_calls_ok.
Defined.

Lemma summarize_usage_by_voice_and_entry_counts_witness :
  exists s,
    summarize_usage sample_calls = Ok s /\
    breakdown_by_voice s !! KStr "Rachel" = None /\
    (forall k b, breakdown_by_type s !! k = Some b -> 1 <= count b <= 2).
Proof.
  destruct (summarize_usage_by_voice_and_entry_counts sample_calls
              (timed_example_calls_ok _ _)) as (s & Hs & Hvoice & Hcount).
  destruct (summarize_usage_ok sample_calls (timed_example_calls_ok _ _))
    as (s' & Hs' & Hn & _).
  assert (s' = s) by congruence. subst s'.
  exists s. split; [exact Hs |]. split; [rewrite Hvoice; reflexivity |].
  intros k b Hb. change 2 with (Z.of_nat (length sample_calls)).
  rewrite <- Hn. apply (Hcount (breakdown_by_type s) k b); auto.
Defined.

Lemma summarize_usage_speech_breakdowns_bounded_witness :
  exists s,
    summarize_usage sample_calls = Ok s /\
    bucket_total count (breakdown_by_source s) = 1 /\
    bucket_total count (breakdown_by_voice s) = 0 /\
    1 <= count_at (breakdown_by_type s) (KStr "speech_generation").
Proof.
  destruct (summarize_usage_speech_breakdowns_bounded sample_calls
              (timed_example_calls_ok _ _))
    as (s & Hs & Hsource & Hvoice & Hle & _).
  exists s. split; [exact Hs |].
  split; [rewrite Hsource; reflexivity |].
  split; [rewrite Hvoice; reflexivity |].
  rewrite Hsource in Hle. exact Hle.
Defined.

Lemma summarize_usage_non_integer_credits_witness :
  exists msg,
    summarize_usage (sample_calls ++ sample_call_null_credits :: sample_calls)
    = Raise (TypeError msg).
Proof.
  destruct (summarize_usage_non_integer_credits sample_calls
              sample_call_null_credits sample_calls VNone) as [Hraise _].
  - repeat constructor.
  - reflexivity.
  - discriminate.
  - exact Hraise.
Defined.

Lemma summarize_usage_missing_type_witness :
  summarize_usage (sample_calls ++ sample_call_without_type :: sample_calls)
  = Raise (KeyError "type").
Proof.
  apply (summarize_usage_missing_type sample_calls sample_call_without_type
           sample_calls).
  - repeat constructor.
  - repeat constructor.
  - reflexivity.
Defined.

Lemma summarize_usage_missing_formatted_time_witness :
  summarize_usage (sample_calls ++ sample_call_without_time :: sample_calls)
  = Raise (KeyError "formatted_time").
Proof.
  apply (summarize_usage_missing_formatted_time sample_calls
           sample_call_without_time sample_calls).
  - repeat constructor.
  - repeat constructor; eexists; reflexivity.
  - reflexivity.
Defined.

Lemma sort_by_timestamp_sorts_witness :
  exists sorted,
    sort_by_timestamp sample_unsorted = Ok sorted /\
    sorted
    = [sample_stamped "b" (VInt 10); sample_stamped "d" (VInt 20);
       sample_stamped "a" (VInt 30); sample_stamped "c" (VInt 30)] /\
    StronglySorted by_timestamp sorted /\
    stamped_at 30 sorted
    = [sample_stamped "a" (VInt 30); sample_stamped "c" (VInt 30)].
Proof.
  destruct (sort_by_timestamp_sorts sample_unsorted)
    as (sorted & Hsort & _ & Hsorted & Hstable).
  - repeat constructor; eexists; reflexivity.
  - exists sorted. split; [exact Hsort |].
    split; [| split; [exact Hsorted | rewrite Hstable; reflexivity]].
    assert (Hrun : sort_by_timestamp sample_unsorted
                   = Ok [sample_stamped "b" (VInt 10);
                         sample_stamped "d" (VInt 20);
                         sample_stamped "a" (VInt 30);
                         sample_stamped "c" (VInt 30)]) by reflexivity.
    rewrite Hrun in Hsort. apply Ok_inj in Hsort. symmetry. exact Hsort.
Defined.


Lemma fetched_calls_sorted_and_counted_witness :
  exists all_calls s,
    sort_by_timestamp
      (sample_kept
       ++ sample_scanned (conversations sample_conversations) []
            (sample_world_after 0 true 1)) = Ok all_calls /\
    StronglySorted by_timestamp all_calls /\
    summarize_usage all_calls = Ok s /\
    total_api_calls s = 6 /\
    count_at (breakdown_by_type s) (KStr "speech_generation") = 3 /\
    count_at (breakdown_by_type s) (KStr "conversational_ai") = 3.
Proof.
  destruct (fetched_calls_sorted_and_counted utc_format_timestamp
              canned_client 2 1 sample_start_ms sample_end_ms
              _ _ _ _ _ _ sample_speech_run sample_conversation_run)
    as (all_calls & s & Hsort & _ & Hsorted & Hs & Hn & Hspeech & Hconv & _).
  assert (Hsh : length sample_kept = 3%nat) by (vm_compute; reflexivity).
  assert (Hch : length (sample_scanned (conversations sample_conversations) []
                          (sample_world_after 0 true 1)) = 3%nat)
    by (vm_compute; reflexivity).
  rewrite Hsh, Hch in *.
  exists all_calls, s. auto 10.
Defined.

Lemma run_report_writes_one_document_witness :
  exists output_data all_calls,
    sample_json_dumps output_data false = Ok "{}" /\
    q_start_timestamp (r_query_info output_data) = 1700000150 /\
    q_start_timestamp_ms (r_query_info output_data) = 1700000150000 /\
    r_individual_calls output_data = Some all_calls /\
    total_api_calls (r_summary output_data) = Z.of_nat (length all_calls).
Proof.
  destruct (run_report_writes_one_document utc_format_timestamp canned_client
              sample_time_ms sample_json_dumps sample_write_file 2
              (sample_args 1700000150 1700000400)
              1700000150000 1700000400000 "api_stats_1700000600.json"
              sample_world (sample_world_after 2 true 6) sample_report_run)
    as (output_data & j & w4 & w5 & all_calls & Hj & _ & _ & Hs & _ & Hms & _
        & _ & _ & _ & _ & Hn & Hcalls).
  exists output_data, all_calls.
  split; [reflexivity |]. split; [exact Hs |]. split; [exact Hms |].
  split; [exact Hcalls | exact Hn].
Defined.

Lemma main_exit_one_without_automatic_file_witness :
  exists w',
    main utc_format_timestamp sample_connect sample_time_ms sample_json_dumps
      read_only_write_file 2 (Some "sk-demo")
      (Parsed (sample_args 1700000150 1700000400)) sample_world
    = Some (1, w').
Proof.
  destruct (main utc_format_timestamp sample_connect sample_time_ms
              sample_json_dumps read_only_write_file 2 (Some "sk-demo")
              (Parsed (sample_args 1700000150 1700000400)) sample_world)
    as [[code w'] |] eqn:Hrun.
  - exists w'.
    destruct (main_exit_one_without_automatic_file utc_format_timestamp
                sample_connect sample_time_ms sample_json_dumps
                read_only_write_file 2 (Some "sk-demo")
                (Parsed (sample_args 1700000150 1700000400)) sample_world
                code w') as [Hone _].
    + intros content w0.
      exists (ApiError "[Errno 13] Permission denied"), w0. reflexivity.
    + exact Hrun.
    + rewrite (Hone _ eq_refl). reflexivity.
  - vm_compute in Hrun. discriminate Hrun.
Defined.

Lemma main_returns_on_finite_service_witness :
  (exists code w',
     main utc_format_timestamp sample_connect sample_time_ms sample_json_dumps
       sample_write_file 3 (Some "sk-demo")
       (Parsed (sample_args 1700000150 1700000400)) sample_world
     = Some (code, w') /\
     (code = 0 \/ code = 1)) /\
  (exists code w',
     main utc_format_timestamp sample_connect sample_time_ms sample_json_dumps
       sample_write_file 3 (Some "sk-demo") UsageError sample_world
     = Some (code, w') /\
     code = 2).
Proof.
  split.
  - apply (main_returns_on_finite_service utc_format_timestamp sample_time_ms
             sample_json_dumps sample_write_file 3 (Some "sk-demo")
             (Parsed (sample_args 1700000150 1700000400)) sample_world);
      cbn; lia.
  - apply (main_returns_on_finite_service utc_format_timestamp sample_time_ms
             sample_json_dumps sample_write_file 3 (Some "sk-demo")
             UsageError sample_world); cbn; lia.
Defined.

Lemma subscription_info_of_answer_witness :
  (exists d,
     get_subscription_info
       (sample_user_client
          (Ok (sample_user (Some 1700006400)
                 (Some {| usage := Some sample_usage |})))) sample_world
     = (VDict d, sample_world_after 0 false 1) /\
     List.map fst d = subscription_keys ++ ["detailed_usage"] /\
     dict_get "next_reset_formatted" d
     = Some (VStr "2023-11-15 00:00:00 UTC")) /\
  (exists d,
     get_subscription_info
       (sample_user_client (Ok (sample_user (Some 0) None))) sample_world
     = (VDict d, sample_world_after 0 false 1) /\
     List.map fst d = subscription_keys /\
     dict_get "next_reset_unix" d = Some (VInt 0) /\
     dict_get "next_reset_formatted" d = Some VNone).
Proof.
  split.
  - destruct (subscription_info_of_answer utc_format_timestamp
                (sample_user_client
                   (Ok (sample_user (Some 1700006400)
                          (Some {| usage := Some sample_usage |}))))
                _ eq_refl sample_world
                (sample_user (Some 1700006400)
                   (Some {| usage := Some sample_usage |}))
                (sample_world_after 0 false 1)
                (VStr "2023-11-15 00:00:00 UTC"))
      as (d & Hrun & Hkeys & _ & Hformatted & _).
    + reflexivity.
    + exists "2023-11-15 00:00:00 UTC".
      split; [vm_compute; reflexivity | reflexivity].
    + exists d. auto.
  - destruct (subscription_info_of_answer utc_format_timestamp
                (sample_user_client (Ok (sample_user (Some 0) None)))
                _ eq_refl sample_world (sample_user (Some 0) None)
                (sample_world_after 0 false 1) VNone)
      as (d & Hrun & Hkeys & Hunix & Hformatted & _).
    + reflexivity.
    + reflexivity.
    + exists d. rewrite app_nil_r in Hkeys. auto.
Defined.

Lemma subscription_info_error_witness :
  get_subscription_info
    (sample_user_client (Raise (ApiError "status_code: 401"))) sample_world
  = (VDict [("error", VStr "status_code: 401")],
     sample_world_after 0 false 1) /\
  get_subscription_info
    (sample_user_client (Ok (sample_user (Some 253402300800) None)))
    sample_world
  = (VDict [("error", VStr "year 10000 is out of range")],
     sample_world_after 0 false 1).
Proof.
  split.
  - destruct (subscription_info_error utc_format_timestamp
                (sample_user_client (Raise (ApiError "status_code: 401")))
                _ eq_refl sample_world) as (Hfail & _).
    apply (Hfail (ApiError "status_code: 401")). reflexivity.
  - destruct (subscription_info_error utc_format_timestamp
                (sample_user_client
                   (Ok (sample_user (Some 253402300800) None)))
                _ eq_refl sample_world) as (_ & Hrender & _).
    apply (Hrender (sample_user (Some 253402300800) None) _ 253402300800
             (ValueError "year 10000 is out of range")); reflexivity.
Defined.

(** ** Where the specification's wording fails on the conversation fetcher *)

Lemma sample_degraded_without_metadata :
  exists r,
    conversation_step utc_format_timestamp canned_client
      (sample_conversation "conv1" 1700000210)
      (sample_without_metadata_after 0)
    = (Ok r, sample_without_metadata_after 1) /\
    degraded_conv_data utc_format_timestamp
      (sample_conversation "conv1" 1700000210)
      (AttributeError "'NoneType' object has no attribute 'cost'") = Ok r.
Proof.
  destruct (answer_usable_emitted utc_format_timestamp
              (sample_conversation "conv1" 1700000210)
              (Raise (AttributeError
                        "'NoneType' object has no attribute 'cost'")))
    as [r Hr]; [vm_compute; reflexivity |].
  cbn [emitted_for] in Hr. exists r. split; [| exact Hr].
  unfold conversation_step.
  replace (conversations_get canned_client
             (conversation_id (sample_conversation "conv1" 1700000210))
             (sample_without_metadata_after 0))
    with (Ok sample_detail_without_metadata, sample_without_metadata_after 1)
    by reflexivity.
  cbn [bind].
  rewrite (enriched_needs_metadata utc_format_timestamp _
             sample_detail_without_metadata eq_refl).
  rewrite Hr. reflexivity.
Qed.

(** C4 as the specification words it fails for a detail that comes without
    metadata: the detail request succeeds and the transcript exposes 42
    tokens, but no cost of 0 is computed and no tokens are summed; the
    session gets the degraded record, with the error note and without a
    token count. *)
Lemma detail_without_metadata_not_enriched :
  conversations_get canned_client "conv1" (sample_without_metadata_after 0)
  = (Ok sample_detail_without_metadata, sample_without_metadata_after 1) /\
  metadata sample_detail_without_metadata = None /\
  total_cost_spec sample_detail_without_metadata = 0 /\
  total_llm_tokens_spec sample_detail_without_metadata = 42 /\
  exists r,
    conversation_step utc_format_timestamp canned_client
      (sample_conversation "conv1" 1700000210)
      (sample_without_metadata_after 0)
    = (Ok r, sample_without_metadata_after 1) /\
    r !! "error"
    = Some (VStr "Could not fetch detailed data: 'NoneType' object has no attribute 'cost'") /\
    r !! "total_llm_tokens" = None /\
    r !! "total_llm_tokens" <> Some (VInt 42).
Proof.
  split; [reflexivity |]. split; [reflexivity |]. split; [reflexivity |].
  split; [reflexivity |].
  destruct sample_degraded_without_metadata as (r & Hstep & Hr).
  exists r. split; [exact Hstep |].
  apply degraded_conv_data_fields in Hr
    as (f & _ & _ & _ & _ & _ & _ & _ & Herr & Htokens & _).
  split; [exact Herr |]. split; [exact Htokens |].
  rewrite Htokens. discriminate.
Qed.

(** C5 as the specification words it fails when a detail that was fetched
    comes without metadata: of three listed sessions exactly one detail
    request fails, yet two of the three records are degraded and only one
    is enriched. *)
Lemma one_failed_detail_two_degraded :
  List.map (fun id => failed (assoc_detail id
                                (details sample_world_without_metadata)))
    ["conv1"; "conv2"; "conv3"] = [false; true; false] /\
  exists r1 r2 r3,
    get_conversation_history utc_format_timestamp canned_client 1
      sample_start_ms sample_end_ms sample_world_without_metadata
    = Some ([r1; r2; r3], sample_without_metadata_after 4) /\
    List.map has_error [r1; r2; r3] = [true; true; false] /\
    length (List.filter has_error [r1; r2; r3]) = 2%nat.
Proof.
  split; [reflexivity |].
  assert (Hrun : get_conversation_history utc_format_timestamp canned_client 1
                   sample_start_ms sample_end_ms sample_world_without_metadata
                 = Some (sample_scanned (conversations sample_conversations) []
                           (sample_without_metadata_after 1),
                         sample_without_metadata_after 4)).
  { unfold get_conversation_history.
    rewrite (conversation_loop_step utc_format_timestamp canned_client).
    replace (conversations_list canned_client None (sample_start_ms / 1000)
               (sample_end_ms / 1000) 100 sample_world_without_metadata)
      with (Ok sample_conversations, sample_without_metadata_after 1)
      by reflexivity.
    cbn [conversations sample_conversations cursor].
    rewrite (sample_scanned_run _ [] (sample_without_metadata_after 1)
               (sample_without_metadata_after 4)); [reflexivity |].
    vm_compute. reflexivity. }
  assert (Herr : List.map has_error
                   (sample_scanned (conversations sample_conversations) []
                      (sample_without_metadata_after 1))
                 = [true; true; false]) by (vm_compute; reflexivity).
  destruct (sample_scanned _ _ _) as [| r1 [| r2 [| r3 [| r4 rest]]]];
    try discriminate Herr.
  exists r1, r2, r3. split; [exact Hrun |]. split; [exact Herr |].
  cbn [List.map] in Herr. injection Herr as H1 H2 H3.
  cbn [List.filter]. rewrite H1, H2, H3. reflexivity.
Qed.
